(** * Session-recording playlist counters and the revenue example query

    A shallow embedding of

    - [ee/session_recordings/playlist_counters/recordings_that_match_playlist_filters.py]
      (legacy filter conversion, translation of universal filters into the
      arguments of a [RecordingsQuery], and the celery task that counts the
      recordings matching a playlist), and
    - [posthog/hogql_queries/web_analytics/revenue_example_data_warehouse_tables_query_runner.py]
      (the [to_query] method of the revenue example runner).

    Filter documents are JSON values.  Python dictionaries keep insertion
    order, which is observable (iteration, [json.dumps]), so a dictionary is
    an association list with the keys in insertion order; a string is the
    sequence of its characters.  The redis cache and the playlist table,
    which are only ever addressed by key, are [gmap]s.  Line numbers in the
    comments are those of the first file. *)

From Stdlib Require Import ZArith String List Bool Lia SpecFloat.
From stdpp Require Import base option gmap strings.
Import ListNotations.

Local Open Scope string_scope.
Local Open Scope Z_scope.
Local Open Scope list_scope.

(** ** JSON values as Python sees them *)

#[warnings="-register-all"]
Inductive json : Type :=
| JNull
| JBool (b : bool)
| JInt (z : Z)
| JFloat (f : spec_float)
| JStr (s : string)
| JList (l : list json)
| JDict (d : list (string * json)).

Abbreviation pydict := (list (string * json)).

(** Exceptions.  The built-in errors raised by the interpreter itself
    ([TypeError], [AttributeError], ...) are modelled by their class only;
    [Exception args] is [raise Exception(...)] with its argument tuple. *)
Inductive exn : Type :=
| Exception (args : list json)
| KeyError (key : json)
| TypeError
| AttributeError
| ValidationError
| ValueError
| OverflowError
| DoesNotExist
| DatabaseError
| OtherError (class_name : string).

Definition exn_args (e : exn) : list json :=
  match e with
  | Exception args => args
  | KeyError k => [k]
  | _ => []
  end.

(** [e.__class__.__name__] *)
Definition exn_class_name (e : exn) : string :=
  match e with
  | Exception _ => "Exception"
  | KeyError _ => "KeyError"
  | TypeError => "TypeError"
  | AttributeError => "AttributeError"
  | ValidationError => "ValidationError"
  | ValueError => "ValueError"
  | OverflowError => "OverflowError"
  | DoesNotExist => "DoesNotExist"
  | DatabaseError => "DatabaseError"
  | OtherError n => n
  end.

Inductive result (A : Type) : Type :=
| Ok (a : A)
| Raise (e : exn).
Arguments Ok {A} a.
Arguments Raise {A} e.

(** ** The error monad of the pure functions *)

Definition rbind {A B} (m : result A) (f : A -> result B) : result B :=
  match m with
  | Ok a => f a
  | Raise e => Raise e
  end.

Declare Scope result_scope.
Delimit Scope result_scope with result.
Notation "'let?' x ':=' m 'in' k" := (rbind m (fun x => k))
  (at level 10, x name, m at level 100, k at level 200) : result_scope.

Module Py.

Local Open Scope result_scope.

(** [bool(x)] *)
Definition truthy (x : json) : bool :=
  match x with
  | JNull => false
  | JBool b => b
  | JInt z => negb (z =? 0)
  | JFloat (S754_zero _) => false
  | JFloat _ => true
  | JStr s => negb (String.eqb s "")
  | JList l => match l with [] => false | _ => true end
  | JDict d => match d with [] => false | _ => true end
  end.

(** [k in d] *)
Fixpoint contains (d : pydict) (k : string) : bool :=
  match d with
  | [] => false
  | (k', _) :: d' => if String.eqb k' k then true else contains d' k
  end.

Fixpoint lookup (d : pydict) (k : string) : option json :=
  match d with
  | [] => None
  | (k', v) :: d' => if String.eqb k' k then Some v else lookup d' k
  end.

(** [d.get(k, dflt)] *)
Definition get_or (d : pydict) (k : string) (dflt : json) : json :=
  match lookup d k with Some v => v | None => dflt end.

(** [d.get(k)] *)
Definition get (d : pydict) (k : string) : json := get_or d k JNull.

(** [d[k]] *)
Definition getitem (d : pydict) (k : string) : result json :=
  match lookup d k with Some v => Ok v | None => Raise (KeyError (JStr k)) end.

(** [d.pop(k, None)], keeping only the dictionary that is left *)
Fixpoint pop (d : pydict) (k : string) : pydict :=
  match d with
  | [] => []
  | (k', v) :: d' => if String.eqb k' k then pop d' k else (k', v) :: pop d' k
  end.

(** [d[k] = v]: an existing key keeps its position *)
Fixpoint setitem (d : pydict) (k : string) (v : json) : pydict :=
  match d with
  | [] => [(k, v)]
  | (k', v') :: d' =>
      if String.eqb k' k then (k', v) :: d' else (k', v') :: setitem d' k v
  end.

(** [x or y] *)
Definition or_ (x y : json) : json := if truthy x then x else y.

(** [x.get(k)] on an arbitrary value: only dictionaries have [get] *)
Definition get_attr (x : json) (k : string) : result json :=
  match x with
  | JDict d => Ok (get d k)
  | _ => Raise AttributeError
  end.

(** [x.get(k, dflt)] on an arbitrary value *)
Definition get_or_attr (x : json) (k : string) (dflt : json) : result json :=
  match x with
  | JDict d => Ok (get_or d k dflt)
  | _ => Raise AttributeError
  end.

(** [x[k]] with a string key on an arbitrary value *)
Definition subscript_str (x : json) (k : string) : result json :=
  match x with
  | JDict d => getitem d k
  | _ => Raise TypeError
  end.

(** A string of one character, as indexing and iteration of a [str] give. *)
Definition char (c : Ascii.ascii) : json := JStr (String c "").

Fixpoint chars (s : string) : list json :=
  match s with
  | EmptyString => []
  | String c s' => char c :: chars s'
  end.

(** [x[0]] on an arbitrary truthy value *)
Definition subscript_0 (x : json) : result json :=
  match x with
  | JList (v :: _) => Ok v
  | JList [] => Raise (OtherError "IndexError")
  | JStr (String c _) => Ok (char c)
  | JStr EmptyString => Raise (OtherError "IndexError")
  | JDict _ => Raise (KeyError (JInt 0))
  | _ => Raise TypeError
  end.

(** [len(x)] *)
Definition len (x : json) : result Z :=
  match x with
  | JList l => Ok (Z.of_nat (List.length l))
  | JStr s => Ok (Z.of_nat (String.length s))
  | JDict d => Ok (Z.of_nat (List.length d))
  | _ => Raise TypeError
  end.

(** The sequence [for f in x] runs over *)
Definition iter (x : json) : result (list json) :=
  match x with
  | JList l => Ok l
  | JStr s => Ok (chars s)
  | JDict d => Ok (map (fun kv => JStr (fst kv)) d)
  | _ => Raise TypeError
  end.

(** [{**x}]: unpacking needs a mapping *)
Definition as_mapping (x : json) : result pydict :=
  match x with
  | JDict d => Ok d
  | _ => Raise TypeError
  end.

(** [float(z)]: the nearest double, if there is one. *)
Definition float_of_int (z : Z) : result spec_float :=
  match binary_normalize 53 1024 z 0 false with
  | S754_infinity _ => Raise OverflowError
  | f => Ok f
  end.

(** A value as a number: [bool] is a subtype of [int]. *)
Definition as_number (x : json) : option (Z + spec_float) :=
  match x with
  | JBool b => Some (inl (Z.b2z b))
  | JInt z => Some (inl z)
  | JFloat f => Some (inr f)
  | _ => None
  end.

(** [a + b]: lists and strings are concatenated, numbers added (an integer
    next to a float is converted first), anything else is a [TypeError]. *)
Definition add (a b : json) : result json :=
  match a, b with
  | JList x, JList y => Ok (JList (x ++ y))
  | JStr x, JStr y => Ok (JStr (x ++ y))
  | _, _ =>
      match as_number a, as_number b with
      | Some (inl x), Some (inl y) => Ok (JInt (x + y))
      | Some (inl x), Some (inr g) =>
          let? f := float_of_int x in Ok (JFloat (SFadd 53 1024 f g))
      | Some (inr f), Some (inl y) =>
          let? g := float_of_int y in Ok (JFloat (SFadd 53 1024 f g))
      | Some (inr f), Some (inr g) => Ok (JFloat (SFadd 53 1024 f g))
      | _, _ => Raise TypeError
      end
  end.

(** [x == s] for a string literal [s] *)
Definition eq_str (x : json) (s : string) : bool :=
  match x with
  | JStr s' => String.eqb s' s
  | _ => false
  end.

(** The exact comparison of a float with an integer. *)
Definition float_eq_int (f : spec_float) (z : Z) : bool :=
  match f with
  | S754_zero _ => z =? 0
  | S754_finite s m e =>
      let sm := if s then Z.neg m else Z.pos m in
      if 0 <=? e then z =? sm * 2 ^ e else z * 2 ^ (- e) =? sm
  | _ => false
  end.

(** [x == y] on JSON values: [bool] is a subtype of [int], numbers
    compare by value, lists element by element, dictionaries by key
    whatever the insertion order.  (The identity shortcut that makes a
    NaN equal to itself inside a container is not modelled: the values
    compared here never share objects.) *)
Fixpoint eq (x y : json) {struct x} : bool :=
  match x, y with
  | JNull, JNull => true
  | JBool a, JBool b => Bool.eqb a b
  | JBool a, JInt b => Z.b2z a =? b
  | JInt a, JBool b => a =? Z.b2z b
  | JBool a, JFloat b => float_eq_int b (Z.b2z a)
  | JFloat a, JBool b => float_eq_int a (Z.b2z b)
  | JInt a, JInt b => a =? b
  | JInt a, JFloat b => float_eq_int b a
  | JFloat a, JInt b => float_eq_int a b
  | JFloat a, JFloat b => SFeqb a b
  | JStr a, JStr b => String.eqb a b
  | JList a, JList b =>
      (fix go (a b : list json) {struct a} : bool :=
         match a, b with
         | [], [] => true
         | u :: a', v :: b' => eq u v && go a' b'
         | _, _ => false
         end) a b
  | JDict a, JDict b =>
      (Nat.eqb (List.length a) (List.length b))
      && (fix go (a : pydict) {struct a} : bool :=
            match a with
            | [] => true
            | (k, u) :: a' =>
                match lookup b k with
                | Some v => eq u v
                | None => false
                end && go a'
            end) a
  | _, _ => false
  end.

End Py.

(** ** Constants of [posthog.schema] *)

(** Modelled from the spec: [posthog/schema.py] is not part of the sources;
    the members of its string enumerations are represented by their wire
    values (section 6: "enum string values such as AND/OR, operator names
    like exact/gt"; section 4.2 names the filter types). *)
Module PropertyOperator.
Definition EXACT : json := JStr "exact".
Definition GT : json := JStr "gt".
End PropertyOperator.

Module PropertyFilterType.
Definition RECORDING : json := JStr "recording".
Definition LOG_ENTRY : json := JStr "log_entry".
End PropertyFilterType.

Module FilterLogicalOperator.
Definition AND_ : json := JStr "AND".
End FilterLogicalOperator.

(** ** [DEFAULT_RECORDING_FILTERS] *)

Definition DEFAULT_RECORDING_FILTERS : pydict :=
  [ ("date_from", JStr "-3d");
    ("date_to", JNull);
    ("filter_test_accounts", JBool false);
    ("duration",
      JList [ JDict [ ("type", PropertyFilterType.RECORDING);
                      ("key", JStr "active_seconds");
                      ("value", JInt 5);
                      ("operator", PropertyOperator.GT) ] ]);
    ("order", JStr "start_time") ].

(** ** [convert_legacy_filters_to_universal_filters] *)

(** Lines 138-147: the duration filter made of [session_recording_duration].
    The unpacking comes first, so a value that is no mapping is a
    [TypeError] before its [get] is ever called. *)
Definition legacy_duration (filters : pydict) : result (list json) :=
  if Py.truthy (Py.get filters "session_recording_duration") then
    (let? unpacked := Py.as_mapping (Py.get filters "session_recording_duration") in
     let? inner_key :=
       Py.get_or_attr (Py.get_or filters "session_recording_duration" (JDict []))
                      "key" (JStr "active_seconds") in
     Ok [ JDict (Py.setitem unpacked "key"
                   (Py.get_or filters "duration_type_filter" inner_key)) ])%result
  else Ok [].

Definition convert_legacy_filters_to_universal_filters
    (filters : option pydict) : result pydict :=
  let filters := match filters with Some d => d | None => [] end in
  match filters with
  | [] => Ok []
  | _ =>
    let events := Py.get_or filters "events" (JList []) in
    let actions := Py.get_or filters "actions" (JList []) in
    let properties := Py.get_or filters "properties" (JList []) in
    let log_level_filters :=
      if Py.truthy (Py.get filters "console_logs") then
        [ JDict [ ("key", JStr "level");
                  ("value", Py.get filters "console_logs");
                  ("operator", PropertyOperator.EXACT);
                  ("type", PropertyFilterType.LOG_ENTRY) ] ]
      else [] in
    let log_query_filters :=
      if Py.truthy (Py.get filters "console_search_query") then
        [ JDict [ ("key", JStr "message");
                  ("value", JList [Py.get filters "console_search_query"]);
                  ("operator", PropertyOperator.EXACT);
                  ("type", PropertyFilterType.LOG_ENTRY) ] ]
      else [] in
    (let? duration := legacy_duration filters in
     let? l1 := Py.add events actions in
     let? l2 := Py.add l1 properties in
     let? l3 := Py.add l2 (JList log_level_filters) in
     let? l4 := Py.add l3 (JList log_query_filters) in
     Ok [ ("date_from",
            Py.or_ (Py.get filters "date_from")
                   (Py.get DEFAULT_RECORDING_FILTERS "date_from"));
          ("date_to",
            Py.or_ (Py.get filters "date_to")
                   (Py.get DEFAULT_RECORDING_FILTERS "date_to"));
          ("filter_test_accounts",
            Py.get_or filters "filter_test_accounts"
                      (Py.get DEFAULT_RECORDING_FILTERS "filter_test_accounts"));
          ("duration",
            Py.or_ (JList duration) (Py.get DEFAULT_RECORDING_FILTERS "duration"));
          ("filter_group",
            JDict [ ("type", FilterLogicalOperator.AND_);
                    ("values",
                      JList [ JDict [ ("type", FilterLogicalOperator.AND_);
                                      ("values", l4) ] ]) ]);
          ("order", Py.get DEFAULT_RECORDING_FILTERS "order") ])%result
  end.

(** ** Objects of the translation *)

(** [RecordingPropertyFilter(key=..., operator=..., value=...)]: the object
    keeps the three values it was built from. *)
Record RecordingPropertyFilter : Type := {
  rpf_key : json;
  rpf_operator : json;
  rpf_value : json }.

(** [having_predicates] holds both the typed duration filter and leaf
    filters taken over as they are. *)
Inductive having_predicate : Type :=
| HavingFilter (p : RecordingPropertyFilter)
| HavingLeaf (f : json).

(** [RecordingsQuery(...)], as the keyword arguments it is built from. *)
Record RecordingsQuery : Type := {
  order : json;
  date_from : json;
  date_to : json;
  properties : list json;
  events : list json;
  actions : list json;
  console_log_filters : list json;
  having_predicates : list having_predicate;
  filter_test_accounts : json;
  operand : json }.

(** The five lists the translation fills. *)
Record buckets : Type := {
  b_events : list json;
  b_actions : list json;
  b_properties : list json;
  b_console_log_filters : list json;
  b_having_predicates : list having_predicate }.

Record datetime : Type := {
  wall_clock_us : Z;
  utcoffset : option Z }.

Record Recording : Type := { session_id : string }.

Record Playlist : Type := {
  pl_id : Z;
  pl_short_id : string;
  pl_team : Z;
  pl_filters : json;
  pl_last_counted_at : option datetime }.

Definition set_pl_filters (p : Playlist) (f : json) : Playlist :=
  {| pl_id := pl_id p; pl_short_id := pl_short_id p; pl_team := pl_team p;
     pl_filters := f; pl_last_counted_at := pl_last_counted_at p |}.

Definition set_pl_last_counted_at (p : Playlist) (d : option datetime) : Playlist :=
  {| pl_id := pl_id p; pl_short_id := pl_short_id p; pl_team := pl_team p;
     pl_filters := pl_filters p; pl_last_counted_at := d |}.

(** What the code hands to [logger] and to [posthoganalytics]. *)
Inductive log_record : Type :=
| LogConversionFailed
    (filters : pydict) (error : exn)
    (having_predicates : list having_predicate)
    (properties events actions console_log_filters : list json)
    (filter_test_accounts operand : json)
| LogPlaylistDoesNotExist (playlist_id : Z) (playlist_short_id : option string)
| LogCountFailed
    (playlist_id : Z) (playlist_short_id : option string)
    (filters : option json) (query : option json) (error : exn).

Record captured_exception : Type := {
  cap_error : exn;
  cap_playlist_id : Z;
  cap_playlist_short_id : option string;
  cap_filters : option json;
  cap_query : option json }.

(** What lies outside the two files: the pydantic validation of
    [posthog.schema], helpers of other modules, the query engine, the JSON
    and date codecs of the standard library, the clock and the settings. *)
Class Env : Type := {
  RecordingPropertyFilter_valid : json -> json -> json -> bool;
  RecordingsQuery_valid : RecordingsQuery -> bool;
  filter_from_params_to_query : pydict -> result RecordingsQuery;
  model_dump : RecordingsQuery -> result json;
  list_recordings_from_query : RecordingsQuery -> Z -> result (list Recording * bool);
  json_loads : string -> result json;
  json_dumps : json -> string;
  fromisoformat : string -> result datetime;
  isoformat : datetime -> string;
  (** the wall clock at the n-th call of [datetime.now()], in microseconds *)
  now : nat -> Z;
  PLAYLIST_COUNTER_PROCESSING_COOLDOWN_SECONDS : Z;
  PLAYLIST_COUNT_REDIS_PREFIX : string }.

(** The state shared with the outside: the playlist table, the redis cache,
    the executions of the query engine, the prometheus metrics, the log and
    the exception tracker, and how often the clock was read. *)
Record world : Type := {
  playlists : gmap Z Playlist;
  redis : gmap string (Z * string);
  engine_calls : list (RecordingsQuery * Z);
  counters : gmap (string * string) nat;
  timer_observations : nat;
  log : list log_record;
  captured : list captured_exception;
  clock_reads : nat }.

Definition set_playlists (w : world) (x : gmap Z Playlist) : world :=
  {| playlists := x; redis := redis w; engine_calls := engine_calls w;
     counters := counters w; timer_observations := timer_observations w;
     log := log w; captured := captured w; clock_reads := clock_reads w |}.

Definition set_redis (w : world) (x : gmap string (Z * string)) : world :=
  {| playlists := playlists w; redis := x; engine_calls := engine_calls w;
     counters := counters w; timer_observations := timer_observations w;
     log := log w; captured := captured w; clock_reads := clock_reads w |}.

Definition set_engine_calls (w : world) (x : list (RecordingsQuery * Z)) : world :=
  {| playlists := playlists w; redis := redis w; engine_calls := x;
     counters := counters w; timer_observations := timer_observations w;
     log := log w; captured := captured w; clock_reads := clock_reads w |}.

Definition set_counters (w : world) (x : gmap (string * string) nat) : world :=
  {| playlists := playlists w; redis := redis w; engine_calls := engine_calls w;
     counters := x; timer_observations := timer_observations w;
     log := log w; captured := captured w; clock_reads := clock_reads w |}.

Definition set_timer_observations (w : world) (x : nat) : world :=
  {| playlists := playlists w; redis := redis w; engine_calls := engine_calls w;
     counters := counters w; timer_observations := x;
     log := log w; captured := captured w; clock_reads := clock_reads w |}.

Definition set_log (w : world) (x : list log_record) : world :=
  {| playlists := playlists w; redis := redis w; engine_calls := engine_calls w;
     counters := counters w; timer_observations := timer_observations w;
     log := x; captured := captured w; clock_reads := clock_reads w |}.

Definition set_captured (w : world) (x : list captured_exception) : world :=
  {| playlists := playlists w; redis := redis w; engine_calls := engine_calls w;
     counters := counters w; timer_observations := timer_observations w;
     log := log w; captured := x; clock_reads := clock_reads w |}.

Definition set_clock_reads (w : world) (x : nat) : world :=
  {| playlists := playlists w; redis := redis w; engine_calls := engine_calls w;
     counters := counters w; timer_observations := timer_observations w;
     log := log w; captured := captured w; clock_reads := x |}.

(** [COUNTER.inc()] and [COUNTER.labels(...).inc()]; an unlabelled counter
    has the empty label. *)
Definition counter_value (w : world) (name label : string) : nat :=
  default 0%nat (counters w !! (name, label)).

Definition counter_inc (name label : string) (w : world) : world :=
  set_counters w (<[(name, label) := S (counter_value w name label)]> (counters w)).

Definition REPLAY_TEAM_PLAYLIST_COUNT_SUCCEEDED := "replay_playlist_count_succeeded".
Definition REPLAY_TEAM_PLAYLIST_COUNT_FAILED := "replay_playlist_count_failed".
Definition REPLAY_TEAM_PLAYLIST_COUNT_UNKNOWN := "replay_playlist_count_unknown".
Definition REPLAY_TEAM_PLAYLIST_COUNT_SKIPPED := "replay_playlist_count_skipped".
Definition REPLAY_PLAYLIST_LEGACY_FILTERS_CONVERTED :=
  "replay_playlist_legacy_filters_converted".

Definition THIRTY_SIX_HOURS_IN_SECONDS : Z := 36 * 60 * 60.

(** [playlist.save(update_fields=[...])] writes the named column of the row
    of this playlist; Django raises [DatabaseError] when no row is updated. *)
Definition save_filters (p : Playlist) (w : world) : result unit * world :=
  match playlists w !! pl_id p with
  | Some row =>
      (Ok tt, set_playlists w (<[pl_id p := set_pl_filters row (pl_filters p)]> (playlists w)))
  | None => (Raise DatabaseError, w)
  end.

Definition save_last_counted_at (p : Playlist) (w : world) : result unit * world :=
  match playlists w !! pl_id p with
  | Some row =>
      (Ok tt,
       set_playlists w
         (<[pl_id p := set_pl_last_counted_at row (pl_last_counted_at p)]> (playlists w)))
  | None => (Raise DatabaseError, w)
  end.

(** The five lists before the loop: [having_predicates] already holds what
    the duration filters gave. *)
Definition initial_buckets (from_duration : list having_predicate) : buckets :=
  {| b_events := []; b_actions := []; b_properties := [];
     b_console_log_filters := []; b_having_predicates := from_duration |}.

(** [events.append(x)] and its like. *)
Definition append_event (b : buckets) (x : json) : buckets :=
  {| b_events := b_events b ++ [x]; b_actions := b_actions b;
     b_properties := b_properties b;
     b_console_log_filters := b_console_log_filters b;
     b_having_predicates := b_having_predicates b |}.

Definition append_action (b : buckets) (x : json) : buckets :=
  {| b_events := b_events b; b_actions := b_actions b ++ [x];
     b_properties := b_properties b;
     b_console_log_filters := b_console_log_filters b;
     b_having_predicates := b_having_predicates b |}.

Definition append_property (b : buckets) (x : json) : buckets :=
  {| b_events := b_events b; b_actions := b_actions b;
     b_properties := b_properties b ++ [x];
     b_console_log_filters := b_console_log_filters b;
     b_having_predicates := b_having_predicates b |}.

Definition append_console_log_filter (b : buckets) (x : json) : buckets :=
  {| b_events := b_events b; b_actions := b_actions b;
     b_properties := b_properties b;
     b_console_log_filters := b_console_log_filters b ++ [x];
     b_having_predicates := b_having_predicates b |}.

Definition append_having_predicate (b : buckets) (x : having_predicate) : buckets :=
  {| b_events := b_events b; b_actions := b_actions b;
     b_properties := b_properties b;
     b_console_log_filters := b_console_log_filters b;
     b_having_predicates := b_having_predicates b ++ [x] |}.

(** The event filter a [visited_page] leaf is rewritten into. *)
Definition pageview_event (value operator : json) : json :=
  JDict [ ("id", JStr "$pageview");
          ("name", JStr "$pageview");
          ("type", JStr "events");
          ("properties",
            JList [ JDict [ ("type", JStr "event");
                            ("key", JStr "$current_url");
                            ("value", value);
                            ("operator", operator) ] ]) ].

(** ** The translator *)

Section Translator.

Context `{Env}.
Local Open Scope result_scope.

(** [asRecordingPropertyFilter] *)
Definition asRecordingPropertyFilter (filter : json) : result RecordingPropertyFilter :=
  let? key := Py.subscript_str filter "key" in
  let? operator := Py.subscript_str filter "operator" in
  let? value := Py.subscript_str filter "value" in
  if RecordingPropertyFilter_valid key operator value
  then Ok {| rpf_key := key; rpf_operator := operator; rpf_value := value |}
  else Raise ValidationError.

(** Lines 192-200: the children of the first group of [filter_group]. *)
Definition extract_filters (filters : pydict) : result json :=
  let? has_values :=
    if Py.truthy (Py.get filters "filter_group") then
      let? filter_group := Py.getitem filters "filter_group" in
      let? values := Py.get_attr filter_group "values" in
      Ok (Py.truthy values)
    else Ok false in
  if has_values then
    let? filter_group := Py.getitem filters "filter_group" in
    let? values := Py.subscript_str filter_group "values" in
    let? group := Py.subscript_0 values in
    let? group_has_values :=
      if Py.truthy group then
        let? group_values := Py.get_attr group "values" in
        Ok (Py.truthy group_values)
      else Ok false in
    if group_has_values then Py.subscript_str group "values" else Ok (JList [])
  else Raise (Exception [JStr "Invalid universal filters"]).

(** Lines 210-212: what the duration filters add to [having_predicates]. *)
Definition duration_having_predicates (filters : pydict) : result (list having_predicate) :=
  let duration_filters := Py.get_or filters "duration" (JList []) in
  let? nonempty :=
    if Py.truthy duration_filters then
      let? n := Py.len duration_filters in Ok (0 <? n)%Z
    else Ok false in
  if nonempty then
    let? first := Py.subscript_0 duration_filters in
    let? p := asRecordingPropertyFilter first in
    Ok [HavingFilter p]
  else Ok [].

(** Lines 216-249: one turn of the loop over the extracted filters. *)
Definition process_filter (b : buckets) (f : json) : result buckets :=
  let? filter_type := Py.get_attr f "type" in
  if Py.eq_str filter_type "events" then Ok (append_event b f)
  else if Py.eq_str filter_type "actions" then Ok (append_action b f)
  else if Py.eq_str filter_type "log_entry" then Ok (append_console_log_filter b f)
  else if Py.eq_str filter_type "hogql" then Ok (append_property b f)
  else if Py.eq_str filter_type "recording" then
    let? key := Py.get_attr f "key" in
    if Py.eq_str key "visited_page" then
      let? value := Py.get_attr f "value" in
      let? operator := Py.get_attr f "operator" in
      Ok (append_event b (pageview_event value operator))
    else
      let? is_snapshot_source :=
        if Py.eq_str key "snapshot_source" then
          let? value := Py.get_attr f "value" in Ok (Py.truthy value)
        else Ok false in
      if is_snapshot_source then Ok (append_having_predicate b (HavingLeaf f))
      else Ok (append_property b f)
  else Ok (append_property b f).

(** [for f in extracted_filters: ...] *)
Fixpoint process_filters (b : buckets) (fs : list json) : result buckets :=
  match fs with
  | [] => Ok b
  | f :: fs' => let? b' := process_filter b f in process_filters b' fs'
  end.

(** Lines 192-264: from the universal filters to the object handed to the
    [RecordingsQuery] constructor. *)
Definition recordings_query_arguments (filters : pydict) : result RecordingsQuery :=
  let? extracted_filters := extract_filters filters in
  let order := Py.get filters "order" in
  let? from_duration := duration_having_predicates filters in
  let? fs := Py.iter extracted_filters in
  let? b := process_filters (initial_buckets from_duration) fs in
  let? operand :=
    Py.get_or_attr (Py.get_or filters "filter_group" (JDict [])) "type"
                   FilterLogicalOperator.AND_ in
  Ok {| order := order;
        date_from := Py.get filters "date_from";
        date_to := Py.get filters "date_to";
        properties := b_properties b;
        events := b_events b;
        actions := b_actions b;
        console_log_filters := b_console_log_filters b;
        having_predicates := b_having_predicates b;
        filter_test_accounts := Py.get filters "filter_test_accounts";
        operand := operand |}.

(** [RecordingsQuery(...)]: pydantic validates the arguments. *)
Definition RecordingsQuery_new (q : RecordingsQuery) : result RecordingsQuery :=
  if RecordingsQuery_valid q then Ok q else Raise ValidationError.

(** Lines 251-280: the construction, with the log on a validation error. *)
Definition construct (filters : pydict) (w : world) : result RecordingsQuery * world :=
  match recordings_query_arguments filters with
  | Raise e => (Raise e, w)
  | Ok q =>
      match RecordingsQuery_new q with
      | Raise ValidationError =>
          (Raise ValidationError,
           set_log w (log w ++
             [LogConversionFailed filters ValidationError
                (having_predicates q) (properties q) (events q) (actions q)
                (console_log_filters q) (filter_test_accounts q) (operand q)]))
      | r => (r, w)
      end
  end.

(** [convert_filters_to_recordings_query]: the playlist object is changed
    in place, so it is returned next to the result. *)
Definition convert_filters_to_recordings_query (playlist : Playlist) (w : world)
    : result RecordingsQuery * Playlist * world :=
  match pl_filters playlist with
  | JDict filters0 =>
      let filters := Py.pop (Py.pop filters0 "version") "hogql_filtering" in
      let playlist := set_pl_filters playlist (JDict filters) in
      if negb (Py.contains filters "filter_group") then
        if negb (Py.truthy (JDict filters)) then
          (filter_from_params_to_query filters, playlist, w)
        else
          match convert_legacy_filters_to_universal_filters (Some filters) with
          | Raise e => (Raise e, playlist, w)
          | Ok filters =>
              let playlist := set_pl_filters playlist (JDict filters) in
              match save_filters playlist w with
              | (Raise e, w) => (Raise e, playlist, w)
              | (Ok _, w) =>
                  let w := counter_inc REPLAY_PLAYLIST_LEGACY_FILTERS_CONVERTED "" w in
                  let (r, w) := construct filters w in (r, playlist, w)
              end
          end
      else
        let (r, w) := construct filters w in (r, playlist, w)
  | JList _ => (Raise TypeError, playlist, w)
  | _ => (Raise AttributeError, playlist, w)
  end.

End Translator.

(** ** The counting task *)

(** The local variables of the task that its exception handlers read. *)
Record frame : Type := {
  fr_playlist : option Playlist;
  fr_query : option RecordingsQuery;
  fr_world : world }.

Section Task.

Context `{Env}.

(** [datetime.now()]: a naive datetime; every call reads the clock once. *)
Definition datetime_now (w : world) : datetime * world :=
  ({| wall_clock_us := now (clock_reads w); utcoffset := None |},
   set_clock_reads w (S (clock_reads w))).

(** [datetime.fromisoformat(x)] *)
Definition datetime_fromisoformat (x : json) : result datetime :=
  match x with
  | JStr s => fromisoformat s
  | _ => Raise TypeError
  end.

(** [int((a - b).total_seconds())] for a naive [a]: a naive and an aware
    datetime cannot be subtracted; [int] truncates towards zero.  The
    float [total_seconds] returns is the correctly rounded quotient of the
    microseconds by 10^6; the integer quotient taken here is its
    truncation for every span shorter than 2^34 seconds (some 544 years).
    For a longer span the float can round up to the next whole second:
    [seconds_between_float] follows the float, and what depends on the
    exact second is stated for the shorter spans. *)
Definition seconds_between (a b : datetime) : result Z :=
  match utcoffset b with
  | None => Ok (Z.quot (wall_clock_us a - wall_clock_us b) 1000000)
  | Some _ => Raise TypeError
  end.

(** Lines 307-311 *)
Definition load_existing_value (playlist : Playlist) (w : world) : result json :=
  match redis w !! (PLAYLIST_COUNT_REDIS_PREFIX ++ pl_short_id playlist)%string with
  | Some (_, raw) =>
      if negb (String.eqb raw "") then json_loads raw else Ok (JDict [])
  | None => Ok (JDict [])
  end.

(** Lines 314-318: whether the last refresh is within the cooldown. *)
Definition within_cooldown (existing_value : json) (w : world) : result bool * world :=
  match Py.get_attr existing_value "refreshed_at" with
  | Raise e => (Raise e, w)
  | Ok refreshed_at =>
      if Py.truthy refreshed_at then
        match rbind (Py.subscript_str existing_value "refreshed_at")
                    datetime_fromisoformat with
        | Raise e => (Raise e, w)
        | Ok last_refreshed_at =>
            let (t, w) := datetime_now w in
            match seconds_between t last_refreshed_at with
            | Raise e => (Raise e, w)
            | Ok seconds_since_refresh =>
                (Ok (seconds_since_refresh
                       <=? PLAYLIST_COUNTER_PROCESSING_COOLDOWN_SECONDS), w)
            end
        end
      else (Ok false, w)
  end.

(** Lines 327-347: the count itself. *)
Definition run_count (playlist : Playlist) (existing_value : json) (w : world)
    : result unit * frame :=
  match convert_filters_to_recordings_query playlist w with
  | (Raise e, playlist, w) =>
      (Raise e, {| fr_playlist := Some playlist; fr_query := None; fr_world := w |})
  | (Ok query, playlist, w) =>
      let w := set_engine_calls w (engine_calls w ++ [(query, pl_team playlist)]) in
      match list_recordings_from_query query (pl_team playlist) with
      | Raise e =>
          (Raise e, {| fr_playlist := Some playlist; fr_query := Some query;
                       fr_world := w |})
      | Ok (recordings, more_recordings_available) =>
          let (counted_at_date, w) := datetime_now w in
          match Py.get_or_attr existing_value "session_ids" JNull with
          | Raise e =>
              (Raise e, {| fr_playlist := Some playlist; fr_query := Some query;
                           fr_world := w |})
          | Ok previous_ids =>
              let value_to_set :=
                json_dumps
                  (JDict [ ("session_ids",
                             JList (map (fun r => JStr (session_id r)) recordings));
                           ("has_more", JBool more_recordings_available);
                           ("previous_ids", previous_ids);
                           ("refreshed_at", JStr (isoformat counted_at_date)) ]) in
              let w :=
                set_redis w
                  (<[(PLAYLIST_COUNT_REDIS_PREFIX ++ pl_short_id playlist)%string
                     := (THIRTY_SIX_HOURS_IN_SECONDS, value_to_set)]> (redis w)) in
              let playlist := set_pl_last_counted_at playlist (Some counted_at_date) in
              match save_last_counted_at playlist w with
              | (Raise e, w) =>
                  (Raise e, {| fr_playlist := Some playlist; fr_query := Some query;
                               fr_world := w |})
              | (Ok _, w) =>
                  (Ok tt,
                   {| fr_playlist := Some playlist; fr_query := Some query;
                      fr_world := counter_inc REPLAY_TEAM_PLAYLIST_COUNT_SUCCEEDED "" w |})
              end
          end
      end
  end.

(** Lines 304-347: the body of the [with] block. *)
Definition count_body (playlist_id : Z) (w : world) : result unit * frame :=
  match playlists w !! playlist_id with
  | None =>
      (Raise DoesNotExist, {| fr_playlist := None; fr_query := None; fr_world := w |})
  | Some playlist =>
      match load_existing_value playlist w with
      | Raise e =>
          (Raise e, {| fr_playlist := Some playlist; fr_query := None; fr_world := w |})
      | Ok existing_value =>
          match within_cooldown existing_value w with
          | (Raise e, w) =>
              (Raise e, {| fr_playlist := Some playlist; fr_query := None;
                           fr_world := w |})
          | (Ok true, w) =>
              (Ok tt,
               {| fr_playlist := Some playlist; fr_query := None;
                  fr_world := counter_inc REPLAY_TEAM_PLAYLIST_COUNT_SKIPPED "cooldown" w |})
          | (Ok false, w) =>
              if Py.eq (pl_filters playlist) (JDict DEFAULT_RECORDING_FILTERS) then
                (Ok tt,
                 {| fr_playlist := Some playlist; fr_query := None;
                    fr_world :=
                      counter_inc REPLAY_TEAM_PLAYLIST_COUNT_SKIPPED "default_filters" w |})
              else run_count playlist existing_value w
          end
      end
  end.

(** Lines 356-360 *)
Definition query_json (query : option RecordingsQuery) : option json :=
  match query with
  | Some q =>
      match model_dump q with
      | Ok j => Some j
      | Raise _ => Some (JDict [("malformed", JBool true)])
      end
  | None => None
  end.

(** [count_recordings_that_match_playlist_filters]: the timer observes
    when the [with] block is left, then the handlers run. *)
Definition count_recordings_that_match_playlist_filters (playlist_id : Z) (w : world)
    : world :=
  let (r, fr) := count_body playlist_id w in
  let w := fr_world fr in
  let w := set_timer_observations w (S (timer_observations w)) in
  let short_id := option_map pl_short_id (fr_playlist fr) in
  match r with
  | Ok _ => w
  | Raise DoesNotExist =>
      let w := set_log w (log w ++ [LogPlaylistDoesNotExist playlist_id short_id]) in
      counter_inc REPLAY_TEAM_PLAYLIST_COUNT_UNKNOWN "" w
  | Raise e =>
      let filters := option_map pl_filters (fr_playlist fr) in
      let q := query_json (fr_query fr) in
      let w :=
        set_captured w
          (captured w ++
             [{| cap_error := e; cap_playlist_id := playlist_id;
                 cap_playlist_short_id := short_id;
                 cap_filters := filters; cap_query := q |}]) in
      let w := set_log w (log w ++ [LogCountFailed playlist_id short_id filters q e]) in
      counter_inc REPLAY_TEAM_PLAYLIST_COUNT_FAILED (exn_class_name e) w
  end.

End Task.

(** ** The revenue example query over data-warehouse tables *)

Module ast.

(** The nodes of [posthog.hogql.ast] that [to_query] builds, with the
    fields it sets; every other field keeps its default. *)
Inductive Expr : Type :=
| Constant (value : string)
| Field (chain : list string)
| Alias (alias : string) (expr : Expr).

Record JoinExpr : Type := { table : Expr }.

Record OrderExpr : Type := { expr : Expr; order : string }.

Record SelectQuery : Type := {
  select : list Expr;
  select_from : JoinExpr;
  order_by : list OrderExpr }.

(** What [to_query] returns.  [posthog/hogql/ast.py] is not among the
    sources, so the results of its two class methods are represented by
    the calls themselves: [SelectQuery_empty] is [ast.SelectQuery.empty()]
    and [SelectSetQuery_create_from_queries queries set_operator] is
    [ast.SelectSetQuery.create_from_queries(queries, set_operator=...)]. *)
Inductive Query : Type :=
| SelectQuery_empty
| SelectSetQuery_create_from_queries (queries : list SelectQuery) (set_operator : string).

End ast.

(** [RevenueTrackingDataWarehouseTable] and [RevenueTrackingConfig] of
    [posthog.schema], with the fields [to_query] reads. *)
Record RevenueTrackingDataWarehouseTable : Type := {
  tableName : string;
  revenueColumn : string;
  timestampColumn : string }.

Record RevenueTrackingConfig : Type := {
  dataWarehouseTables : option (list RevenueTrackingDataWarehouseTable) }.

Module RevenueExampleDataWarehouseTablesQueryRunner.

(** The [ast.SelectQuery(...)] of one turn of the loop. *)
Definition table_query (table : RevenueTrackingDataWarehouseTable) : ast.SelectQuery :=
  {| ast.select :=
       [ ast.Alias "table_name" (ast.Constant (tableName table));
         ast.Alias "revenue" (ast.Field [tableName table; revenueColumn table]) ];
     ast.select_from := {| ast.table := ast.Field [tableName table] |};
     ast.order_by :=
       [ {| ast.expr := ast.Field [tableName table; timestampColumn table];
            ast.order := "DESC" |} ] |}.

(** [for table in tables: queries.append(...)] *)
Fixpoint append_table_queries
    (queries : list ast.SelectQuery) (tables : list RevenueTrackingDataWarehouseTable)
    : list ast.SelectQuery :=
  match tables with
  | [] => queries
  | table :: tables' => append_table_queries (queries ++ [table_query table]) tables'
  end.

(** [to_query], as a function of [self.query.revenueTrackingConfig].  No
    statement of the method can raise on a validated query object, so the
    embedding is a total function. *)
Definition to_query (tracking_config : RevenueTrackingConfig) : ast.Query :=
  let queries :=
    match dataWarehouseTables tracking_config with
    | Some (table :: tables) => append_table_queries [] (table :: tables)
    | _ => []
    end in
  if Nat.eqb (List.length queries) 0 then ast.SelectQuery_empty
  else ast.SelectSetQuery_create_from_queries queries "UNION ALL".

End RevenueExampleDataWarehouseTablesQueryRunner.

(** ** Vocabulary of the properties *)

(** [children] are the leaf filters of the first group of [filter_group]. *)
Definition inner_group_children (filters : pydict) (children : list json) : Prop :=
  exists filter_group group groups,
    Py.lookup filters "filter_group" = Some (JDict filter_group) /\
    Py.lookup filter_group "values" = Some (JList (JDict group :: groups)) /\
    Py.lookup group "values" = Some (JList children).

(** The array stored under a key of a legacy document: the empty array when
    the key is absent, nothing when the value is not an array. *)
Definition legacy_array (filters : pydict) (k : string) : option (list json) :=
  match Py.get_or filters k (JList []) with
  | JList l => Some l
  | _ => None
  end.

(** A legacy scalar is set when the code finds it truthy. *)
Definition is_set (filters : pydict) (k : string) : bool := Py.truthy (Py.get filters k).

(** A two-level group: an AND group around one AND group of [children]. *)
Definition two_level_group (children : list json) : json :=
  JDict [ ("type", JStr "AND");
          ("values", JList [ JDict [ ("type", JStr "AND");
                                     ("values", JList children) ] ]) ].

(** The operand of a document whose [filter_group] is an object. *)
Definition operand_of (filters : pydict) : json :=
  match Py.lookup filters "filter_group" with
  | Some (JDict group) => Py.get_or group "type" FilterLogicalOperator.AND_
  | _ => FilterLogicalOperator.AND_
  end.

(** The query built from a document and the five filled lists. *)
Definition query_from (filters : pydict) (b : buckets) : RecordingsQuery :=
  {| order := Py.get filters "order";
     date_from := Py.get filters "date_from";
     date_to := Py.get filters "date_to";
     properties := b_properties b;
     events := b_events b;
     actions := b_actions b;
     console_log_filters := b_console_log_filters b;
     having_predicates := b_having_predicates b;
     filter_test_accounts := Py.get filters "filter_test_accounts";
     operand := operand_of filters |}.

(** A leaf of type [recording] with the key [snapshot_source] and a truthy
    value. *)
Definition is_snapshot_source_leaf (f : json) : bool :=
  match f with
  | JDict d =>
      Py.eq_str (Py.get d "type") "recording"
      && Py.eq_str (Py.get d "key") "snapshot_source"
      && Py.truthy (Py.get d "value")
  | _ => false
  end.

(** The filter types with a list of their own, and [recording]. *)
Definition dispatched_types : list string :=
  ["events"; "actions"; "log_entry"; "hogql"; "recording"].

(** The playlist object and the world that
    [convert_filters_to_recordings_query] leaves behind, and its outcome. *)
Definition playlist_after `{Env} (p : Playlist) (w : world) : Playlist :=
  snd (fst (convert_filters_to_recordings_query p w)).

Definition world_after `{Env} (p : Playlist) (w : world) : world :=
  snd (convert_filters_to_recordings_query p w).

Definition outcome `{Env} (p : Playlist) (w : world) : result RecordingsQuery :=
  fst (fst (convert_filters_to_recordings_query p w)).

(** The two keys the translator drops from every document. *)
Definition without_version (d : pydict) : pydict :=
  Py.pop (Py.pop d "version") "hogql_filtering".

(** An error captures a value when the value is among its arguments. *)
Definition captures (e : exn) (x : json) : Prop := In x (exn_args e).

(** The errors of the interpreter and of the libraries, as opposed to an
    [Exception] raised by a [raise] statement of the code. *)
Definition raised_by_callee (e : exn) : bool :=
  match e with
  | Exception _ => false
  | _ => true
  end.

(** The group structure the translator rejects: the key [filter_group] is
    there, but its value is falsy, or it is an object whose [values] are
    absent or falsy. *)
Definition unusable_group (filters : pydict) : Prop :=
  Py.contains filters "filter_group" = true /\
  (Py.truthy (Py.get filters "filter_group") = false
   \/ exists group, Py.get filters "filter_group" = JDict group
                    /\ Py.truthy (Py.get group "values") = false).

(** [Exception("Invalid universal filters")] *)
Definition invalid_universal_filters : exn :=
  Exception [JStr "Invalid universal filters"].

(** ** Documents the examples run on *)

Definition pageview_filter : json :=
  JDict [ ("id", JStr "$pageview"); ("name", JStr "$pageview"); ("type", JStr "events") ].

Definition browser_filter : json :=
  JDict [ ("key", JStr "$browser"); ("value", JStr "Chrome");
          ("operator", JStr "exact"); ("type", JStr "person") ].

Definition legacy_document : pydict :=
  [ ("events", JList [pageview_filter]);
    ("properties", JList [browser_filter]);
    ("console_logs", JList [JStr "error"]);
    ("console_search_query", JStr "boom");
    ("session_recording_duration",
      JDict [ ("type", JStr "recording"); ("key", JStr "duration");
              ("value", JInt 60); ("operator", JStr "gt") ]) ].

(** ** An environment and a world the examples run in *)

(** The text of the cached record of the examples (written without its
    quotation marks) and the value [json.loads] gives for it. *)
Definition cached_text : string :=
  "{session_ids: [s1], has_more: false, previous_ids: null, refreshed_at: 2024-05-01T12:00:00}".

Definition cached_record_fields : pydict :=
  [ ("session_ids", JList [JStr "s1"]);
    ("has_more", JBool false);
    ("previous_ids", JNull);
    ("refreshed_at", JStr "2024-05-01T12:00:00") ].

Definition cached_record : json := JDict cached_record_fields.

(** Microseconds of 2024-05-01T12:00:00 since 1970-01-01T00:00:00. *)
Definition refreshed_us : Z := 1714564800 * 1000000.

Definition default_query : RecordingsQuery :=
  {| order := JStr "start_time"; date_from := JStr "-3d"; date_to := JNull;
     properties := []; events := []; actions := []; console_log_filters := [];
     having_predicates := []; filter_test_accounts := JBool false;
     operand := JStr "AND" |}.

(** Every object validates, the engine finds one recording, the clock
    stands ten seconds after the cached refresh and advances a second per
    reading, and the cooldown is 300 seconds. *)
Definition example_env : Env :=
  {| RecordingPropertyFilter_valid := fun _ _ _ => true;
     RecordingsQuery_valid := fun _ => true;
     filter_from_params_to_query := fun _ => Ok default_query;
     model_dump := fun _ => Ok (JDict []);
     list_recordings_from_query := fun _ _ => Ok ([{| session_id := "s2" |}], false);
     json_loads := fun s => if String.eqb s cached_text then Ok cached_record
                            else Raise ValueError;
     json_dumps := fun _ => "{...}";
     fromisoformat := fun s => if String.eqb s "2024-05-01T12:00:00"
                               then Ok {| wall_clock_us := refreshed_us; utcoffset := None |}
                               else Raise ValueError;
     isoformat := fun _ => "2024-05-01T12:00:10";
     now := fun n => refreshed_us + (10 + Z.of_nat n) * 1000000;
     PLAYLIST_COUNTER_PROCESSING_COOLDOWN_SECONDS := 300;
     PLAYLIST_COUNT_REDIS_PREFIX := "playlist_count:" |}.

Definition universal_document : pydict :=
  [ ("date_from", JStr "-7d");
    ("version", JInt 2);
    ("duration",
      JList [ JDict [ ("type", JStr "recording"); ("key", JStr "duration");
                      ("value", JInt 60); ("operator", JStr "gt") ];
              JDict [ ("type", JStr "recording"); ("key", JStr "active_seconds");
                      ("value", JInt 1); ("operator", JStr "lt") ] ]);
    ("filter_group", two_level_group [pageview_filter; browser_filter]) ].

Definition example_playlist (filters : pydict) : Playlist :=
  {| pl_id := 7; pl_short_id := "abc123"; pl_team := 1;
     pl_filters := JDict filters; pl_last_counted_at := None |}.

Definition example_world (filters : pydict) : world :=
  {| playlists := {[ 7 := example_playlist filters ]};
     redis := {[ "playlist_count:abc123" := (THIRTY_SIX_HOURS_IN_SECONDS, cached_text) ]};
     engine_calls := [];
     counters := ∅;
     timer_observations := 0;
     log := [];
     captured := [];
     clock_reads := 0 |}.

Definition empty_group_document : pydict :=
  [ ("date_from", JStr "-7d");
    ("filter_group", JDict [ ("type", JStr "AND"); ("values", JList []) ]) ].

Definition stripe_table : RevenueTrackingDataWarehouseTable :=
  {| tableName := "stripe_charges"; revenueColumn := "amount";
     timestampColumn := "created_at" |}.

Definition shopify_table : RevenueTrackingDataWarehouseTable :=
  {| tableName := "shopify_orders"; revenueColumn := "total";
     timestampColumn := "processed_at" |}.

Definition pricing_filter : pydict :=
  [ ("type", JStr "recording"); ("key", JStr "visited_page");
    ("value", JStr "/pricing"); ("operator", JStr "exact") ].

Definition snapshot_source_filter : pydict :=
  [ ("type", JStr "recording"); ("key", JStr "snapshot_source");
    ("value", JList [JStr "web"]); ("operator", JStr "exact") ].

Definition empty_snapshot_source_filter : pydict :=
  [ ("type", JStr "recording"); ("key", JStr "snapshot_source");
    ("value", JList []); ("operator", JStr "exact") ].

Definition person_filter : pydict :=
  [ ("key", JStr "$browser"); ("value", JStr "Chrome");
    ("operator", JStr "exact"); ("type", JStr "person") ].

(** A universal document with the given duration array and leaves. *)
Definition document_with (duration : json) (leaves : list json) : pydict :=
  [ ("date_from", JStr "-7d");
    ("duration", duration);
    ("filter_group", two_level_group leaves);
    ("order", JStr "start_time") ].

Definition duration_gt_60 : json :=
  JDict [ ("type", JStr "recording"); ("key", JStr "duration");
          ("value", JInt 60); ("operator", JStr "gt") ].


(** ** Vocabulary of the further properties *)

(** A leaf that is a JSON object. *)
Definition is_object (f : json) : bool :=
  match f with
  | JDict _ => true
  | _ => false
  end.

(** A leaf of type [recording] with the key [visited_page]. *)
Definition is_visited_page_leaf (f : json) : bool :=
  match f with
  | JDict d =>
      Py.eq_str (Py.get d "type") "recording"
      && Py.eq_str (Py.get d "key") "visited_page"
  | _ => false
  end.

(** A leaf whose type is the given one. *)
Definition has_type (t : string) (f : json) : bool :=
  match f with
  | JDict d => Py.eq_str (Py.get d "type") t
  | _ => false
  end.

(** What a leaf adds to [events]: itself when its type is [events], the
    pageview event when it is a [visited_page] leaf. *)
Definition events_of (f : json) : list json :=
  match f with
  | JDict d =>
      if has_type "events" f then [f]
      else if is_visited_page_leaf f
           then [pageview_event (Py.get d "value") (Py.get d "operator")]
           else []
  | _ => []
  end.

(** A leaf that goes to [properties]: an object that is no event, action or
    console-log filter, no [visited_page] leaf and no snapshot-source leaf. *)
Definition is_property_leaf (f : json) : bool :=
  is_object f
  && negb (has_type "events" f) && negb (has_type "actions" f)
  && negb (has_type "log_entry" f)
  && negb (is_visited_page_leaf f) && negb (is_snapshot_source_leaf f).

(** How many filters the five lists hold. *)
Definition bucket_size (b : buckets) : nat :=
  (List.length (b_events b) + List.length (b_actions b)
   + List.length (b_properties b) + List.length (b_console_log_filters b)
   + List.length (b_having_predicates b))%nat.

(** The filter the normalizer makes of [console_logs], if it is set. *)
Definition console_level_filters (filters : pydict) : list json :=
  if is_set filters "console_logs" then
    [ JDict [ ("key", JStr "level");
              ("value", Py.get filters "console_logs");
              ("operator", JStr "exact");
              ("type", JStr "log_entry") ] ]
  else [].

(** The filter the normalizer makes of [console_search_query], if it is
    set: the query is wrapped in a list. *)
Definition console_message_filters (filters : pydict) : list json :=
  if is_set filters "console_search_query" then
    [ JDict [ ("key", JStr "message");
              ("value", JList [Py.get filters "console_search_query"]);
              ("operator", JStr "exact");
              ("type", JStr "log_entry") ] ]
  else [].

(** The keys of a dictionary, in order. *)
Definition keys (d : pydict) : list string := map fst d.

(** The default duration filter: more than five active seconds. *)
Definition default_duration : json :=
  JList [ JDict [ ("type", JStr "recording"); ("key", JStr "active_seconds");
                  ("value", JInt 5); ("operator", JStr "gt") ] ].

Definition duration_override_document : pydict :=
  [ ("session_recording_duration",
      JDict [ ("type", JStr "recording"); ("key", JStr "duration");
              ("value", JInt 60); ("operator", JStr "gt") ]);
    ("duration_type_filter", JStr "inactive_seconds");
    ("order", JStr "console_error_count");
    ("date_from", JStr "-30d");
    ("filter_test_accounts", JNull) ].

(** A document that holds nothing but the two keys the translator drops. *)
Definition version_only_document : pydict :=
  [ ("version", JInt 3); ("hogql_filtering", JBool true) ].

(** An environment whose [RecordingsQuery] never validates. *)
Definition rejecting_env : Env :=
  {| RecordingPropertyFilter_valid := fun _ _ _ => true;
     RecordingsQuery_valid := fun _ => false;
     filter_from_params_to_query := fun _ => Ok default_query;
     model_dump := fun _ => Ok (JDict []);
     list_recordings_from_query := fun _ _ => Ok ([], false);
     json_loads := fun _ => Raise ValueError;
     json_dumps := fun _ => "{...}";
     fromisoformat := fun _ => Raise ValueError;
     isoformat := fun _ => "2024-05-01T12:00:10";
     now := fun n => refreshed_us + (10 + Z.of_nat n) * 1000000;
     PLAYLIST_COUNTER_PROCESSING_COOLDOWN_SECONDS := 300;
     PLAYLIST_COUNT_REDIS_PREFIX := "playlist_count:" |}.

(** The duration predicate of the default duration filter. *)
Definition default_duration_predicate : having_predicate :=
  HavingFilter {| rpf_key := JStr "active_seconds"; rpf_operator := JStr "gt";
                  rpf_value := JInt 5 |}.

Definition console_legacy_document : pydict :=
  [ ("events", JList [pageview_filter]);
    ("properties", JList [JDict snapshot_source_filter; browser_filter]);
    ("console_logs", JList [JStr "error"]);
    ("console_search_query", JStr "boom") ].

(** ** Vocabulary of the task *)

(** The counters by which the task tells how a run ended. *)
Definition outcome_metrics : list string :=
  [ REPLAY_TEAM_PLAYLIST_COUNT_SUCCEEDED; REPLAY_TEAM_PLAYLIST_COUNT_FAILED;
    REPLAY_TEAM_PLAYLIST_COUNT_UNKNOWN; REPLAY_TEAM_PLAYLIST_COUNT_SKIPPED ].

(** No outcome is counted between two worlds. *)
Definition outcome_counts_kept (w w' : world) : Prop :=
  forall name label,
    In name outcome_metrics -> counter_value w' name label = counter_value w name label.

(** Between two worlds one outcome is counted, once, and it is the one of
    this name and label. *)
Definition counted_once (w w' : world) (name label : string) : Prop :=
  counter_value w' name label = S (counter_value w name label) /\
  forall name' label',
    In name' outcome_metrics -> (name', label') <> (name, label) ->
    counter_value w' name' label' = counter_value w name' label'.

(** The key of the cached record of a playlist. *)
Definition cache_key `{Env} (p : Playlist) : string :=
  (PLAYLIST_COUNT_REDIS_PREFIX ++ pl_short_id p)%string.

(** A world whose cache is empty. *)
Definition cold_world (filters : pydict) : world :=
  set_redis (example_world filters) ∅.

(** As [example_env], with a cooldown of five seconds: the cached record of
    [example_world], ten seconds old, is stale. *)
Definition impatient_env : Env :=
  {| RecordingPropertyFilter_valid := fun _ _ _ => true;
     RecordingsQuery_valid := fun _ => true;
     filter_from_params_to_query := fun _ => Ok default_query;
     model_dump := fun _ => Ok (JDict []);
     list_recordings_from_query := fun _ _ => Ok ([{| session_id := "s2" |}], false);
     json_loads := fun s => if String.eqb s cached_text then Ok cached_record
                            else Raise ValueError;
     json_dumps := fun _ => "{...}";
     fromisoformat := fun s => if String.eqb s "2024-05-01T12:00:00"
                               then Ok {| wall_clock_us := refreshed_us; utcoffset := None |}
                               else Raise ValueError;
     isoformat := fun _ => "2024-05-01T12:00:10";
     now := fun n => refreshed_us + (10 + Z.of_nat n) * 1000000;
     PLAYLIST_COUNTER_PROCESSING_COOLDOWN_SECONDS := 5;
     PLAYLIST_COUNT_REDIS_PREFIX := "playlist_count:" |}.

(** [except SessionRecordingPlaylist.DoesNotExist] catches this error
    alone. *)
Definition is_does_not_exist (e : exn) : bool :=
  match e with
  | DoesNotExist => true
  | _ => false
  end.

(** The default filters with their keys in another order. *)
Definition reordered_default_filters : pydict :=
  [ ("order", JStr "start_time");
    ("duration", default_duration);
    ("filter_test_accounts", JBool false);
    ("date_to", JNull);
    ("date_from", JStr "-3d") ].

(** ** [enqueue_recordings_that_match_playlist_filters] *)

Definition REPLAY_TEAM_PLAYLISTS_IN_TEAM_COUNT :=
  "replay_playlist_with_filters_in_team_count".

(** [isinstance(x, int)]: [bool] is a subtype of [int]. *)
Definition is_int (x : json) : bool :=
  match x with
  | JInt _ | JBool _ => true
  | _ => false
  end.

(** [int(x)] for an [x] that is an [int]. *)
Definition int_value (x : json) : option Z :=
  match x with
  | JInt z => Some z
  | JBool b => Some (Z.b2z b)
  | _ => None
  end.

(** Lines 403-405: one task per row, in the order of the rows, and one
    count per task. *)
Fixpoint delay_all (rows : list Playlist) (delayed : list Z) (w : world)
    : list Z * world :=
  match rows with
  | [] => (delayed, w)
  | playlist :: rows =>
      delay_all rows (delayed ++ [pl_id playlist])
        (counter_inc REPLAY_TEAM_PLAYLISTS_IN_TEAM_COUNT "" w)
  end.

Section Enqueue.

(** The rows the queryset of lines 393-401 yields for a given
    [team_id__lte], in its order; the setting
    [PLAYLIST_COUNTER_PROCESSING_MAX_ALLOWED_TEAM_ID] is an argument.  The
    result holds the ids given to [.delay], in order. *)
Variable all_playlists : Z -> list Playlist.

Definition enqueue_recordings_that_match_playlist_filters
    (PLAYLIST_COUNTER_PROCESSING_MAX_ALLOWED_TEAM_ID : json) (w : world)
    : result (list Z) * world :=
  if negb (Py.truthy PLAYLIST_COUNTER_PROCESSING_MAX_ALLOWED_TEAM_ID)
     || negb (is_int PLAYLIST_COUNTER_PROCESSING_MAX_ALLOWED_TEAM_ID)
  then
    (Raise (Exception [JStr "PLAYLIST_COUNTER_PROCESSING_MAX_ALLOWED_TEAM_ID is not set"]),
     w)
  else if Py.eq PLAYLIST_COUNTER_PROCESSING_MAX_ALLOWED_TEAM_ID (JInt 0) then (Ok [], w)
  else
    match int_value PLAYLIST_COUNTER_PROCESSING_MAX_ALLOWED_TEAM_ID with
    | Some team_id_lte =>
        let (delayed, w) := delay_all (all_playlists team_id_lte) [] w in
        (Ok delayed, w)
    | None => (Raise TypeError, w)
    end.

End Enqueue.

(** Two playlists due for a count. *)
Definition due_playlists (team_id_lte : Z) : list Playlist :=
  if 1 <=? team_id_lte then
    [ example_playlist universal_document;
      {| pl_id := 9; pl_short_id := "xyz789"; pl_team := 1;
         pl_filters := JDict legacy_document; pl_last_counted_at := None |} ]
  else [].

(** As [example_env], but timestamps are read with a UTC offset of two
    hours. *)
Definition aware_env : Env :=
  {| RecordingPropertyFilter_valid := fun _ _ _ => true;
     RecordingsQuery_valid := fun _ => true;
     filter_from_params_to_query := fun _ => Ok default_query;
     model_dump := fun _ => Ok (JDict []);
     list_recordings_from_query := fun _ _ => Ok ([{| session_id := "s2" |}], false);
     json_loads := fun s => if String.eqb s cached_text then Ok cached_record
                            else Raise ValueError;
     json_dumps := fun _ => "{...}";
     fromisoformat := fun s => if String.eqb s "2024-05-01T12:00:00"
                               then Ok {| wall_clock_us := refreshed_us;
                                          utcoffset := Some 7200 |}
                               else Raise ValueError;
     isoformat := fun _ => "2024-05-01T12:00:10";
     now := fun n => refreshed_us + (10 + Z.of_nat n) * 1000000;
     PLAYLIST_COUNTER_PROCESSING_COOLDOWN_SECONDS := 300;
     PLAYLIST_COUNT_REDIS_PREFIX := "playlist_count:" |}.




(** ** The seconds of line 316, through the float *)

(** [timedelta.total_seconds()] of a span of [us] microseconds: the span
    divided by 10^6, a quotient of two integers, which Python returns as
    the double nearest to it (ties to even).  [SFdiv] rounds the quotient
    of two mantissas of any size. *)
Definition total_seconds (us : Z) : spec_float :=
  match us with
  | Z0 => S754_zero false
  | Zpos m => SFdiv 53 1024 (S754_finite false m 0) (S754_finite false 1000000 0)
  | Zneg m => SFdiv 53 1024 (S754_finite true m 0) (S754_finite false 1000000 0)
  end.

(** [int(x)] of a float: the integer part; an infinity is an
    [OverflowError], a NaN a [ValueError]. *)
Definition int_of_float (f : spec_float) : result Z :=
  match f with
  | S754_zero _ => Ok 0
  | S754_finite s m e =>
      Ok (cond_Zopp s (if 0 <=? e then Zpos m * 2 ^ e else Zpos m / 2 ^ (- e)))
  | S754_infinity _ => Raise OverflowError
  | S754_nan => Raise ValueError
  end.

(** [int((a - b).total_seconds())] for a naive [a], computed as the code
    computes it. *)
Definition seconds_between_float (a b : datetime) : result Z :=
  match utcoffset b with
  | None => int_of_float (total_seconds (wall_clock_us a - wall_clock_us b))
  | Some _ => Raise TypeError
  end.

(** A rounding location at the half or above it. *)
Definition loc_ge_half (l : location) : bool :=
  match l with
  | loc_Inexact Eq | loc_Inexact Gt => true
  | _ => false
  end.

(** * Properties *)

(** ** Dictionaries *)

Section PyFacts.

Implicit Types (d : pydict) (k : string) (v : json).

Lemma contains_lookup d k : Py.contains d k = true <-> is_Some (Py.lookup d k).
Proof.
  induction d as [|[k' v'] d IH]; simpl.
  - split; [discriminate | intros [? ?]; discriminate].
  - destruct (String.eqb k' k); [split; eauto | exact IH].
Qed.

Lemma lookup_pop_ne d k k' : k <> k' -> Py.lookup (Py.pop d k') k = Py.lookup d k.
Proof.
  intros Hne. induction d as [|[k0 v0] d IH]; simpl; [reflexivity|].
  destruct (String.eqb k0 k') eqn:E0.
  - apply String.eqb_eq in E0. subst k0.
    destruct (String.eqb k' k) eqn:E1; [apply String.eqb_eq in E1; congruence | exact IH].
  - simpl. rewrite IH. reflexivity.
Qed.

Lemma lookup_pop_eq d k : Py.lookup (Py.pop d k) k = None.
Proof.
  induction d as [|[k0 v0] d IH]; simpl; [reflexivity|].
  destruct (String.eqb k0 k) eqn:E0; [exact IH|]. simpl. rewrite E0. exact IH.
Qed.

Lemma pop_absent d k : Py.lookup d k = None -> Py.pop d k = d.
Proof.
  induction d as [|[k0 v0] d IH]; simpl; [reflexivity|].
  destruct (String.eqb k0 k); [discriminate|]. intros Hl. rewrite IH; auto.
Qed.

Lemma get_or_lookup d k v dflt : Py.lookup d k = Some v -> Py.get_or d k dflt = v.
Proof. unfold Py.get_or. intros ->. reflexivity. Qed.

Lemma get_lookup d k v : Py.lookup d k = Some v -> Py.get d k = v.
Proof. apply get_or_lookup. Qed.


Lemma get_truthy_lookup d k : Py.truthy (Py.get d k) = true -> Py.lookup d k = Some (Py.get d k).
Proof.
  unfold Py.get, Py.get_or. destruct (Py.lookup d k); [reflexivity | discriminate].
Qed.

Lemma getitem_lookup d k v : Py.lookup d k = Some v -> Py.getitem d k = Ok v.
Proof. unfold Py.getitem. intros ->. reflexivity. Qed.

End PyFacts.

(** ** The normalizer *)

Lemma add_lists (a b : list json) : Py.add (JList a) (JList b) = Ok (JList (a ++ b)).
Proof. reflexivity. Qed.

Lemma legacy_array_get_or filters k l :
  legacy_array filters k = Some l -> Py.get_or filters k (JList []) = JList l.
Proof.
  unfold legacy_array. destruct (Py.get_or filters k (JList [])); try discriminate.
  intros [= ->]. reflexivity.
Qed.

(** The duration step of the normalizer succeeds on a well-typed document. *)
Lemma legacy_duration_ok (filters : pydict) :
  (is_set filters "session_recording_duration" = true ->
   exists d, Py.get filters "session_recording_duration" = JDict d) ->
  exists duration, legacy_duration filters = Ok duration.
Proof.
  intros Hd. unfold is_set in Hd. unfold legacy_duration.
  destruct (Py.truthy (Py.get filters "session_recording_duration")) eqn:Et; [|eauto].
  destruct (Hd eq_refl) as [d Hget].
  pose proof (get_truthy_lookup _ _ Et) as Hl. rewrite Hget in Hl.
  rewrite Hget, (get_or_lookup _ _ _ (JDict []) Hl). simpl. eauto.
Qed.

(** Its only error is the [TypeError] of unpacking what is no mapping. *)
Lemma legacy_duration_raises (filters : pydict) (e : exn) :
  legacy_duration filters = Raise e -> e = TypeError.
Proof.
  unfold legacy_duration.
  destruct (Py.truthy (Py.get filters "session_recording_duration")) eqn:Et;
    [|discriminate].
  pose proof (get_truthy_lookup _ _ Et) as Hl.
  destruct (Py.get filters "session_recording_duration") as [| | | | | |d];
    cbn [Py.as_mapping rbind]; try (intros [= <-]; reflexivity).
  rewrite (get_or_lookup _ _ _ (JDict []) Hl). discriminate.
Qed.

(** C3.  On a non-empty legacy document whose [events], [actions] and
    [properties] are arrays (or absent) and whose
    [session_recording_duration], when set, is an object,
    [convert_legacy_filters_to_universal_filters] returns a document whose
    [filter_group] is one AND group holding exactly one AND group, and the
    number of children of that inner group is the number of events plus
    actions plus properties, plus one when [console_logs] is set and one
    when [console_search_query] is set (set: truthy, as the code tests
    it).  The group marker plays no role: the function never reads it. *)
Theorem convert_legacy_group_shape
    (filters : pydict) (events actions properties : list json) :
  filters <> [] ->
  legacy_array filters "events" = Some events ->
  legacy_array filters "actions" = Some actions ->
  legacy_array filters "properties" = Some properties ->
  (is_set filters "session_recording_duration" = true ->
   exists d, Py.get filters "session_recording_duration" = JDict d) ->
  exists document children,
    convert_legacy_filters_to_universal_filters (Some filters) = Ok document /\
    Py.lookup document "filter_group" = Some (two_level_group children) /\
    List.length children =
      (List.length events + List.length actions + List.length properties
       + (if is_set filters "console_logs" then 1 else 0)
       + (if is_set filters "console_search_query" then 1 else 0))%nat.
Proof.
  intros Hne He Ha Hp Hd.
  destruct (legacy_duration_ok filters Hd) as [duration Hdur].
  unfold convert_legacy_filters_to_universal_filters.
  destruct filters as [|kv rest]; [congruence|].
  set (doc := kv :: rest) in *.
  rewrite (legacy_array_get_or _ _ _ He), (legacy_array_get_or _ _ _ Ha),
    (legacy_array_get_or _ _ _ Hp), Hdur.
  cbn [rbind]. rewrite !add_lists. cbn [rbind].
  eexists _, _. split; [reflexivity|]. split; [reflexivity|].
  unfold is_set. rewrite !length_app.
  destruct (Py.truthy (Py.get doc "console_logs")),
    (Py.truthy (Py.get doc "console_search_query")); simpl; lia.
Qed.

Lemma convert_legacy_group_shape_witness :
  exists document children,
    convert_legacy_filters_to_universal_filters (Some legacy_document) = Ok document /\
    Py.lookup document "filter_group" = Some (two_level_group children) /\
    List.length children = (1 + 0 + 1 + 1 + 1)%nat.
Proof.
  apply (convert_legacy_group_shape legacy_document [pageview_filter] [] [browser_filter]).
  - discriminate.
  - reflexivity.
  - reflexivity.
  - reflexivity.
  - intros _. eexists. reflexivity.
Defined.

(** Only a list can be added to a list. *)
Lemma add_list_inv a (y : list json) c :
  Py.add a (JList y) = Ok c -> exists x, a = JList x /\ c = JList (x ++ y).
Proof.
  destruct a; simpl; try discriminate. intros [= <-]. eauto.
Qed.

Lemma float_of_int_raises z e : Py.float_of_int z = Raise e -> e = OverflowError.
Proof.
  unfold Py.float_of_int. destruct (binary_normalize 53 1024 z 0 false);
    intros [= <-]; reflexivity.
Qed.

Lemma add_raises a b e : Py.add a b = Raise e -> e = TypeError \/ e = OverflowError.
Proof.
  unfold Py.add.
  destruct a, b; cbn [Py.as_number]; try (intros [= <-]; auto);
    match goal with
    | |- rbind (Py.float_of_int ?z) _ = Raise _ -> _ =>
        destruct (Py.float_of_int z) eqn:Ef; cbn [rbind]; [discriminate|];
        intros [= <-]; right; eapply float_of_int_raises; eassumption
    end.
Qed.

(** Whatever the normalizer returns for a non-empty document has the six
    keys of a universal document and a two-level group. *)
Lemma convert_legacy_ok_inv (filters document : pydict) :
  filters <> [] ->
  convert_legacy_filters_to_universal_filters (Some filters) = Ok document ->
  exists date_from date_to test_accounts duration children,
    duration <> [] /\
    document =
      [ ("date_from", date_from); ("date_to", date_to);
        ("filter_test_accounts", test_accounts); ("duration", JList duration);
        ("filter_group", two_level_group children); ("order", JStr "start_time") ].
Proof.
  intros Hne. unfold convert_legacy_filters_to_universal_filters.
  destruct filters as [|kv rest]; [congruence|].
  set (doc := kv :: rest).
  destruct (legacy_duration doc) as [duration|e] eqn:Hdur; cbn [rbind]; [|discriminate].
  destruct (Py.add _ _) as [l1|] eqn:H1; cbn [rbind]; [|discriminate].
  destruct (Py.add l1 _) as [l2|] eqn:H2; cbn [rbind]; [|discriminate].
  destruct (Py.add l2 _) as [l3|] eqn:H3; cbn [rbind]; [|discriminate].
  destruct (Py.add l3 _) as [l4|] eqn:H4; cbn [rbind]; [|discriminate].
  apply add_list_inv in H4 as (x & _ & ->).
  intros [= <-].
  destruct duration as [|d0 ds].
  - eexists _, _, _, _, _. split; [|reflexivity]. discriminate.
  - eexists _, _, _, (d0 :: ds), _. split; [discriminate | reflexivity].
Qed.

Lemma without_version_lookup d k :
  k <> "version" -> k <> "hogql_filtering" ->
  Py.lookup (without_version d) k = Py.lookup d k.
Proof.
  intros H1 H2. unfold without_version. rewrite !lookup_pop_ne; auto.
Qed.

Lemma without_version_idem d : without_version (without_version d) = without_version d.
Proof.
  unfold without_version.
  rewrite (pop_absent (Py.pop (Py.pop d "version") "hogql_filtering") "version").
  - apply pop_absent, lookup_pop_eq.
  - rewrite lookup_pop_ne by discriminate. apply lookup_pop_eq.
Qed.

Lemma set_pl_filters_same p : set_pl_filters p (pl_filters p) = p.
Proof. destruct p; reflexivity. Qed.

(** ** The guard in front of the normalizer *)

Section Guard.

Context `{Env}.

Lemma truthy_dict_nonempty (d : pydict) : Py.truthy (JDict d) = true <-> d <> [].
Proof. destruct d; simpl; split; congruence. Qed.

(** A document with a group marker goes to the construction as it is. *)
Lemma convert_universal (p : Playlist) (w : world) (d : pydict) :
  pl_filters p = JDict d ->
  Py.contains (without_version d) "filter_group" = true ->
  convert_filters_to_recordings_query p w =
    (fst (construct (without_version d) w),
     set_pl_filters p (JDict (without_version d)),
     snd (construct (without_version d) w)).
Proof.
  intros Hp Hc. unfold convert_filters_to_recordings_query.
  rewrite Hp. fold (without_version d). rewrite Hc. simpl.
  destruct (construct _ _). reflexivity.
Qed.

(** What the translator leaves in the playlist object. *)
Lemma playlist_after_cases (p : Playlist) (w : world) :
  playlist_after p w = p /\ (forall d, pl_filters p <> JDict d)
  \/ (exists d, pl_filters p = JDict d /\
        playlist_after p w = set_pl_filters p (JDict (without_version d)) /\
        (Py.contains (without_version d) "filter_group" = true
         \/ without_version d = []
         \/ exists e, convert_legacy_filters_to_universal_filters
                        (Some (without_version d)) = Raise e))
  \/ (exists d document,
        pl_filters p = JDict d /\
        Py.contains (without_version d) "filter_group" = false /\
        without_version d <> [] /\
        convert_legacy_filters_to_universal_filters (Some (without_version d))
          = Ok document /\
        playlist_after p w = set_pl_filters p (JDict document)).
Proof.
  unfold playlist_after, convert_filters_to_recordings_query.
  destruct (pl_filters p) as [| | | | |l|d] eqn:Hp;
    try (left; split; [reflexivity | congruence]).
  fold (without_version d).
  destruct (Py.contains (without_version d) "filter_group") eqn:Hc; simpl.
  - right; left. exists d. split; [reflexivity|].
    destruct (construct _ _); simpl. auto.
  - destruct (without_version d) as [|kv rest] eqn:Hwv.
    + right; left. exists d. rewrite Hwv. simpl. auto.
    + cbn [Py.truthy negb].
      destruct (convert_legacy_filters_to_universal_filters (Some (kv :: rest)))
        as [document|e] eqn:Hconv.
      * right; right. exists d, document. rewrite Hwv.
        repeat split; try assumption; try discriminate.
        cbv zeta. destruct (save_filters _ _) as [[?|?] ?]; [|reflexivity].
        destruct (construct _ _); reflexivity.
      * right; left. exists d. rewrite Hwv. split; [reflexivity|].
        split; [reflexivity|]. right; right. eauto.
Qed.

End Guard.

Section GuardedNormalization.

Context `{Env}.

(** A second pass finds nothing left to do. *)
Lemma playlist_after_fixed (p : Playlist) (w : world) (f : pydict) :
  pl_filters p = JDict f ->
  without_version f = f ->
  (Py.contains f "filter_group" = true
   \/ f = []
   \/ exists e, convert_legacy_filters_to_universal_filters (Some f) = Raise e) ->
  playlist_after p w = p.
Proof.
  intros Hp Hwv Hcase.
  destruct (playlist_after_cases p w)
    as [[_ Hno] | [(d & Hd & Hafter & _) | (d & doc & Hd & Hc & Hne & Hconv & _)]].
  - exfalso. exact (Hno f Hp).
  - rewrite Hafter. rewrite Hp in Hd. injection Hd as <-.
    rewrite Hwv, <- Hp. apply set_pl_filters_same.
  - exfalso. rewrite Hp in Hd. injection Hd as <-. rewrite Hwv in *.
    destruct Hcase as [Ht | [-> | [e He]]]; congruence.
Qed.

(** C2, as amended.  The normalization that
    [convert_filters_to_recordings_query] applies to the filters of a
    playlist (drop [version] and [hogql_filtering], then convert with
    [convert_legacy_filters_to_universal_filters] only a non-empty
    document without the key [filter_group]) is idempotent: a second run
    leaves the playlist object as the first run left it.  A document that
    already has the key [filter_group] is kept as it is but for the two
    dropped keys, the playlist is not saved and no conversion is
    counted. *)
Theorem guarded_normalization_idempotent (p : Playlist) (w w' : world) :
  playlist_after (playlist_after p w) w' = playlist_after p w /\
  (forall d,
     pl_filters p = JDict d ->
     Py.contains d "filter_group" = true ->
     pl_filters (playlist_after p w) = JDict (without_version d) /\
     playlists (world_after p w) = playlists w /\
     counters (world_after p w) = counters w).
Proof.
  split.
  - destruct (playlist_after_cases p w)
      as [[Hsame Hno] | [(d & Hd & Hafter & Hcase) | (d & doc & Hd & Hc & Hne & Hconv & Hafter)]].
    + rewrite Hsame.
      unfold playlist_after, convert_filters_to_recordings_query.
      destruct (pl_filters p) eqn:Hp; try reflexivity. exfalso. eapply Hno. reflexivity.
    + rewrite Hafter.
      apply (playlist_after_fixed _ _ (without_version d));
        [reflexivity | apply without_version_idem | exact Hcase].
    + rewrite Hafter.
      destruct (convert_legacy_ok_inv _ _ Hne Hconv)
        as (a & b & c & dur & children & _ & ->).
      eapply playlist_after_fixed; [reflexivity | reflexivity | left; reflexivity].
  - intros d Hd Hc.
    assert (Hc' : Py.contains (without_version d) "filter_group" = true).
    { apply contains_lookup. rewrite without_version_lookup by discriminate.
      apply contains_lookup. exact Hc. }
    unfold playlist_after, world_after.
    rewrite (convert_universal p w d Hd Hc'). simpl.
    split; [reflexivity|].
    unfold construct.
    destruct (recordings_query_arguments _); [|auto].
    destruct (RecordingsQuery_new _) as [q|[]]; auto.
Qed.

End GuardedNormalization.

(** C2, as stated, fails: [convert_legacy_filters_to_universal_filters]
    does not look for the group marker.  Applied to its own result for
    [legacy_document], which has the key [filter_group], it returns a
    different document (the group is emptied, the duration reset). *)
Lemma convert_legacy_not_idempotent :
  exists once twice,
    convert_legacy_filters_to_universal_filters (Some legacy_document) = Ok once /\
    Py.contains once "filter_group" = true /\
    convert_legacy_filters_to_universal_filters (Some once) = Ok twice /\
    twice <> once /\
    Py.eq (JDict twice) (JDict once) = false.
Proof.
  eexists _, _. split; [reflexivity|]. split; [reflexivity|].
  split; [reflexivity|]. split; [discriminate | reflexivity].
Qed.

Lemma guarded_normalization_idempotent_witness :
  let p := example_playlist universal_document in
  let w := example_world universal_document in
  let after := playlist_after (H := example_env) in
  after (after p w) w = after p w /\
  pl_filters (after p w) = JDict (without_version universal_document) /\
  playlists (world_after (H := example_env) p w) = playlists w /\
  counters (world_after (H := example_env) p w) = counters w.
Proof.
  intros p w after.
  destruct (guarded_normalization_idempotent (H := example_env) p w w) as [Hidem Hkeep].
  split; [exact Hidem|].
  apply (Hkeep universal_document); reflexivity.
Defined.

(** ** Which errors the translation can raise *)

Section Errors.

Context `{Env}.

Lemma get_attr_raises x k e : Py.get_attr x k = Raise e -> raised_by_callee e = true.
Proof. destruct x; simpl; intros [= <-]; reflexivity. Qed.

Lemma get_or_attr_raises x k v e :
  Py.get_or_attr x k v = Raise e -> raised_by_callee e = true.
Proof. destruct x; simpl; intros [= <-]; reflexivity. Qed.

Lemma getitem_raises d k e : Py.getitem d k = Raise e -> raised_by_callee e = true.
Proof. unfold Py.getitem. destruct (Py.lookup d k); intros [= <-]. reflexivity. Qed.

Lemma subscript_str_raises x k e :
  Py.subscript_str x k = Raise e -> raised_by_callee e = true.
Proof.
  destruct x; simpl; try (intros [= <-]; reflexivity). apply getitem_raises.
Qed.

Lemma subscript_0_raises x e : Py.subscript_0 x = Raise e -> raised_by_callee e = true.
Proof.
  destruct x as [| | | |s|l|d]; simpl; try (intros [= <-]; reflexivity).
  - destruct s; intros [= <-]; reflexivity.
  - destruct l; intros [= <-]; reflexivity.
Qed.

Lemma len_raises x e : Py.len x = Raise e -> raised_by_callee e = true.
Proof. destruct x; simpl; intros [= <-]; reflexivity. Qed.

Lemma iter_raises x e : Py.iter x = Raise e -> raised_by_callee e = true.
Proof. destruct x; simpl; intros [= <-]; reflexivity. Qed.

Lemma asRecordingPropertyFilter_raises x e :
  asRecordingPropertyFilter x = Raise e -> raised_by_callee e = true.
Proof.
  unfold asRecordingPropertyFilter.
  destruct (Py.subscript_str x "key") eqn:E1; cbn [rbind];
    [|intros [= <-]; eapply subscript_str_raises; eassumption].
  destruct (Py.subscript_str x "operator") eqn:E2; cbn [rbind];
    [|intros [= <-]; eapply subscript_str_raises; eassumption].
  destruct (Py.subscript_str x "value") eqn:E3; cbn [rbind];
    [|intros [= <-]; eapply subscript_str_raises; eassumption].
  destruct (RecordingPropertyFilter_valid _ _ _); intros [= <-]. reflexivity.
Qed.

Lemma duration_having_predicates_raises filters e :
  duration_having_predicates filters = Raise e -> raised_by_callee e = true.
Proof.
  unfold duration_having_predicates.
  set (duration_filters := Py.get_or filters "duration" (JList [])).
  destruct (Py.truthy duration_filters).
  - destruct (Py.len duration_filters) eqn:El; cbn [rbind];
      [|intros [= <-]; eapply len_raises; eassumption].
    destruct (0 <? a); [|discriminate].
    destruct (Py.subscript_0 duration_filters) eqn:E0; cbn [rbind];
      [|intros [= <-]; eapply subscript_0_raises; eassumption].
    destruct (asRecordingPropertyFilter a0) eqn:Ea; cbn [rbind]; [discriminate|].
    intros [= <-]. eapply asRecordingPropertyFilter_raises; eassumption.
  - cbn [rbind]. discriminate.
Qed.

Lemma process_filter_raises b f e :
  process_filter b f = Raise e -> e = AttributeError.
Proof.
  unfold process_filter. destruct f; simpl; try (intros [= <-]; reflexivity).
  repeat match goal with
         | |- (if ?c then _ else _) = Raise _ -> _ => destruct c
         | |- Ok _ = Raise _ -> _ => discriminate
         | |- rbind (if ?c then _ else _) _ = Raise _ -> _ => destruct c; cbn [rbind]
         | |- Raise _ = Raise _ -> _ => intros [= <-]; reflexivity
         end.
Qed.

Lemma process_filters_raises fs b e :
  process_filters b fs = Raise e -> e = AttributeError.
Proof.
  revert b. induction fs as [|f fs IH]; intros b; simpl; [discriminate|].
  destruct (process_filter b f) eqn:Ef; cbn [rbind]; [apply IH|].
  intros [= <-]. eapply process_filter_raises; eassumption.
Qed.

End Errors.

(** ** The rejected group structure *)

Section Rejection.

Context `{Env}.

Lemma extract_filters_unusable (filters : pydict) :
  unusable_group filters -> extract_filters filters = Raise invalid_universal_filters.
Proof.
  intros [Hc [Hfalsy | (group & Hget & Hvalues)]]; unfold extract_filters.
  - rewrite Hfalsy. reflexivity.
  - apply contains_lookup in Hc as [v Hv].
    rewrite (get_lookup _ _ _ Hv) in Hget. subst v.
    rewrite (get_lookup _ _ _ Hv), (getitem_lookup _ _ _ Hv).
    cbn [Py.get_attr rbind]. rewrite Hvalues.
    destruct (Py.truthy (JDict group)); reflexivity.
Qed.

Lemma extract_filters_exception (filters : pydict) (args : list json) :
  extract_filters filters = Raise (Exception args) ->
  args = [JStr "Invalid universal filters"] /\
  (Py.truthy (Py.get filters "filter_group") = false
   \/ exists group, Py.get filters "filter_group" = JDict group
                    /\ Py.truthy (Py.get group "values") = false).
Proof.
  unfold extract_filters.
  destruct (Py.truthy (Py.get filters "filter_group")) eqn:Et.
  - pose proof (get_truthy_lookup _ _ Et) as Hl.
    rewrite (getitem_lookup _ _ _ Hl). cbn [rbind].
    destruct (Py.get filters "filter_group") as [| | | | | |group] eqn:Hg;
      try (cbn; discriminate).
    cbn [Py.get_attr rbind].
    destruct (Py.truthy (Py.get group "values")) eqn:Hv.
    + cbn [Py.subscript_str].
      pose proof (get_truthy_lookup _ _ Hv) as Hlv.
      rewrite (getitem_lookup _ _ _ Hlv). cbn [rbind].
      destruct (Py.subscript_0 (Py.get group "values")) as [g|e] eqn:E0; cbn [rbind].
      * destruct (Py.truthy g).
        -- destruct (Py.get_attr g "values") as [gv|e] eqn:Egv; cbn [rbind].
           ++ destruct (Py.truthy gv); [|discriminate].
              intros Hr. apply subscript_str_raises in Hr. discriminate.
           ++ intros [= ->]. apply get_attr_raises in Egv. discriminate.
        -- cbn [rbind]. discriminate.
      * intros [= ->]. apply subscript_0_raises in E0. discriminate.
    + intros [= <-]. split; [reflexivity|]. right. eauto.
  - cbn [rbind]. intros [= <-]. auto.
Qed.

Lemma recordings_query_arguments_exception (filters : pydict) (args : list json) :
  recordings_query_arguments filters = Raise (Exception args) ->
  extract_filters filters = Raise (Exception args).
Proof.
  unfold recordings_query_arguments.
  destruct (extract_filters filters) as [extracted|e]; cbn [rbind];
    [|intros [= ->]; reflexivity].
  destruct (duration_having_predicates filters) as [hp|e] eqn:Ed; cbn [rbind].
  2:{ intros [= ->]. apply duration_having_predicates_raises in Ed. discriminate. }
  destruct (Py.iter extracted) as [fs|e] eqn:Ei; cbn [rbind].
  2:{ intros [= ->]. apply iter_raises in Ei. discriminate. }
  destruct (process_filters _ fs) as [b|e] eqn:Ep; cbn [rbind].
  2:{ intros [= ->]. apply process_filters_raises in Ep. discriminate. }
  destruct (Py.get_or_attr _ _ _) as [op|e] eqn:Eo; cbn [rbind]; [discriminate|].
  intros [= ->]. apply get_or_attr_raises in Eo. discriminate.
Qed.

Lemma construct_exception (filters : pydict) (w : world) (args : list json) :
  fst (construct filters w) = Raise (Exception args) ->
  extract_filters filters = Raise (Exception args).
Proof.
  unfold construct.
  destruct (recordings_query_arguments filters) as [q|e] eqn:Eq; simpl.
  - unfold RecordingsQuery_new. destruct (RecordingsQuery_valid q); simpl; discriminate.
  - intros [= ->]. apply recordings_query_arguments_exception. exact Eq.
Qed.

Lemma construct_unusable (filters : pydict) (w : world) :
  unusable_group filters -> construct filters w = (Raise invalid_universal_filters, w).
Proof.
  intros Hu. unfold construct, recordings_query_arguments.
  rewrite (extract_filters_unusable _ Hu). reflexivity.
Qed.

Lemma add_chain_raises (a b c : json) (x y : list json) (k : json -> pydict) (e : exn) :
  rbind (Py.add a b) (fun l1 =>
  rbind (Py.add l1 c) (fun l2 =>
  rbind (Py.add l2 (JList x)) (fun l3 =>
  rbind (Py.add l3 (JList y)) (fun l4 => Ok (k l4))))) = Raise e ->
  raised_by_callee e = true.
Proof.
  assert (Hr : forall u v e', Py.add u v = Raise e' -> raised_by_callee e' = true).
  { intros u v e' Hadd. destruct (add_raises _ _ _ Hadd) as [-> | ->]; reflexivity. }
  destruct (Py.add a b) as [l1|e1] eqn:H1; cbn [rbind]; [|intros [= <-]; eauto].
  destruct (Py.add l1 c) as [l2|e2] eqn:H2; cbn [rbind]; [|intros [= <-]; eauto].
  destruct (Py.add l2 (JList x)) as [l3|e3] eqn:H3; cbn [rbind]; [|intros [= <-]; eauto].
  destruct (Py.add l3 (JList y)) as [l4|e4] eqn:H4; cbn [rbind]; [|intros [= <-]; eauto].
  discriminate.
Qed.

Lemma convert_legacy_raises (filters : option pydict) (e : exn) :
  convert_legacy_filters_to_universal_filters filters = Raise e ->
  raised_by_callee e = true.
Proof.
  unfold convert_legacy_filters_to_universal_filters.
  destruct filters as [[|kv rest]|]; try discriminate.
  set (doc := kv :: rest).
  destruct (legacy_duration doc) as [duration|e0] eqn:Hdur; cbn [rbind].
  - apply add_chain_raises.
  - intros [= <-]. apply legacy_duration_raises in Hdur. subst e0. reflexivity.
Qed.

End Rejection.

Section RejectionTheorem.

Context `{Env}.

Lemma extract_filters_normalized a b c d children o :
  exists extracted,
    extract_filters
      [ ("date_from", a); ("date_to", b); ("filter_test_accounts", c);
        ("duration", d); ("filter_group", two_level_group children); ("order", o) ]
    = Ok extracted.
Proof. destruct children; eexists; reflexivity. Qed.

Lemma legacy_never_rejected (p : Playlist) (w : world) (d : pydict) (args : list json) :
  pl_filters p = JDict d ->
  without_version d <> [] ->
  Py.contains (without_version d) "filter_group" = false ->
  outcome p w <> Raise (Exception args).
Proof.
  intros Hp Hne Hc. unfold outcome, convert_filters_to_recordings_query.
  rewrite Hp. fold (without_version d). rewrite Hc.
  apply truthy_dict_nonempty in Hne as Ht. rewrite Ht. cbn [negb].
  destruct (convert_legacy_filters_to_universal_filters (Some (without_version d)))
    as [doc|e] eqn:Hconv.
  - cbv zeta. destruct (save_filters _ w) as [[u|e] w1] eqn:Hs.
    + destruct (construct doc _) as [r w2] eqn:Hcons. simpl. intros Hr.
      assert (Hx : fst (construct doc
                     (counter_inc REPLAY_PLAYLIST_LEGACY_FILTERS_CONVERTED "" w1))
                   = Raise (Exception args)) by (rewrite Hcons; exact Hr).
      apply construct_exception in Hx.
      destruct (convert_legacy_ok_inv _ _ Hne Hconv) as (a & b & c & dur & ch & _ & ->).
      destruct (extract_filters_normalized a b c (JList dur) ch (JStr "start_time"))
        as [x Hx'].
      congruence.
    + simpl. unfold save_filters in Hs.
      destruct (playlists w !! _); inversion Hs; subst; discriminate.
  - simpl. apply convert_legacy_raises in Hconv. intros [= ->]. discriminate.
Qed.

(** C1, as amended.  For a playlist whose filters are a non-empty
    dictionary once [version] and [hogql_filtering] are dropped,
    [convert_filters_to_recordings_query] raises an [Exception] exactly
    when the document has the key [filter_group] and the value is falsy or
    is an object whose [values] are absent or falsy.  The exception is
    [Exception] with the one argument "Invalid universal filters"; it is
    raised before anything is saved, counted or logged.  A non-empty
    document without the key is converted first and is never rejected in
    this way. *)
Theorem invalid_universal_filters_raised (p : Playlist) (w : world) (d : pydict) :
  pl_filters p = JDict d ->
  without_version d <> [] ->
  ((exists args, outcome p w = Raise (Exception args))
     <-> unusable_group (without_version d)) /\
  (unusable_group (without_version d) ->
     convert_filters_to_recordings_query p w =
       (Raise invalid_universal_filters, set_pl_filters p (JDict (without_version d)), w)
     /\ exn_args invalid_universal_filters = [JStr "Invalid universal filters"]).
Proof.
  intros Hp Hne.
  assert (Hraise : unusable_group (without_version d) ->
            convert_filters_to_recordings_query p w =
              (Raise invalid_universal_filters,
               set_pl_filters p (JDict (without_version d)), w)).
  { intros Hu. rewrite (convert_universal p w d Hp (proj1 Hu)).
    rewrite (construct_unusable _ w Hu). reflexivity. }
  split; [split|].
  - intros [args Hout].
    destruct (Py.contains (without_version d) "filter_group") eqn:Hc.
    + split; [exact Hc|].
      unfold outcome in Hout. rewrite (convert_universal p w d Hp Hc) in Hout.
      simpl in Hout. apply construct_exception in Hout.
      apply extract_filters_exception in Hout. tauto.
    + exfalso. exact (legacy_never_rejected p w d args Hp Hne Hc Hout).
  - intros Hu. eexists. unfold outcome. rewrite (Hraise Hu). reflexivity.
  - intros Hu. split; [exact (Hraise Hu) | reflexivity].
Qed.

End RejectionTheorem.

(** C1, as stated, fails.  The document [empty_group_document] has a group
    without values: the translator raises an exception whose only argument
    is its message, so the exception captures neither the document nor any
    part of a decomposition, and nothing is logged.  The document
    [legacy_document] has no [filter_group] at all and is not empty: it is
    converted and translated, not rejected. *)
Lemma invalid_filters_error_carries_only_message :
  let p := example_playlist empty_group_document in
  let w := example_world empty_group_document in
  (exists e,
     outcome (H := example_env) p w = Raise e /\
     exn_args e = [JStr "Invalid universal filters"] /\
     ~ captures e (JDict empty_group_document) /\
     log (world_after (H := example_env) p w) = []) /\
  Py.contains legacy_document "filter_group" = false /\
  (exists q,
     outcome (H := example_env)
       (example_playlist legacy_document) (example_world legacy_document) = Ok q).
Proof.
  split; [|split].
  - eexists. split; [reflexivity|]. split; [reflexivity|]. split; [|reflexivity].
    unfold captures. simpl. intros [Heq | []]. discriminate.
  - reflexivity.
  - eexists. vm_compute. reflexivity.
Qed.

Lemma invalid_universal_filters_raised_witness :
  let p := example_playlist empty_group_document in
  let w := example_world empty_group_document in
  convert_filters_to_recordings_query (H := example_env) p w =
    (Raise invalid_universal_filters, p, w).
Proof.
  intros p w.
  destruct (invalid_universal_filters_raised (H := example_env) p w empty_group_document)
    as [_ Hraise]; [reflexivity | discriminate |].
  apply Hraise. split; [reflexivity|]. right. eexists. split; reflexivity.
Defined.

(** ** The revenue example query *)

Module RevenueFacts.

Import RevenueExampleDataWarehouseTablesQueryRunner.

(** The loop appends the query of every table, in order. *)
Lemma append_table_queries_map queries tables :
  append_table_queries queries tables = (queries ++ map table_query tables)%list.
Proof.
  revert queries. induction tables as [|t tables IH]; intros queries; simpl.
  - symmetry. apply app_nil_r.
  - rewrite IH, <- app_assoc. reflexivity.
Qed.

Lemma to_query_nonempty config table tables :
  dataWarehouseTables config = Some (table :: tables) ->
  to_query config =
    ast.SelectSetQuery_create_from_queries (map table_query (table :: tables)) "UNION ALL".
Proof.
  intros Ht. unfold to_query. rewrite Ht, append_table_queries_map. reflexivity.
Qed.

End RevenueFacts.

(** C4.  When the tracking configuration has no data-warehouse tables (an
    empty list, or none at all), [to_query] returns the empty select query
    [ast.SelectQuery.empty()]; the method has no failing path. *)
Theorem to_query_zero_tables (config : RevenueTrackingConfig) :
  dataWarehouseTables config = None \/ dataWarehouseTables config = Some [] ->
  RevenueExampleDataWarehouseTablesQueryRunner.to_query config = ast.SelectQuery_empty.
Proof.
  unfold RevenueExampleDataWarehouseTablesQueryRunner.to_query.
  intros [-> | ->]; reflexivity.
Qed.

Lemma to_query_zero_tables_witness :
  RevenueExampleDataWarehouseTablesQueryRunner.to_query
    {| dataWarehouseTables := Some [] |} = ast.SelectQuery_empty
  /\ RevenueExampleDataWarehouseTablesQueryRunner.to_query
       {| dataWarehouseTables := None |} = ast.SelectQuery_empty.
Proof.
  split; apply to_query_zero_tables; [right | left]; reflexivity.
Defined.

(** C5.  For a tracking configuration with two or more data-warehouse
    tables, [to_query] hands to
    [ast.SelectSetQuery.create_from_queries], with the set operator
    UNION ALL, exactly one select query per table, in the order of the
    tables; the query of a table selects the constant table name under the
    alias table_name and the field chain [table, revenue column] under the
    alias revenue, from that table, ordered by the field chain
    [table, timestamp column] descending. *)
Theorem to_query_union_all
    (config : RevenueTrackingConfig) (tables : list RevenueTrackingDataWarehouseTable) :
  dataWarehouseTables config = Some tables ->
  (2 <= List.length tables)%nat ->
  exists queries,
    RevenueExampleDataWarehouseTablesQueryRunner.to_query config
      = ast.SelectSetQuery_create_from_queries queries "UNION ALL" /\
    List.length queries = List.length tables /\
    forall (i : nat) (table : RevenueTrackingDataWarehouseTable),
      nth_error tables i = Some table ->
      exists query,
        nth_error queries i = Some query /\
        ast.select query =
          [ ast.Alias "table_name" (ast.Constant (tableName table));
            ast.Alias "revenue" (ast.Field [tableName table; revenueColumn table]) ] /\
        ast.select_from query = {| ast.table := ast.Field [tableName table] |} /\
        ast.order_by query =
          [ {| ast.expr := ast.Field [tableName table; timestampColumn table];
               ast.order := "DESC" |} ].
Proof.
  intros Ht Hlen.
  destruct tables as [|t tables]; [simpl in Hlen; lia|].
  exists (map RevenueExampleDataWarehouseTablesQueryRunner.table_query (t :: tables)).
  split; [exact (RevenueFacts.to_query_nonempty config t tables Ht)|].
  split; [apply length_map|].
  intros i table Hi.
  exists (RevenueExampleDataWarehouseTablesQueryRunner.table_query table).
  split; [|repeat split].
  apply map_nth_error. exact Hi.
Qed.

Lemma to_query_union_all_witness :
  exists queries,
    RevenueExampleDataWarehouseTablesQueryRunner.to_query
      {| dataWarehouseTables := Some [stripe_table; shopify_table] |}
      = ast.SelectSetQuery_create_from_queries queries "UNION ALL" /\
    List.length queries = 2%nat /\
    nth_error queries 1 =
      Some {| ast.select :=
                [ ast.Alias "table_name" (ast.Constant "shopify_orders");
                  ast.Alias "revenue" (ast.Field ["shopify_orders"; "total"]) ];
              ast.select_from := {| ast.table := ast.Field ["shopify_orders"] |};
              ast.order_by :=
                [ {| ast.expr := ast.Field ["shopify_orders"; "processed_at"];
                     ast.order := "DESC" |} ] |}.
Proof.
  destruct (to_query_union_all
              {| dataWarehouseTables := Some [stripe_table; shopify_table] |}
              [stripe_table; shopify_table] eq_refl)
    as (queries & Hq & Hlen & Hnth); [simpl; lia|].
  exists queries. split; [exact Hq|]. split; [exact Hlen|].
  destruct (Hnth 1%nat shopify_table eq_refl) as (query & Hquery & Hsel & Hfrom & Hord).
  rewrite Hquery. destruct query as [sel from ord]. simpl in *. subst. reflexivity.
Defined.

(** ** From a universal document to the query *)

Section Universal.

Context `{Env}.

Lemma recordings_query_arguments_without_version (d : pydict) :
  recordings_query_arguments (without_version d) = recordings_query_arguments d.
Proof.
  unfold recordings_query_arguments, extract_filters, duration_having_predicates,
    Py.get, Py.get_or, Py.getitem.
  rewrite !without_version_lookup by discriminate. reflexivity.
Qed.

Lemma construct_outcome (filters : pydict) (w : world) :
  fst (construct filters w) = rbind (recordings_query_arguments filters) RecordingsQuery_new.
Proof.
  unfold construct. destruct (recordings_query_arguments filters) as [q|e]; [|reflexivity].
  cbn [rbind]. destruct (RecordingsQuery_new q) as [q'|[]]; reflexivity.
Qed.

Lemma outcome_universal (p : Playlist) (w : world) (d : pydict) :
  pl_filters p = JDict d ->
  Py.contains d "filter_group" = true ->
  outcome p w = rbind (recordings_query_arguments d) RecordingsQuery_new.
Proof.
  intros Hp Hc.
  assert (Hc' : Py.contains (without_version d) "filter_group" = true).
  { apply contains_lookup. rewrite without_version_lookup by discriminate.
    apply contains_lookup. exact Hc. }
  unfold outcome. rewrite (convert_universal p w d Hp Hc'). cbn [fst].
  rewrite construct_outcome, recordings_query_arguments_without_version. reflexivity.
Qed.

Lemma lookup_nonempty (d : pydict) k v : Py.lookup d k = Some v -> Py.truthy (JDict d) = true.
Proof. destruct d; [discriminate | reflexivity]. Qed.

Lemma extract_filters_children (filters : pydict) (children : list json) :
  inner_group_children filters children ->
  extract_filters filters = Ok (JList children).
Proof.
  intros (fg & g & gs & Hfg & Hvalues & Hchildren). unfold extract_filters.
  rewrite (get_lookup _ _ _ Hfg), (getitem_lookup _ _ _ Hfg).
  rewrite (lookup_nonempty _ _ _ Hvalues). cbn [rbind Py.get_attr Py.subscript_str].
  rewrite (get_lookup _ _ _ Hvalues), (getitem_lookup _ _ _ Hvalues).
  destruct g as [|kv g']; [discriminate Hchildren|]. set (grp := kv :: g') in *.
  cbn [Py.truthy rbind Py.subscript_0 Py.get_attr Py.subscript_str].
  rewrite (get_lookup _ _ _ Hchildren), (getitem_lookup _ _ _ Hchildren).
  destruct children; reflexivity.
Qed.

(** The translation of a document with a readable group: the duration
    step, the loop over the children, the construction. *)
Lemma outcome_universal_leaves (p : Playlist) (w : world) (d : pydict) (leaves : list json) :
  pl_filters p = JDict d ->
  inner_group_children d leaves ->
  outcome p w =
    rbind (duration_having_predicates d) (fun from_duration =>
    rbind (process_filters (initial_buckets from_duration) leaves) (fun b =>
    RecordingsQuery_new (query_from d b))).
Proof.
  intros Hp Hin.
  assert (Hc : Py.contains d "filter_group" = true).
  { destruct Hin as (fg & _ & _ & Hfg & _). apply contains_lookup. eauto. }
  rewrite (outcome_universal p w d Hp Hc).
  unfold recordings_query_arguments.
  rewrite (extract_filters_children _ _ Hin). cbn [rbind Py.iter].
  destruct (duration_having_predicates d) as [hp|e]; [|reflexivity]. cbn [rbind].
  destruct (process_filters _ leaves) as [b|e]; [|reflexivity]. cbn [rbind].
  destruct Hin as (fg & g & gs & Hfg & _).
  unfold query_from, operand_of.
  rewrite (get_or_lookup _ _ _ (JDict []) Hfg), Hfg. reflexivity.
Qed.

End Universal.

(** ** The dispatch on the type of a leaf *)

Section Dispatch.

Context `{Env}.

Lemma eq_str_true x s : Py.eq_str x s = true <-> x = JStr s.
Proof.
  destruct x; simpl; try (split; [discriminate | intros [=]]).
  rewrite String.eqb_eq. split; [intros ->; reflexivity | intros [= ->]; reflexivity].
Qed.

Lemma eq_str_false x s : Py.eq_str x s = false <-> x <> JStr s.
Proof.
  rewrite <- eq_str_true. destruct (Py.eq_str x s); split; congruence.
Qed.

Lemma process_filter_other_type (b : buckets) (f : pydict) :
  (forall t, In t dispatched_types -> Py.get f "type" <> JStr t) ->
  process_filter b (JDict f) = Ok (append_property b (JDict f)).
Proof.
  intros Hother. unfold process_filter. cbn [Py.get_attr rbind].
  rewrite !(proj2 (eq_str_false _ _)); [reflexivity | ..];
    apply Hother; simpl; tauto.
Qed.

Lemma process_filter_recording_other (b : buckets) (f : pydict) :
  Py.get f "type" = JStr "recording" ->
  Py.get f "key" <> JStr "visited_page" ->
  ~ (Py.get f "key" = JStr "snapshot_source" /\ Py.truthy (Py.get f "value") = true) ->
  process_filter b (JDict f) = Ok (append_property b (JDict f)).
Proof.
  intros Ht Hk Hs. unfold process_filter. cbn [Py.get_attr rbind]. rewrite Ht.
  cbn [Py.eq_str String.eqb Ascii.eqb Bool.eqb].
  rewrite (proj2 (eq_str_false _ _) Hk).
  destruct (Py.eq_str (Py.get f "key") "snapshot_source") eqn:Ek; cbn [rbind].
  - destruct (Py.truthy (Py.get f "value")) eqn:Ev; [|reflexivity].
    exfalso. apply Hs. split; [apply eq_str_true; exact Ek | reflexivity].
  - reflexivity.
Qed.

Lemma process_filter_visited_page (b : buckets) (f : pydict) :
  Py.get f "type" = JStr "recording" ->
  Py.get f "key" = JStr "visited_page" ->
  process_filter b (JDict f) =
    Ok (append_event b (pageview_event (Py.get f "value") (Py.get f "operator"))).
Proof.
  intros Ht Hk. unfold process_filter. cbn [Py.get_attr rbind]. rewrite Ht, Hk.
  reflexivity.
Qed.

Lemma process_filter_snapshot_source (b : buckets) (f : pydict) :
  Py.get f "type" = JStr "recording" ->
  Py.get f "key" = JStr "snapshot_source" ->
  Py.truthy (Py.get f "value") = true ->
  process_filter b (JDict f) = Ok (append_having_predicate b (HavingLeaf (JDict f))).
Proof.
  intros Ht Hk Hv. unfold process_filter. cbn [Py.get_attr rbind]. rewrite Ht, Hk.
  cbn [Py.eq_str String.eqb Ascii.eqb Bool.eqb rbind]. rewrite Hv. reflexivity.
Qed.

(** The loop body returns on every object, whatever its type, and
    leaves [having_predicates] alone unless the leaf is a snapshot-source
    filter. *)
Lemma process_filter_dict (b : buckets) (f : pydict) :
  exists b',
    process_filter b (JDict f) = Ok b' /\
    b_having_predicates b' =
      b_having_predicates b
      ++ (if is_snapshot_source_leaf (JDict f) then [HavingLeaf (JDict f)] else []).
Proof.
  unfold process_filter, is_snapshot_source_leaf. cbn [Py.get_attr rbind].
  destruct (Py.get f "type") as [| | | |t| |]; cbn [Py.eq_str andb];
    try (eexists; split; [reflexivity | symmetry; apply app_nil_r]).
  destruct (String.eqb t "events") eqn:E1.
  { apply String.eqb_eq in E1. subst t.
    eexists; split; [reflexivity | symmetry; apply app_nil_r]. }
  destruct (String.eqb t "actions") eqn:E2.
  { apply String.eqb_eq in E2. subst t.
    eexists; split; [reflexivity | symmetry; apply app_nil_r]. }
  destruct (String.eqb t "log_entry") eqn:E3.
  { apply String.eqb_eq in E3. subst t.
    eexists; split; [reflexivity | symmetry; apply app_nil_r]. }
  destruct (String.eqb t "hogql") eqn:E4.
  { apply String.eqb_eq in E4. subst t.
    eexists; split; [reflexivity | symmetry; apply app_nil_r]. }
  destruct (String.eqb t "recording") eqn:E5; cbn [andb];
    [|eexists; split; [reflexivity | symmetry; apply app_nil_r]].
  destruct (Py.eq_str (Py.get f "key") "visited_page") eqn:Ek.
  { apply eq_str_true in Ek. rewrite Ek. cbn [Py.eq_str String.eqb Ascii.eqb Bool.eqb andb].
    eexists; split; [reflexivity | symmetry; apply app_nil_r]. }
  destruct (Py.eq_str (Py.get f "key") "snapshot_source"); cbn [rbind andb].
  - destruct (Py.truthy (Py.get f "value"));
      eexists; split; try reflexivity. symmetry; apply app_nil_r.
  - eexists; split; [reflexivity | symmetry; apply app_nil_r].
Qed.

Lemma process_filters_dicts (fs : list pydict) (b : buckets) :
  exists b',
    process_filters b (map JDict fs) = Ok b' /\
    b_having_predicates b' =
      b_having_predicates b
      ++ map HavingLeaf (List.filter is_snapshot_source_leaf (map JDict fs)).
Proof.
  revert b. induction fs as [|f fs IH]; intros b.
  - exists b. split; [reflexivity | symmetry; apply app_nil_r].
  - destruct (process_filter_dict b f) as (b1 & Hstep & Hhaving).
    destruct (IH b1) as (b' & Hrest & Hhaving').
    exists b'. split.
    + cbn [map process_filters]. rewrite Hstep. exact Hrest.
    + rewrite Hhaving', Hhaving, <- app_assoc. f_equal.
      cbn [map List.filter]. destruct (is_snapshot_source_leaf (JDict f)); reflexivity.
Qed.

(** Whenever the loop returns, the leaves were objects. *)
Lemma process_filters_ok_dicts (fs : list json) (b b' : buckets) :
  process_filters b fs = Ok b' -> exists ds, fs = map JDict ds.
Proof.
  revert b. induction fs as [|f fs IH]; intros b; simpl.
  - exists []. reflexivity.
  - destruct (process_filter b f) as [b1|e] eqn:Ef; cbn [rbind]; [|discriminate].
    intros Hrest. destruct (IH _ Hrest) as [ds ->].
    destruct f; try discriminate. exists (d :: ds). reflexivity.
Qed.

Lemma process_filters_having (fs : list json) (b b' : buckets) :
  process_filters b fs = Ok b' ->
  b_having_predicates b' =
    b_having_predicates b ++ map HavingLeaf (List.filter is_snapshot_source_leaf fs).
Proof.
  intros Hok. destruct (process_filters_ok_dicts _ _ _ Hok) as [ds ->].
  destruct (process_filters_dicts ds b) as (b'' & Hok' & Hhaving). congruence.
Qed.

End Dispatch.

Section DispatchTheorems.

Context `{Env}.

(** C6.  A leaf of type recording with the key visited_page, the value
    /pricing and the operator exact is rewritten by the loop body into one
    $pageview event filter, appended to [events], whose nested property
    list has the single entry of type event, key $current_url, value
    /pricing and operator exact; the leaf itself goes into no list.  A
    document with this single leaf is translated into a query whose events
    are exactly this event filter and whose properties are empty. *)
Theorem visited_page_becomes_pageview_event (f : pydict) :
  Py.get f "type" = JStr "recording" ->
  Py.get f "key" = JStr "visited_page" ->
  Py.get f "value" = JStr "/pricing" ->
  Py.get f "operator" = JStr "exact" ->
  let entry :=
    JDict [ ("type", JStr "event"); ("key", JStr "$current_url");
            ("value", JStr "/pricing"); ("operator", JStr "exact") ] in
  let event :=
    JDict [ ("id", JStr "$pageview"); ("name", JStr "$pageview");
            ("type", JStr "events"); ("properties", JList [entry]) ] in
  Py.eq entry (JDict [ ("key", JStr "$current_url"); ("value", JStr "/pricing");
                       ("operator", JStr "exact"); ("type", JStr "event") ]) = true /\
  (forall b : buckets, process_filter b (JDict f) = Ok (append_event b event)) /\
  (forall (p : Playlist) (w : world) (d : pydict),
     pl_filters p = JDict d ->
     inner_group_children d [JDict f] ->
     outcome p w =
       rbind (duration_having_predicates d) (fun from_duration =>
       RecordingsQuery_new
         (query_from d
            {| b_events := [event]; b_actions := []; b_properties := [];
               b_console_log_filters := [];
               b_having_predicates := from_duration |}))).
Proof.
  intros Ht Hk Hv Ho entry event.
  assert (Hstep : forall b, process_filter b (JDict f) = Ok (append_event b event)).
  { intros b. rewrite (process_filter_visited_page b f Ht Hk), Hv, Ho. reflexivity. }
  split; [reflexivity|]. split; [exact Hstep|].
  intros p w d Hp Hin. rewrite (outcome_universal_leaves p w d _ Hp Hin).
  destruct (duration_having_predicates d) as [hp|e]; [|reflexivity].
  cbn [rbind process_filters]. rewrite Hstep. reflexivity.
Qed.

(** C7.  A leaf of type recording with the key snapshot_source and a
    truthy (non-empty) value is appended by the loop body to
    [having_predicates] and to no other list; a document with this single
    leaf is translated into a query whose having predicates end with the
    leaf and whose properties are empty. *)
Theorem snapshot_source_becomes_having_predicate (f : pydict) :
  Py.get f "type" = JStr "recording" ->
  Py.get f "key" = JStr "snapshot_source" ->
  Py.truthy (Py.get f "value") = true ->
  (forall b : buckets,
     exists b',
       process_filter b (JDict f) = Ok b' /\
       b_having_predicates b' = b_having_predicates b ++ [HavingLeaf (JDict f)] /\
       b_properties b' = b_properties b /\
       b_events b' = b_events b /\
       b_actions b' = b_actions b /\
       b_console_log_filters b' = b_console_log_filters b) /\
  (forall (p : Playlist) (w : world) (d : pydict),
     pl_filters p = JDict d ->
     inner_group_children d [JDict f] ->
     outcome p w =
       rbind (duration_having_predicates d) (fun from_duration =>
       RecordingsQuery_new
         (query_from d
            {| b_events := []; b_actions := []; b_properties := [];
               b_console_log_filters := [];
               b_having_predicates := from_duration ++ [HavingLeaf (JDict f)] |}))).
Proof.
  intros Ht Hk Hv.
  pose proof (fun b => process_filter_snapshot_source b f Ht Hk Hv) as Hstep.
  split.
  - intros b. eexists. split; [apply Hstep|]. repeat split.
  - intros p w d Hp Hin. rewrite (outcome_universal_leaves p w d _ Hp Hin).
    destruct (duration_having_predicates d) as [hp|e]; [|reflexivity].
    cbn [rbind process_filters]. rewrite Hstep. reflexivity.
Qed.

End DispatchTheorems.

(** ** The theorems at work on the example documents *)

Lemma document_with_children duration leaves :
  inner_group_children (document_with duration leaves) leaves.
Proof. eexists _, _, _. repeat split; reflexivity. Qed.

Lemma visited_page_becomes_pageview_event_witness :
  let d := document_with (JList []) [JDict pricing_filter] in
  exists q,
    outcome (H := example_env) (example_playlist d) (example_world d) = Ok q /\
    events q =
      [ JDict [ ("id", JStr "$pageview"); ("name", JStr "$pageview");
                ("type", JStr "events");
                ("properties",
                  JList [ JDict [ ("type", JStr "event"); ("key", JStr "$current_url");
                                  ("value", JStr "/pricing");
                                  ("operator", JStr "exact") ] ]) ] ] /\
    properties q = [].
Proof.
  intros d.
  destruct (visited_page_becomes_pageview_event (H := example_env) pricing_filter
              eq_refl eq_refl eq_refl eq_refl) as (_ & _ & Hquery).
  rewrite (Hquery (example_playlist d) (example_world d) d eq_refl
             (document_with_children _ _)).
  eexists. split; [reflexivity|]. split; reflexivity.
Defined.

Lemma snapshot_source_becomes_having_predicate_witness :
  let d := document_with (JList []) [JDict snapshot_source_filter] in
  exists q,
    outcome (H := example_env) (example_playlist d) (example_world d) = Ok q /\
    having_predicates q = [HavingLeaf (JDict snapshot_source_filter)] /\
    properties q = [].
Proof.
  intros d.
  destruct (snapshot_source_becomes_having_predicate (H := example_env)
              snapshot_source_filter eq_refl eq_refl eq_refl) as (_ & Hquery).
  rewrite (Hquery (example_playlist d) (example_world d) d eq_refl
             (document_with_children _ _)).
  eexists. split; [reflexivity|]. split; reflexivity.
Defined.

(** ** The cooldown of the counting task *)

Section Cooldown.

Context `{Env}.

(** Truncating the elapsed microseconds to whole seconds keeps them within
    a cooldown given in whole seconds. *)
Lemma truncated_seconds_within (elapsed_us cooldown : Z) :
  elapsed_us <= cooldown * 1000000 ->
  (Z.quot elapsed_us 1000000 <=? cooldown) = true.
Proof.
  intros Hle. apply Z.leb_le.
  pose proof (Z.quot_le_mono elapsed_us (cooldown * 1000000) 1000000 ltac:(lia) Hle) as Hq.
  rewrite Z.quot_mul in Hq by lia. exact Hq.
Qed.

Lemma within_cooldown_true (w : world) (existing : pydict) (stamp : string) (refreshed : Z) :
  Py.lookup existing "refreshed_at" = Some (JStr stamp) ->
  stamp <> "" ->
  fromisoformat stamp = Ok {| wall_clock_us := refreshed; utcoffset := None |} ->
  now (clock_reads w) - refreshed
    <= PLAYLIST_COUNTER_PROCESSING_COOLDOWN_SECONDS * 1000000 ->
  within_cooldown (JDict existing) w = (Ok true, set_clock_reads w (S (clock_reads w))).
Proof.
  intros Hl Hne Hiso Hle. unfold within_cooldown.
  cbn [Py.get_attr Py.subscript_str]. rewrite (get_lookup _ _ _ Hl).
  cbn [Py.truthy]. apply String.eqb_neq in Hne. rewrite Hne. cbn [negb].
  rewrite (getitem_lookup _ _ _ Hl). cbn [rbind datetime_fromisoformat].
  rewrite Hiso. unfold datetime_now, seconds_between. cbn [utcoffset wall_clock_us].
  rewrite (truncated_seconds_within _ _ Hle). reflexivity.
Qed.

(** C9.  When the cached record of the playlist was refreshed within the
    cooldown (the clock minus [refreshed_at] is at most the cooldown), the
    task runs no query, leaves the cache, the playlists, the log and the
    exception tracker as they were, and counts one skip for the reason
    cooldown. *)
Theorem cooldown_skips_recomputation
    (w : world) (playlist_id : Z) (playlist : Playlist)
    (ttl : Z) (raw : string) (existing : pydict) (stamp : string) (refreshed : Z) :
  playlists w !! playlist_id = Some playlist ->
  redis w !! (PLAYLIST_COUNT_REDIS_PREFIX ++ pl_short_id playlist)%string
    = Some (ttl, raw) ->
  raw <> "" ->
  json_loads raw = Ok (JDict existing) ->
  Py.lookup existing "refreshed_at" = Some (JStr stamp) ->
  stamp <> "" ->
  fromisoformat stamp = Ok {| wall_clock_us := refreshed; utcoffset := None |} ->
  now (clock_reads w) - refreshed
    <= PLAYLIST_COUNTER_PROCESSING_COOLDOWN_SECONDS * 1000000 ->
  let w' := count_recordings_that_match_playlist_filters playlist_id w in
  engine_calls w' = engine_calls w /\
  redis w' = redis w /\
  playlists w' = playlists w /\
  log w' = log w /\
  captured w' = captured w /\
  counter_value w' REPLAY_TEAM_PLAYLIST_COUNT_SKIPPED "cooldown"
    = S (counter_value w REPLAY_TEAM_PLAYLIST_COUNT_SKIPPED "cooldown") /\
  forall name label,
    (name, label) <> (REPLAY_TEAM_PLAYLIST_COUNT_SKIPPED, "cooldown") ->
    counter_value w' name label = counter_value w name label.
Proof.
  intros Hp Hr Hraw Hloads Hl Hstamp Hiso Hle w'.
  assert (Hw' : w' =
            set_timer_observations
              (counter_inc REPLAY_TEAM_PLAYLIST_COUNT_SKIPPED "cooldown"
                 (set_clock_reads w (S (clock_reads w))))
              (S (timer_observations w))).
  { subst w'. unfold count_recordings_that_match_playlist_filters, count_body.
    rewrite Hp. unfold load_existing_value. rewrite Hr.
    apply String.eqb_neq in Hraw. rewrite Hraw. cbn [negb]. rewrite Hloads.
    rewrite (within_cooldown_true w existing stamp refreshed Hl Hstamp Hiso Hle).
    reflexivity. }
  rewrite Hw'. repeat split.
  - unfold counter_value, counter_inc. cbn. rewrite lookup_insert_eq. reflexivity.
  - intros name label Hne. unfold counter_value, counter_inc. cbn.
    rewrite lookup_insert_ne by congruence. reflexivity.
Qed.

End Cooldown.

Lemma cooldown_skips_recomputation_witness :
  let w := example_world universal_document in
  let w' := count_recordings_that_match_playlist_filters (H := example_env) 7 w in
  now (Env := example_env) (clock_reads w) - refreshed_us = 10 * 1000000 /\
  PLAYLIST_COUNTER_PROCESSING_COOLDOWN_SECONDS (Env := example_env) = 300 /\
  engine_calls w' = [] /\
  redis w' = redis w /\
  counter_value w' REPLAY_TEAM_PLAYLIST_COUNT_SKIPPED "cooldown" = 1%nat.
Proof.
  intros w w'.
  split; [reflexivity|]. split; [reflexivity|].
  destruct (cooldown_skips_recomputation (H := example_env) w 7
              (example_playlist universal_document) THIRTY_SIX_HOURS_IN_SECONDS
              cached_text cached_record_fields "2024-05-01T12:00:00" refreshed_us)
    as (Hengine & Hredis & _ & _ & _ & Hcount & _).
  - reflexivity.
  - reflexivity.
  - discriminate.
  - reflexivity.
  - reflexivity.
  - discriminate.
  - reflexivity.
  - vm_compute. discriminate.
  - split; [exact Hengine|]. split; [exact Hredis | exact Hcount].
Defined.

(** * Further properties *)

(** ** The loop over the leaves *)

Lemma append_sizes (b : buckets) (x : json) (h : having_predicate) :
  bucket_size (append_event b x) = S (bucket_size b) /\
  bucket_size (append_action b x) = S (bucket_size b) /\
  bucket_size (append_property b x) = S (bucket_size b) /\
  bucket_size (append_console_log_filter b x) = S (bucket_size b) /\
  bucket_size (append_having_predicate b h) = S (bucket_size b).
Proof.
  unfold bucket_size; repeat split; simpl; rewrite length_app; simpl; lia.
Qed.

(** One turn of the loop appends to exactly one list, and which one is
    decided by the type, the key and the value of the leaf alone. *)
Lemma process_filter_sorts (b b' : buckets) (f : json) :
  process_filter b f = Ok b' ->
  is_object f = true /\
  b_events b' = b_events b ++ events_of f /\
  b_actions b' = b_actions b ++ List.filter (has_type "actions") [f] /\
  b_console_log_filters b' =
    b_console_log_filters b ++ List.filter (has_type "log_entry") [f] /\
  b_properties b' = b_properties b ++ List.filter is_property_leaf [f] /\
  b_having_predicates b' =
    b_having_predicates b ++ map HavingLeaf (List.filter is_snapshot_source_leaf [f]).
Proof.
  destruct f as [| | | | | |d]; try discriminate.
  unfold process_filter, events_of, is_property_leaf, is_visited_page_leaf,
    is_snapshot_source_leaf, has_type, is_object.
  cbn [Py.get_attr rbind List.filter map].
  destruct (Py.get d "type") as [| | | |t| |]; cbn [Py.eq_str andb negb];
    try (intros [= <-]; cbn; rewrite ?app_nil_r; repeat split; reflexivity).
  destruct (String.eqb t "events") eqn:E1.
  { apply String.eqb_eq in E1. subst t.
    intros [= <-]; cbn; rewrite ?app_nil_r; repeat split; reflexivity. }
  destruct (String.eqb t "actions") eqn:E2.
  { apply String.eqb_eq in E2. subst t.
    intros [= <-]; cbn; rewrite ?app_nil_r; repeat split; reflexivity. }
  destruct (String.eqb t "log_entry") eqn:E3.
  { apply String.eqb_eq in E3. subst t.
    intros [= <-]; cbn; rewrite ?app_nil_r; repeat split; reflexivity. }
  destruct (String.eqb t "hogql") eqn:E4.
  { apply String.eqb_eq in E4. subst t.
    intros [= <-]; cbn; rewrite ?app_nil_r; repeat split; reflexivity. }
  destruct (String.eqb t "recording") eqn:E5; cbn [andb negb];
    [|intros [= <-]; cbn; rewrite ?app_nil_r; repeat split; reflexivity].
  destruct (Py.eq_str (Py.get d "key") "visited_page") eqn:Ek.
  { apply eq_str_true in Ek. rewrite Ek.
    cbn [Py.eq_str String.eqb Ascii.eqb Bool.eqb andb negb rbind].
    intros [= <-]; cbn; rewrite ?app_nil_r; repeat split; reflexivity. }
  destruct (Py.eq_str (Py.get d "key") "snapshot_source"); cbn [rbind andb negb].
  - destruct (Py.truthy (Py.get d "value"));
      intros [= <-]; cbn; rewrite ?app_nil_r; repeat split; reflexivity.
  - intros [= <-]; cbn; rewrite ?app_nil_r; repeat split; reflexivity.
Qed.

(** X1.  Whenever the loop over the leaves returns, each of the five lists
    is what it was before followed, in the order of the leaves, by the
    leaves that belong to it: [events] takes the leaves of type events and
    a pageview event for every visited_page leaf, [actions] the leaves of
    type actions, [console_log_filters] those of type log_entry,
    [having_predicates] the snapshot-source leaves with a truthy value, and
    [properties] every other leaf. *)
Theorem process_filters_sorts_leaves (fs : list json) (b b' : buckets) :
  process_filters b fs = Ok b' ->
  b_events b' = b_events b ++ flat_map events_of fs /\
  b_actions b' = b_actions b ++ List.filter (has_type "actions") fs /\
  b_console_log_filters b' =
    b_console_log_filters b ++ List.filter (has_type "log_entry") fs /\
  b_properties b' = b_properties b ++ List.filter is_property_leaf fs /\
  b_having_predicates b' =
    b_having_predicates b ++ map HavingLeaf (List.filter is_snapshot_source_leaf fs).
Proof.
  revert b. induction fs as [|f fs IH]; intros b.
  - intros [= <-]. cbn. rewrite !app_nil_r. repeat split.
  - cbn [process_filters].
    destruct (process_filter b f) as [b1|e] eqn:Hstep; cbn [rbind]; [|discriminate].
    intros Hrest.
    destruct (process_filter_sorts _ _ _ Hstep) as (_ & He & Ha & Hc & Hp & Hh).
    destruct (IH _ Hrest) as (He' & Ha' & Hc' & Hp' & Hh').
    rewrite He', Ha', Hc', Hp', Hh', He, Ha, Hc, Hp, Hh, <- !app_assoc.
    change (f :: fs) with ([f] ++ fs).
    rewrite List.flat_map_app, !List.filter_app, List.map_app. cbn [flat_map]. rewrite app_nil_r.
    repeat split.
Qed.

Lemma process_filters_sorts_leaves_witness :
  let fs := [ JDict pricing_filter; JDict snapshot_source_filter;
              JDict person_filter; pageview_filter ] in
  exists b',
    process_filters (initial_buckets []) fs = Ok b' /\
    b_events b' = [pageview_event (JStr "/pricing") (JStr "exact"); pageview_filter] /\
    b_actions b' = [] /\
    b_console_log_filters b' = [] /\
    b_properties b' = [JDict person_filter] /\
    b_having_predicates b' = [HavingLeaf (JDict snapshot_source_filter)].
Proof.
  intros fs. eexists. split; [reflexivity|].
  exact (process_filters_sorts_leaves fs (initial_buckets []) _ eq_refl).
Defined.

Lemma process_filter_grows_by_one (b b' : buckets) (f : json) :
  process_filter b f = Ok b' -> bucket_size b' = S (bucket_size b).
Proof.
  pose proof (append_sizes b) as Hsize.
  unfold process_filter. destruct f; simpl; try discriminate.
  repeat match goal with
         | |- (if ?c then _ else _) = Ok _ -> _ => destruct c
         | |- rbind (if ?c then _ else _) _ = Ok _ -> _ => destruct c; cbn [rbind]
         | |- Ok _ = Ok _ -> _ => intros [= <-]
         end;
    match goal with
    | |- context [append_having_predicate b ?h] => apply (Hsize JNull h)
    | |- context [append_event b ?x] => apply (Hsize x (HavingLeaf JNull))
    | |- context [append_action b ?x] => apply (Hsize x (HavingLeaf JNull))
    | |- context [append_property b ?x] => apply (Hsize x (HavingLeaf JNull))
    | |- context [append_console_log_filter b ?x] => apply (Hsize x (HavingLeaf JNull))
    end.
Qed.

(** X2.  The loop neither drops nor duplicates a leaf: whenever it returns,
    the five lists hold together exactly as many filters more as there were
    leaves. *)
Theorem process_filters_keeps_every_leaf (fs : list json) (b b' : buckets) :
  process_filters b fs = Ok b' ->
  bucket_size b' = (bucket_size b + List.length fs)%nat.
Proof.
  revert b. induction fs as [|f fs IH]; intros b.
  - intros [= <-]. simpl. lia.
  - cbn [process_filters].
    destruct (process_filter b f) as [b1|e] eqn:Hstep; cbn [rbind]; [|discriminate].
    intros Hrest. rewrite (IH _ Hrest), (process_filter_grows_by_one _ _ _ Hstep).
    simpl. lia.
Qed.

Lemma process_filters_keeps_every_leaf_witness :
  let fs := [ JDict pricing_filter; JDict snapshot_source_filter;
              JDict person_filter; pageview_filter ] in
  exists b',
    process_filters (initial_buckets [HavingLeaf JNull]) fs = Ok b' /\
    bucket_size b' = 5%nat.
Proof.
  intros fs. eexists. split; [reflexivity|].
  exact (process_filters_keeps_every_leaf fs (initial_buckets [HavingLeaf JNull]) _ eq_refl).
Defined.

Lemma objects_are_dicts (fs : list json) :
  forallb is_object fs = true -> exists ds, fs = map JDict ds.
Proof.
  induction fs as [|f fs IH]; simpl.
  - exists []. reflexivity.
  - destruct f; try discriminate. simpl. intros Hrest.
    destruct (IH Hrest) as [ds ->]. exists (d :: ds). reflexivity.
Qed.

Lemma process_filters_non_object (fs : list json) (b : buckets) :
  forallb is_object fs = false -> process_filters b fs = Raise AttributeError.
Proof.
  revert b. induction fs as [|f fs IH]; intros b; simpl; [discriminate|].
  destruct (is_object f) eqn:Hf; simpl.
  - intros Hrest. destruct f; try discriminate.
    destruct (process_filter_dict b d) as (b1 & -> & _). cbn [rbind]. apply IH, Hrest.
  - intros _. destruct f; try discriminate; reflexivity.
Qed.

(** X3.  The loop returns exactly when every leaf is a JSON object; a
    single leaf that is not (a string, a number, null, a list) makes it
    raise [AttributeError], wherever the leaf stands.  The translator then
    raises that error, unless the duration step, which runs first, has
    raised its own. *)
Theorem loop_fails_exactly_on_non_objects :
  (forall (fs : list json) (b : buckets),
     forallb is_object fs = true -> exists b', process_filters b fs = Ok b') /\
  (forall (fs : list json) (b : buckets),
     forallb is_object fs = false -> process_filters b fs = Raise AttributeError) /\
  (forall `{Env} (p : Playlist) (w : world) (d : pydict) (leaves : list json),
     pl_filters p = JDict d ->
     inner_group_children d leaves ->
     forallb is_object leaves = false ->
     outcome p w =
       rbind (duration_having_predicates d) (fun _ => Raise AttributeError)).
Proof.
  split; [|split].
  - intros fs b Hall. destruct (objects_are_dicts fs Hall) as [ds ->].
    destruct (process_filters_dicts ds b) as (b' & Hb' & _). eauto.
  - exact process_filters_non_object.
  - intros H p w d leaves Hp Hin Hbad.
    rewrite (outcome_universal_leaves p w d leaves Hp Hin).
    destruct (duration_having_predicates d) as [hp|e]; [|reflexivity].
    cbn [rbind]. rewrite (process_filters_non_object leaves _ Hbad). reflexivity.
Qed.

Lemma loop_fails_exactly_on_non_objects_witness :
  let leaves := [JDict person_filter; JStr "oops"; JDict pricing_filter] in
  let d := document_with (JList [duration_gt_60]) leaves in
  (exists b', process_filters (initial_buckets []) [JDict person_filter] = Ok b') /\
  process_filters (initial_buckets []) leaves = Raise AttributeError /\
  outcome (H := example_env) (example_playlist d) (example_world d) = Raise AttributeError.
Proof.
  intros leaves d.
  destruct loop_fails_exactly_on_non_objects as (Hok & Hbad & Hout).
  split; [|split].
  - apply Hok. reflexivity.
  - apply Hbad. reflexivity.
  - rewrite (Hout example_env (example_playlist d) (example_world d) d leaves eq_refl
               (document_with_children _ _) eq_refl).
    reflexivity.
Defined.

(** ** The normalizer, beyond the count of its leaves *)

Lemma lookup_setitem_eq (d : pydict) (k : string) (v : json) :
  Py.lookup (Py.setitem d k v) k = Some v.
Proof.
  induction d as [|[k0 v0] d IH]; simpl.
  - rewrite String.eqb_refl. reflexivity.
  - destruct (String.eqb k0 k) eqn:E; simpl; rewrite E; [reflexivity | exact IH].
Qed.

Lemma lookup_setitem_ne (d : pydict) (k k' : string) (v : json) :
  k' <> k -> Py.lookup (Py.setitem d k v) k' = Py.lookup d k'.
Proof.
  intros Hne. induction d as [|[k0 v0] d IH]; simpl.
  - apply String.eqb_neq in Hne. rewrite String.eqb_sym, Hne. reflexivity.
  - destruct (String.eqb k0 k) eqn:E; simpl.
    + apply String.eqb_eq in E. subst k0.
      apply String.eqb_neq in Hne. rewrite String.eqb_sym, Hne. reflexivity.
    + rewrite IH. reflexivity.
Qed.

(** X4.  The normalizer returns the empty document for no document and for
    the empty one, and for nothing else: every other document it accepts
    comes back with its six keys. *)
Theorem convert_legacy_empty_only_for_empty (filters : option pydict) :
  convert_legacy_filters_to_universal_filters filters = Ok []
  <-> filters = None \/ filters = Some [].
Proof.
  split.
  - destruct filters as [[|kv rest]|]; auto.
    intros Hconv. exfalso.
    destruct (convert_legacy_ok_inv (kv :: rest) [] ltac:(discriminate) Hconv)
      as (a & b & c & dur & children & _ & Hdoc).
    discriminate Hdoc.
  - intros [-> | ->]; reflexivity.
Qed.

(** X5.  For a legacy document whose [events], [actions] and [properties]
    are arrays (or absent), the children of the inner group are, in this
    order: the events, the actions, the properties, then the level filter
    made of [console_logs] and the message filter made of
    [console_search_query] when these are set.  Nothing is reordered and
    nothing else is added. *)
Theorem convert_legacy_children_in_order
    (filters : pydict) (events actions properties : list json) :
  filters <> [] ->
  legacy_array filters "events" = Some events ->
  legacy_array filters "actions" = Some actions ->
  legacy_array filters "properties" = Some properties ->
  (is_set filters "session_recording_duration" = true ->
   exists d, Py.get filters "session_recording_duration" = JDict d) ->
  exists document,
    convert_legacy_filters_to_universal_filters (Some filters) = Ok document /\
    Py.lookup document "filter_group" =
      Some (two_level_group
              (events ++ actions ++ properties
               ++ console_level_filters filters ++ console_message_filters filters)).
Proof.
  intros Hne He Ha Hp Hd.
  destruct (legacy_duration_ok filters Hd) as [duration Hdur].
  unfold convert_legacy_filters_to_universal_filters.
  destruct filters as [|kv rest]; [congruence|].
  set (doc := kv :: rest) in *.
  rewrite (legacy_array_get_or _ _ _ He), (legacy_array_get_or _ _ _ Ha),
    (legacy_array_get_or _ _ _ Hp), Hdur.
  cbn [rbind]. rewrite !add_lists. cbn [rbind].
  eexists. split; [reflexivity|].
  unfold console_level_filters, console_message_filters, is_set.
  cbn [Py.lookup String.eqb Ascii.eqb Bool.eqb]. rewrite <- !app_assoc. reflexivity.
Qed.

Lemma convert_legacy_children_in_order_witness :
  exists document,
    convert_legacy_filters_to_universal_filters (Some legacy_document) = Ok document /\
    Py.lookup document "filter_group" =
      Some (two_level_group
              [ pageview_filter; browser_filter;
                JDict [ ("key", JStr "level"); ("value", JList [JStr "error"]);
                        ("operator", JStr "exact"); ("type", JStr "log_entry") ];
                JDict [ ("key", JStr "message"); ("value", JList [JStr "boom"]);
                        ("operator", JStr "exact"); ("type", JStr "log_entry") ] ]).
Proof.
  apply (convert_legacy_children_in_order legacy_document
           [pageview_filter] [] [browser_filter]).
  - discriminate.
  - reflexivity.
  - reflexivity.
  - reflexivity.
  - intros _. eexists. reflexivity.
Defined.

(** What the normalizer returns for a non-empty document, key by key. *)
Lemma convert_legacy_ok_fields (filters document : pydict) :
  filters <> [] ->
  convert_legacy_filters_to_universal_filters (Some filters) = Ok document ->
  exists duration children,
    legacy_duration filters = Ok duration /\
    document =
      [ ("date_from", Py.or_ (Py.get filters "date_from") (JStr "-3d"));
        ("date_to", Py.or_ (Py.get filters "date_to") JNull);
        ("filter_test_accounts", Py.get_or filters "filter_test_accounts" (JBool false));
        ("duration", Py.or_ (JList duration) default_duration);
        ("filter_group", two_level_group children);
        ("order", JStr "start_time") ].
Proof.
  intros Hne. unfold convert_legacy_filters_to_universal_filters.
  destruct filters as [|kv rest]; [congruence|].
  set (doc := kv :: rest).
  destruct (legacy_duration doc) as [duration|e] eqn:Hdur; cbn [rbind]; [|discriminate].
  destruct (Py.add _ _) as [l1|] eqn:H1; cbn [rbind]; [|discriminate].
  destruct (Py.add l1 _) as [l2|] eqn:H2; cbn [rbind]; [|discriminate].
  destruct (Py.add l2 _) as [l3|] eqn:H3; cbn [rbind]; [|discriminate].
  destruct (Py.add l3 _) as [l4|] eqn:H4; cbn [rbind]; [|discriminate].
  apply add_list_inv in H4 as (x & _ & ->).
  intros [= <-]. eexists _, _. split; reflexivity.
Qed.

(** X6.  Whatever a non-empty legacy document asks for, the document the
    normalizer returns has exactly the keys date_from, date_to,
    filter_test_accounts, duration, filter_group and order.  The order is
    always start_time (an order of the input is not kept); date_from and
    date_to are those of the input when truthy, else -3d and null;
    filter_test_accounts is that of the input whenever the key is there
    (even null), else false; with no session_recording_duration set the
    duration is the default, more than five active seconds. *)
Theorem convert_legacy_defaults (filters document : pydict) :
  filters <> [] ->
  convert_legacy_filters_to_universal_filters (Some filters) = Ok document ->
  keys document =
    ["date_from"; "date_to"; "filter_test_accounts"; "duration"; "filter_group"; "order"] /\
  Py.lookup document "order" = Some (JStr "start_time") /\
  Py.lookup document "date_from" =
    Some (if is_set filters "date_from" then Py.get filters "date_from" else JStr "-3d") /\
  Py.lookup document "date_to" =
    Some (if is_set filters "date_to" then Py.get filters "date_to" else JNull) /\
  Py.lookup document "filter_test_accounts" =
    Some (match Py.lookup filters "filter_test_accounts" with
          | Some v => v
          | None => JBool false
          end) /\
  (is_set filters "session_recording_duration" = false ->
   Py.lookup document "duration" = Some default_duration).
Proof.
  intros Hne Hconv.
  destruct (convert_legacy_ok_fields _ _ Hne Hconv) as (duration & children & Hdur & ->).
  repeat split.
  intros Hunset. unfold legacy_duration in Hdur. unfold is_set in Hunset.
  rewrite Hunset in Hdur. injection Hdur as <-. reflexivity.
Qed.

Lemma convert_legacy_defaults_witness :
  exists document,
    convert_legacy_filters_to_universal_filters (Some duration_override_document)
      = Ok document /\
    Py.lookup document "order" = Some (JStr "start_time") /\
    Py.lookup document "date_from" = Some (JStr "-30d") /\
    Py.lookup document "date_to" = Some JNull /\
    Py.lookup document "filter_test_accounts" = Some JNull.
Proof.
  eexists. split; [reflexivity|].
  destruct (convert_legacy_defaults duration_override_document _
              ltac:(discriminate) eq_refl) as (_ & Ho & Hf & Ht & Ha & _).
  split; [exact Ho|]. split; [exact Hf|]. split; [exact Ht | exact Ha].
Defined.

(** X7.  When [session_recording_duration] is a non-empty object, the
    duration of the normalized document is that one object with its key
    replaced: by [duration_type_filter] whenever the document has that key
    (whatever its value), else by the key the object had, else by
    active_seconds.  Every other entry of the object is kept. *)
Theorem legacy_duration_key_precedence (filters document srd : pydict) :
  convert_legacy_filters_to_universal_filters (Some filters) = Ok document ->
  Py.get filters "session_recording_duration" = JDict srd ->
  srd <> [] ->
  exists entry,
    Py.lookup document "duration" = Some (JList [JDict entry]) /\
    Py.lookup entry "key" =
      Some (match Py.lookup filters "duration_type_filter" with
            | Some forced => forced
            | None =>
                match Py.lookup srd "key" with
                | Some own => own
                | None => JStr "active_seconds"
                end
            end) /\
    forall k, k <> "key" -> Py.lookup entry k = Py.lookup srd k.
Proof.
  intros Hconv Hsrd Hne.
  assert (Hfilters : filters <> []).
  { intros ->. discriminate Hsrd. }
  destruct (convert_legacy_ok_fields _ _ Hfilters Hconv) as (duration & children & Hdur & ->).
  assert (Ht : Py.truthy (Py.get filters "session_recording_duration") = true).
  { rewrite Hsrd. apply truthy_dict_nonempty. exact Hne. }
  pose proof (get_truthy_lookup _ _ Ht) as Hl. rewrite Hsrd in Hl.
  unfold legacy_duration in Hdur. rewrite Ht, Hsrd in Hdur.
  rewrite (get_or_lookup _ _ _ (JDict []) Hl) in Hdur.
  cbn [Py.as_mapping Py.get_or_attr rbind] in Hdur. injection Hdur as <-.
  eexists. split; [reflexivity|]. split.
  - rewrite lookup_setitem_eq. unfold Py.get_or.
    destruct (Py.lookup filters "duration_type_filter"); [reflexivity|].
    destruct (Py.lookup srd "key"); reflexivity.
  - intros k Hk. apply lookup_setitem_ne. exact Hk.
Qed.

Lemma legacy_duration_key_precedence_witness :
  exists document entry,
    convert_legacy_filters_to_universal_filters (Some duration_override_document)
      = Ok document /\
    Py.lookup document "duration" = Some (JList [JDict entry]) /\
    Py.lookup entry "key" = Some (JStr "inactive_seconds") /\
    Py.lookup entry "value" = Some (JInt 60).
Proof.
  destruct (legacy_duration_key_precedence duration_override_document _
              [ ("type", JStr "recording"); ("key", JStr "duration");
                ("value", JInt 60); ("operator", JStr "gt") ]
              eq_refl eq_refl ltac:(discriminate))
    as (entry & Hdur & Hkey & Hrest).
  eexists _, entry. split; [reflexivity|]. split; [exact Hdur|]. split; [exact Hkey|].
  rewrite (Hrest "value") by discriminate. reflexivity.
Defined.

(** ** The translator and what it leaves behind *)

Section TranslatorEffects.

Context `{Env}.

Lemma set_log_same (w : world) : set_log w (log w ++ []) = w.
Proof. destruct w. unfold set_log. simpl. rewrite app_nil_r. reflexivity. Qed.

(** The construction changes nothing but the log, and the log by at most
    one record. *)
Lemma construct_world (filters : pydict) (w : world) :
  exists extra, snd (construct filters w) = set_log w (log w ++ extra).
Proof.
  unfold construct.
  destruct (recordings_query_arguments filters) as [q|e].
  - destruct (RecordingsQuery_new q) as [q'|[]]; simpl;
      try (exists []; symmetry; apply set_log_same).
    eexists. reflexivity.
  - exists []. symmetry. apply set_log_same.
Qed.

(** The translator on a legacy document. *)
Lemma convert_legacy_path (p : Playlist) (w : world) (d document : pydict) :
  pl_filters p = JDict d ->
  Py.contains (without_version d) "filter_group" = false ->
  without_version d <> [] ->
  convert_legacy_filters_to_universal_filters (Some (without_version d)) = Ok document ->
  convert_filters_to_recordings_query p w =
    match playlists w !! pl_id p with
    | Some row =>
        let w1 :=
          counter_inc REPLAY_PLAYLIST_LEGACY_FILTERS_CONVERTED ""
            (set_playlists w
               (<[pl_id p := set_pl_filters row (JDict document)]> (playlists w))) in
        (fst (construct document w1), set_pl_filters p (JDict document),
         snd (construct document w1))
    | None => (Raise DatabaseError, set_pl_filters p (JDict document), w)
    end.
Proof.
  intros Hp Hc Hne Hconv. unfold convert_filters_to_recordings_query.
  rewrite Hp. fold (without_version d). rewrite Hc.
  apply truthy_dict_nonempty in Hne as Ht. rewrite Ht. cbn [negb]. rewrite Hconv.
  cbv zeta. unfold save_filters. cbn [pl_id set_pl_filters pl_filters].
  destruct (playlists w !! pl_id p) as [row|]; [|reflexivity].
  destruct (construct document _). reflexivity.
Qed.

(** What the translator does to the world, in every case. *)
Lemma convert_world (p : Playlist) (w : world) :
  exists w1 extra,
    world_after p w = set_log w1 (log w1 ++ extra) /\
    (w1 = w
     \/ exists row f,
          playlists w !! pl_id p = Some row /\
          w1 = counter_inc REPLAY_PLAYLIST_LEGACY_FILTERS_CONVERTED ""
                 (set_playlists w (<[pl_id p := set_pl_filters row f]> (playlists w)))).
Proof.
  unfold world_after, convert_filters_to_recordings_query.
  destruct (pl_filters p) as [| | | | | |d] eqn:Hp;
    try (exists w, []; split; [symmetry; apply set_log_same | left; reflexivity]).
  fold (without_version d).
  destruct (Py.contains (without_version d) "filter_group") eqn:Hc; cbn [negb].
  - destruct (construct_world (without_version d) w) as [extra Hextra].
    exists w, extra. split; [|left; reflexivity].
    destruct (construct _ _); exact Hextra.
  - destruct (Py.truthy (JDict (without_version d))); cbn [negb].
    + destruct (convert_legacy_filters_to_universal_filters _) as [doc|e].
      * cbv zeta. unfold save_filters. cbn [pl_id set_pl_filters pl_filters].
        destruct (playlists w !! pl_id p) as [row|] eqn:Hrow.
        -- match goal with
           | |- context [construct doc ?w1] =>
               destruct (construct_world doc w1) as [extra Hextra];
               exists w1, extra; split;
               [destruct (construct doc w1); exact Hextra | right; eauto]
           end.
        -- exists w, []. split; [symmetry; apply set_log_same | left; reflexivity].
      * exists w, []. split; [symmetry; apply set_log_same | left; reflexivity].
    + exists w, []. split; [symmetry; apply set_log_same | left; reflexivity].
Qed.

End TranslatorEffects.

Section TranslatorTheorems.

Context `{Env}.

(** X8.  Whatever the filters of the playlist are and however the
    translation ends, [convert_filters_to_recordings_query] leaves the
    cache, the executions of the engine, the exception tracker, the clock
    and the timer untouched; of the playlist table it can change only the
    row of this playlist, of the counters only the count of converted
    legacy filters, and the log only grows. *)
Theorem translator_frame (p : Playlist) (w : world) :
  redis (world_after p w) = redis w /\
  engine_calls (world_after p w) = engine_calls w /\
  captured (world_after p w) = captured w /\
  clock_reads (world_after p w) = clock_reads w /\
  timer_observations (world_after p w) = timer_observations w /\
  (forall i, i <> pl_id p -> playlists (world_after p w) !! i = playlists w !! i) /\
  (forall name label,
     (name, label) <> (REPLAY_PLAYLIST_LEGACY_FILTERS_CONVERTED, "") ->
     counter_value (world_after p w) name label = counter_value w name label) /\
  (exists extra, log (world_after p w) = log w ++ extra).
Proof.
  destruct (convert_world p w) as (w1 & extra & -> & [-> | (row & f & Hrow & ->)]).
  - repeat split; eauto.
  - repeat split; eauto.
    + intros i Hi. cbn. rewrite lookup_insert_ne by congruence. reflexivity.
    + intros name label Hne. unfold counter_value. cbn.
      rewrite lookup_insert_ne by congruence. reflexivity.
Qed.

(** X9.  A document that is empty once [version] and [hogql_filtering]
    are dropped (so also one that held only these keys) is not translated
    here: the result is that of [filter_from_params_to_query] on the empty
    document, the playlist object is left with empty filters, and nothing
    is saved, counted or logged. *)
Theorem empty_filters_are_delegated (p : Playlist) (w : world) (d : pydict) :
  pl_filters p = JDict d ->
  without_version d = [] ->
  convert_filters_to_recordings_query p w =
    (filter_from_params_to_query [], set_pl_filters p (JDict []), w).
Proof.
  intros Hp Hempty. unfold convert_filters_to_recordings_query.
  rewrite Hp. fold (without_version d). rewrite Hempty. reflexivity.
Qed.

(** X10.  A non-empty legacy document that the normalizer accepts is
    written back: the row of the playlist gets the normalized document as
    its filters, one conversion is counted, and the translation goes on
    with the normalized document.  If the row is gone, the save raises
    [DatabaseError] and no conversion is counted.  Either way the playlist
    object already holds the normalized document. *)
Theorem legacy_conversion_is_saved_and_counted
    (p : Playlist) (w : world) (d document : pydict) :
  pl_filters p = JDict d ->
  Py.contains (without_version d) "filter_group" = false ->
  without_version d <> [] ->
  convert_legacy_filters_to_universal_filters (Some (without_version d)) = Ok document ->
  pl_filters (playlist_after p w) = JDict document /\
  (forall row,
     playlists w !! pl_id p = Some row ->
     playlists (world_after p w)
       = <[pl_id p := set_pl_filters row (JDict document)]> (playlists w) /\
     counter_value (world_after p w) REPLAY_PLAYLIST_LEGACY_FILTERS_CONVERTED ""
       = S (counter_value w REPLAY_PLAYLIST_LEGACY_FILTERS_CONVERTED "") /\
     outcome p w = rbind (recordings_query_arguments document) RecordingsQuery_new) /\
  (playlists w !! pl_id p = None ->
     outcome p w = Raise DatabaseError /\ world_after p w = w).
Proof.
  intros Hp Hc Hne Hconv.
  unfold playlist_after, world_after, outcome.
  rewrite (convert_legacy_path p w d document Hp Hc Hne Hconv).
  split; [|split].
  - destruct (playlists w !! pl_id p); reflexivity.
  - intros row ->. cbv zeta. cbn [fst snd].
    match goal with
    | |- context [construct document ?w1] =>
        destruct (construct_world document w1) as [extra ->]
    end.
    split; [reflexivity|]. split.
    + unfold counter_value. cbn. rewrite lookup_insert_eq. reflexivity.
    + apply construct_outcome.
  - intros ->. split; reflexivity.
Qed.

(** X11.  On a document with a group marker whose lists could be filled,
    a [RecordingsQuery] that does not validate is logged exactly once, with
    the filters (without the dropped keys), the error and the lists, and
    the [ValidationError] is raised again; a query that validates is
    returned and nothing is logged.  Nothing else of the world changes. *)
Theorem validation_failure_is_logged_once
    (p : Playlist) (w : world) (d : pydict) (q : RecordingsQuery) :
  pl_filters p = JDict d ->
  Py.contains d "filter_group" = true ->
  recordings_query_arguments d = Ok q ->
  convert_filters_to_recordings_query p w =
    if RecordingsQuery_valid q then
      (Ok q, set_pl_filters p (JDict (without_version d)), w)
    else
      (Raise ValidationError, set_pl_filters p (JDict (without_version d)),
       set_log w
         (log w ++
            [LogConversionFailed (without_version d) ValidationError
               (having_predicates q) (properties q) (events q) (actions q)
               (console_log_filters q) (filter_test_accounts q) (operand q)])).
Proof.
  intros Hp Hc Hq.
  assert (Hc' : Py.contains (without_version d) "filter_group" = true).
  { apply contains_lookup. rewrite without_version_lookup by discriminate.
    apply contains_lookup. exact Hc. }
  rewrite (convert_universal p w d Hp Hc'). unfold construct.
  rewrite recordings_query_arguments_without_version, Hq.
  unfold RecordingsQuery_new. destruct (RecordingsQuery_valid q); reflexivity.
Qed.

(** X12.  Once the translator has run on a playlist whose filters are a
    dictionary, the filters of the playlist object are a dictionary
    without the keys [version] and [hogql_filtering], however the
    translation ended. *)
Theorem version_keys_never_survive (p : Playlist) (w : world) (d : pydict) :
  pl_filters p = JDict d ->
  exists d',
    pl_filters (playlist_after p w) = JDict d' /\
    Py.contains d' "version" = false /\
    Py.contains d' "hogql_filtering" = false.
Proof.
  intros Hp.
  assert (Hwv : forall x, Py.contains (without_version x) "version" = false
                          /\ Py.contains (without_version x) "hogql_filtering" = false).
  { intros x. split.
    - destruct (Py.contains (without_version x) "version") eqn:E; [|reflexivity].
      apply contains_lookup in E as [v Hv]. unfold without_version in Hv.
      rewrite lookup_pop_ne, lookup_pop_eq in Hv by discriminate. discriminate.
    - destruct (Py.contains (without_version x) "hogql_filtering") eqn:E; [|reflexivity].
      apply contains_lookup in E as [v Hv]. unfold without_version in Hv.
      rewrite lookup_pop_eq in Hv. discriminate. }
  destruct (playlist_after_cases p w)
    as [[_ Hno] | [(d0 & Hd & -> & _) | (d0 & doc & Hd & Hc & Hne & Hconv & ->)]].
  - exfalso. exact (Hno d Hp).
  - exists (without_version d0). split; [reflexivity | apply Hwv].
  - destruct (convert_legacy_ok_inv _ _ Hne Hconv) as (a & b & c & dur & ch & _ & ->).
    eexists. split; [reflexivity|]. split; reflexivity.
Qed.

(** X13.  The translator applies no defaults of its own: in every query it
    returns for a document with a group marker, order, date_from, date_to
    and filter_test_accounts are the values of the document (null when the
    key is missing), and the operand is the type of [filter_group], or AND
    when the group has no type. *)
Theorem translator_passes_scalars_through
    (p : Playlist) (w : world) (d : pydict) (q : RecordingsQuery) :
  pl_filters p = JDict d ->
  Py.contains d "filter_group" = true ->
  outcome p w = Ok q ->
  order q = Py.get d "order" /\
  date_from q = Py.get d "date_from" /\
  date_to q = Py.get d "date_to" /\
  filter_test_accounts q = Py.get d "filter_test_accounts" /\
  operand q = operand_of d.
Proof.
  intros Hp Hc Hout. rewrite (outcome_universal p w d Hp Hc) in Hout.
  destruct (recordings_query_arguments d) as [q0|e] eqn:Hargs; [|discriminate].
  cbn [rbind] in Hout. unfold RecordingsQuery_new in Hout.
  destruct (RecordingsQuery_valid q0); [|discriminate]. injection Hout as ->.
  unfold recordings_query_arguments in Hargs.
  destruct (extract_filters d); cbn [rbind] in Hargs; [|discriminate].
  destruct (duration_having_predicates d); cbn [rbind] in Hargs; [|discriminate].
  destruct (Py.iter _); cbn [rbind] in Hargs; [|discriminate].
  destruct (process_filters _ _); cbn [rbind] in Hargs; [|discriminate].
  apply contains_lookup in Hc as [fg Hfg].
  rewrite (get_or_lookup _ _ _ (JDict []) Hfg) in Hargs.
  unfold operand_of. rewrite Hfg.
  destruct fg; cbn [Py.get_or_attr rbind] in Hargs; try discriminate.
  injection Hargs as <-. repeat split.
Qed.

End TranslatorTheorems.

Lemma translator_frame_witness :
  let p := example_playlist legacy_document in
  let w := example_world legacy_document in
  let w' := world_after (H := example_env) p w in
  redis w' = redis w /\
  engine_calls w' = [] /\
  playlists w' !! 8 = None /\
  counter_value w' REPLAY_TEAM_PLAYLIST_COUNT_FAILED "TypeError" = 0%nat /\
  counter_value w' REPLAY_PLAYLIST_LEGACY_FILTERS_CONVERTED "" = 1%nat.
Proof.
  intros p w w'.
  destruct (translator_frame (H := example_env) p w)
    as (Hredis & Hengine & _ & _ & _ & Hrows & Hcounters & _).
  split; [exact Hredis|]. split; [exact Hengine|]. split; [|split].
  - exact (Hrows 8 ltac:(discriminate)).
  - exact (Hcounters REPLAY_TEAM_PLAYLIST_COUNT_FAILED "TypeError" ltac:(discriminate)).
  - reflexivity.
Defined.

Lemma empty_filters_are_delegated_witness :
  let p := example_playlist version_only_document in
  let w := example_world version_only_document in
  convert_filters_to_recordings_query (H := example_env) p w =
    (Ok default_query, example_playlist [], w).
Proof.
  intros p w.
  exact (empty_filters_are_delegated (H := example_env) p w version_only_document
           eq_refl eq_refl).
Defined.

Lemma legacy_conversion_is_saved_and_counted_witness :
  let p := example_playlist legacy_document in
  let w := example_world legacy_document in
  exists document,
    convert_legacy_filters_to_universal_filters (Some legacy_document) = Ok document /\
    playlists (world_after (H := example_env) p w) !! 7 = Some (example_playlist document) /\
    counter_value (world_after (H := example_env) p w)
      REPLAY_PLAYLIST_LEGACY_FILTERS_CONVERTED "" = 1%nat.
Proof.
  intros p w. eexists. split; [reflexivity|].
  destruct (legacy_conversion_is_saved_and_counted (H := example_env) p w
              legacy_document _ eq_refl eq_refl ltac:(discriminate) eq_refl)
    as (_ & Hsaved & _).
  destruct (Hsaved (example_playlist legacy_document) eq_refl) as (Hrows & Hcount & _).
  split; [|exact Hcount].
  rewrite Hrows. reflexivity.
Defined.

Lemma validation_failure_is_logged_once_witness :
  let p := example_playlist universal_document in
  let w := example_world universal_document in
  exists q record,
    recordings_query_arguments (H := rejecting_env) universal_document = Ok q /\
    convert_filters_to_recordings_query (H := rejecting_env) p w =
      (Raise ValidationError,
       example_playlist (without_version universal_document),
       set_log w [record]).
Proof.
  intros p w. eexists _, _. split; [reflexivity|].
  rewrite (validation_failure_is_logged_once (H := rejecting_env) p w
             universal_document _ eq_refl eq_refl eq_refl).
  reflexivity.
Defined.

Lemma version_keys_never_survive_witness :
  let p := example_playlist universal_document in
  Py.contains universal_document "version" = true /\
  exists d',
    pl_filters (playlist_after (H := example_env) p (example_world universal_document))
      = JDict d' /\
    Py.contains d' "version" = false /\
    Py.contains d' "hogql_filtering" = false.
Proof.
  intros p. split; [reflexivity|].
  exact (version_keys_never_survive (H := example_env) p
           (example_world universal_document) universal_document eq_refl).
Defined.

Lemma translator_passes_scalars_through_witness :
  let p := example_playlist universal_document in
  let w := example_world universal_document in
  exists q,
    outcome (H := example_env) p w = Ok q /\
    order q = JNull /\ date_from q = JStr "-7d" /\ operand q = JStr "AND".
Proof.
  intros p w. eexists. split; [reflexivity|].
  destruct (translator_passes_scalars_through (H := example_env) p w
              universal_document _ eq_refl eq_refl eq_refl)
    as (Horder & Hfrom & _ & _ & Hoperand).
  split; [exact Horder|]. split; [exact Hfrom | exact Hoperand].
Defined.

(** ** Normalizing, then translating *)

Section LegacyTranslation.

Context `{Env}.

Lemma convert_legacy_ok_typed
    (filters document : pydict) (events actions properties : list json) :
  filters <> [] ->
  convert_legacy_filters_to_universal_filters (Some filters) = Ok document ->
  legacy_array filters "events" = Some events ->
  legacy_array filters "actions" = Some actions ->
  legacy_array filters "properties" = Some properties ->
  exists duration,
    legacy_duration filters = Ok duration /\
    document =
      [ ("date_from", Py.or_ (Py.get filters "date_from") (JStr "-3d"));
        ("date_to", Py.or_ (Py.get filters "date_to") JNull);
        ("filter_test_accounts", Py.get_or filters "filter_test_accounts" (JBool false));
        ("duration", Py.or_ (JList duration) default_duration);
        ("filter_group",
          two_level_group
            (events ++ actions ++ properties
             ++ console_level_filters filters ++ console_message_filters filters));
        ("order", JStr "start_time") ].
Proof.
  intros Hne Hconv He Ha Hp.
  unfold convert_legacy_filters_to_universal_filters in Hconv.
  destruct filters as [|kv rest]; [congruence|].
  set (doc := kv :: rest) in *.
  destruct (legacy_duration doc) as [duration|e] eqn:Hdur; cbn [rbind] in Hconv;
    [|discriminate].
  rewrite (legacy_array_get_or _ _ _ He), (legacy_array_get_or _ _ _ Ha),
    (legacy_array_get_or _ _ _ Hp) in Hconv.
  rewrite !add_lists in Hconv. cbn [rbind] in Hconv. injection Hconv as <-.
  exists duration. split; [reflexivity|].
  unfold console_level_filters, console_message_filters, is_set, two_level_group.
  rewrite <- !app_assoc. reflexivity.
Qed.

Lemma recordings_query_arguments_leaves (d : pydict) (leaves : list json) :
  inner_group_children d leaves ->
  recordings_query_arguments d =
    rbind (duration_having_predicates d) (fun from_duration =>
    rbind (process_filters (initial_buckets from_duration) leaves) (fun b =>
    Ok (query_from d b))).
Proof.
  intros Hin. unfold recordings_query_arguments.
  rewrite (extract_filters_children _ _ Hin). cbn [rbind Py.iter].
  destruct (duration_having_predicates d) as [hp|e]; [|reflexivity]. cbn [rbind].
  destruct (process_filters _ leaves) as [b|e]; [|reflexivity]. cbn [rbind].
  destruct Hin as (fg & g & gs & Hfg & _).
  unfold query_from, operand_of.
  rewrite (get_or_lookup _ _ _ (JDict []) Hfg), Hfg. reflexivity.
Qed.

Lemma process_filters_console (fs : list json) (b b' : buckets) :
  process_filters b fs = Ok b' ->
  b_console_log_filters b' =
    b_console_log_filters b ++ List.filter (has_type "log_entry") fs.
Proof.
  revert b. induction fs as [|f fs IH]; intros b.
  - intros [= <-]. cbn. rewrite app_nil_r. reflexivity.
  - cbn [process_filters].
    destruct (process_filter b f) as [b1|e] eqn:Hstep; cbn [rbind]; [|discriminate].
    intros Hrest. destruct (process_filter_sorts _ _ _ Hstep) as (_ & _ & _ & Hc & _).
    rewrite (IH _ Hrest), Hc, <- app_assoc, <- List.filter_app. reflexivity.
Qed.

Lemma console_filters_are_log_entries (filters : pydict) :
  List.filter (has_type "log_entry")
    (console_level_filters filters ++ console_message_filters filters)
  = console_level_filters filters ++ console_message_filters filters
  /\ List.filter is_snapshot_source_leaf
       (console_level_filters filters ++ console_message_filters filters) = [].
Proof.
  unfold console_level_filters, console_message_filters.
  destruct (is_set filters "console_logs"), (is_set filters "console_search_query");
    split; reflexivity.
Qed.

(** X14.  Normalizing and translating compose as follows.  In every query
    the translator returns for a non-empty legacy document whose [events],
    [actions] and [properties] are arrays, [console_log_filters] holds the
    log_entry filters among them, in order, followed by the level filter
    made of [console_logs] and the message filter made of
    [console_search_query]; and when no [session_recording_duration] is
    set, the having predicates start with the default one (more than five
    active seconds) and go on with the snapshot-source filters. *)
Theorem legacy_console_and_duration_reach_query
    (p : Playlist) (w : world) (d : pydict)
    (events actions properties : list json) (q : RecordingsQuery) :
  pl_filters p = JDict d ->
  without_version d <> [] ->
  Py.contains (without_version d) "filter_group" = false ->
  legacy_array (without_version d) "events" = Some events ->
  legacy_array (without_version d) "actions" = Some actions ->
  legacy_array (without_version d) "properties" = Some properties ->
  outcome p w = Ok q ->
  console_log_filters q =
    List.filter (has_type "log_entry") (events ++ actions ++ properties)
    ++ console_level_filters (without_version d)
    ++ console_message_filters (without_version d) /\
  (is_set (without_version d) "session_recording_duration" = false ->
   having_predicates q =
     default_duration_predicate
     :: map HavingLeaf
          (List.filter is_snapshot_source_leaf (events ++ actions ++ properties))).
Proof.
  intros Hp Hne Hc He Ha Hpr Hout.
  set (f := without_version d) in *.
  destruct (convert_legacy_filters_to_universal_filters (Some f)) as [doc|e] eqn:Hconv.
  2:{ exfalso. revert Hout. unfold outcome, convert_filters_to_recordings_query.
      rewrite Hp. fold (without_version d). fold f. rewrite Hc.
      apply truthy_dict_nonempty in Hne as ->. cbn [negb]. rewrite Hconv. discriminate. }
  unfold outcome in Hout. rewrite (convert_legacy_path p w d doc Hp Hc Hne Hconv) in Hout.
  destruct (playlists w !! pl_id p) as [row|]; [|discriminate].
  cbv zeta in Hout. cbn [fst] in Hout. rewrite construct_outcome in Hout.
  destruct (recordings_query_arguments doc) as [q0|e] eqn:Hargs; [|discriminate].
  cbn [rbind] in Hout. unfold RecordingsQuery_new in Hout.
  destruct (RecordingsQuery_valid q0); [|discriminate]. injection Hout as ->.
  destruct (convert_legacy_ok_typed f doc events actions properties Hne Hconv He Ha Hpr)
    as (duration & Hdur & ->).
  set (children := events ++ actions ++ properties
                   ++ console_level_filters f ++ console_message_filters f) in *.
  match type of Hargs with
  | recordings_query_arguments ?doc' = _ =>
      assert (Hin : inner_group_children doc' children)
        by (eexists _, _, _; repeat split; reflexivity);
      rewrite (recordings_query_arguments_leaves doc' children Hin) in Hargs
  end.
  destruct (duration_having_predicates _) as [hp|e] eqn:Hhp; [|discriminate].
  cbn [rbind] in Hargs.
  destruct (process_filters _ children) as [b|e] eqn:Hb; [|discriminate].
  cbn [rbind] in Hargs. injection Hargs as <-.
  destruct (console_filters_are_log_entries f) as [Hlog Hsnap].
  split.
  - cbn [console_log_filters query_from].
    rewrite (process_filters_console _ _ _ Hb). cbn [initial_buckets b_console_log_filters app].
    replace children
      with ((events ++ actions ++ properties)
            ++ (console_level_filters f ++ console_message_filters f))
      by (subst children; rewrite <- !app_assoc; reflexivity).
    rewrite List.filter_app, Hlog. reflexivity.
  - intros Hunset. cbn [having_predicates query_from].
    rewrite (process_filters_having _ _ _ Hb). cbn [initial_buckets b_having_predicates].
    replace children
      with ((events ++ actions ++ properties)
            ++ (console_level_filters f ++ console_message_filters f))
      by (subst children; rewrite <- !app_assoc; reflexivity).
    rewrite List.filter_app, Hsnap, app_nil_r.
    unfold legacy_duration in Hdur. unfold is_set in Hunset. rewrite Hunset in Hdur.
    injection Hdur as <-.
    unfold duration_having_predicates, asRecordingPropertyFilter in Hhp. cbn in Hhp.
    destruct (RecordingPropertyFilter_valid _ _ _); [|discriminate].
    injection Hhp as <-. reflexivity.
Qed.

End LegacyTranslation.

Lemma legacy_console_and_duration_reach_query_witness :
  let p := example_playlist console_legacy_document in
  let w := example_world console_legacy_document in
  exists q,
    outcome (H := example_env) p w = Ok q /\
    console_log_filters q =
      [ JDict [ ("key", JStr "level"); ("value", JList [JStr "error"]);
                ("operator", JStr "exact"); ("type", JStr "log_entry") ];
        JDict [ ("key", JStr "message"); ("value", JList [JStr "boom"]);
                ("operator", JStr "exact"); ("type", JStr "log_entry") ] ] /\
    having_predicates q =
      [default_duration_predicate; HavingLeaf (JDict snapshot_source_filter)].
Proof.
  intros p w. eexists. split; [reflexivity|].
  destruct (legacy_console_and_duration_reach_query (H := example_env) p w
              console_legacy_document [pageview_filter] []
              [JDict snapshot_source_filter; browser_filter] _
              eq_refl ltac:(discriminate) eq_refl eq_refl eq_refl eq_refl eq_refl)
    as [Hconsole Hhaving].
  split; [exact Hconsole | exact (Hhaving eq_refl)].
Defined.

(** ** The task *)

Section TaskEffects.

Context `{Env}.

Lemma set_clock_reads_same (w : world) : set_clock_reads w (clock_reads w) = w.
Proof. destruct w. reflexivity. Qed.

(** The cooldown check reads the clock at most once and changes nothing
    else. *)
Lemma within_cooldown_world (existing_value : json) (w : world) :
  exists n, snd (within_cooldown existing_value w) = set_clock_reads w n.
Proof.
  unfold within_cooldown.
  destruct (Py.get_attr existing_value "refreshed_at") as [r|e];
    [|exists (clock_reads w); symmetry; apply set_clock_reads_same].
  destruct (Py.truthy r);
    [|exists (clock_reads w); symmetry; apply set_clock_reads_same].
  destruct (rbind _ _) as [t|e];
    [|exists (clock_reads w); symmetry; apply set_clock_reads_same].
  unfold datetime_now. exists (S (clock_reads w)).
  destruct (seconds_between _ t); reflexivity.
Qed.

(** The cooldown check gives an answer only for an object. *)
Lemma within_cooldown_object (existing_value : json) (w : world) (b : bool) :
  fst (within_cooldown existing_value w) = Ok b -> exists d, existing_value = JDict d.
Proof.
  unfold within_cooldown. destruct existing_value; cbn; try discriminate. eauto.
Qed.

(** The paths through the count itself (lines 327-347) for a cached record
    that is an object: the translation fails; the engine fails; the row of
    the playlist is gone when the time of the count is saved; the count
    succeeds. *)
Lemma run_count_cases (p : Playlist) (existing : pydict) (w : world) :
  let pa := playlist_after p w in
  let wa := world_after p w in
  (exists e,
     outcome p w = Raise e /\
     run_count p (JDict existing) w
       = (Raise e, {| fr_playlist := Some pa; fr_query := None; fr_world := wa |}))
  \/ exists q,
       outcome p w = Ok q /\
       let wq := set_engine_calls wa (engine_calls wa ++ [(q, pl_team pa)]) in
       (exists e,
          list_recordings_from_query q (pl_team pa) = Raise e /\
          run_count p (JDict existing) w
            = (Raise e, {| fr_playlist := Some pa; fr_query := Some q; fr_world := wq |}))
       \/ exists recordings more value,
            list_recordings_from_query q (pl_team pa) = Ok (recordings, more) /\
            let counted_at :=
              {| wall_clock_us := now (clock_reads wa); utcoffset := None |} in
            let wr :=
              set_redis (set_clock_reads wq (S (clock_reads wa)))
                (<[(PLAYLIST_COUNT_REDIS_PREFIX ++ pl_short_id pa)%string
                   := (THIRTY_SIX_HOURS_IN_SECONDS, value)]> (redis wa)) in
            let pc := set_pl_last_counted_at pa (Some counted_at) in
            (playlists wa !! pl_id pa = None /\
             run_count p (JDict existing) w
               = (Raise DatabaseError,
                  {| fr_playlist := Some pc; fr_query := Some q; fr_world := wr |}))
            \/ exists row,
                 playlists wa !! pl_id pa = Some row /\
                 run_count p (JDict existing) w
                   = (Ok tt,
                      {| fr_playlist := Some pc; fr_query := Some q;
                         fr_world :=
                           counter_inc REPLAY_TEAM_PLAYLIST_COUNT_SUCCEEDED ""
                             (set_playlists wr
                                (<[pl_id pa := set_pl_last_counted_at row (Some counted_at)]>
                                   (playlists wa))) |}).
Proof.
  cbv zeta. unfold run_count, playlist_after, world_after, outcome.
  destruct (convert_filters_to_recordings_query p w) as [[[q|e] pa] wa]; cbn [fst snd];
    [|left; eauto].
  right. exists q. split; [reflexivity|].
  destruct (list_recordings_from_query q (pl_team pa)) as [[recordings more]|e];
    [|left; eauto].
  right. unfold datetime_now. cbv zeta. cbn [Py.get_or_attr].
  unfold save_last_counted_at.
  cbn [playlists redis clock_reads set_redis set_clock_reads set_engine_calls
       pl_id set_pl_last_counted_at pl_last_counted_at].
  eexists recordings, more, _. split; [reflexivity|].
  destruct (playlists wa !! pl_id pa) as [row|].
  - right. exists row. split; reflexivity.
  - left. split; reflexivity.
Qed.

(** The paths through the body of the [with] block (lines 304-347): no
    such playlist; the cache cannot be used; the cooldown holds; the
    filters are the default ones; the count itself. *)
Lemma count_body_cases (playlist_id : Z) (w : world) :
  (playlists w !! playlist_id = None /\
   count_body playlist_id w
     = (Raise DoesNotExist, {| fr_playlist := None; fr_query := None; fr_world := w |}))
  \/ exists p n,
       playlists w !! playlist_id = Some p /\
       let w0 := set_clock_reads w n in
       (exists e,
          count_body playlist_id w
            = (Raise e, {| fr_playlist := Some p; fr_query := None; fr_world := w0 |}))
       \/ count_body playlist_id w
            = (Ok tt,
               {| fr_playlist := Some p; fr_query := None;
                  fr_world := counter_inc REPLAY_TEAM_PLAYLIST_COUNT_SKIPPED "cooldown" w0 |})
       \/ (Py.eq (pl_filters p) (JDict DEFAULT_RECORDING_FILTERS) = true /\
           count_body playlist_id w
             = (Ok tt,
                {| fr_playlist := Some p; fr_query := None;
                   fr_world :=
                     counter_inc REPLAY_TEAM_PLAYLIST_COUNT_SKIPPED "default_filters" w0 |}))
       \/ exists existing,
            Py.eq (pl_filters p) (JDict DEFAULT_RECORDING_FILTERS) = false /\
            count_body playlist_id w = run_count p (JDict existing) w0.
Proof.
  unfold count_body.
  destruct (playlists w !! playlist_id) as [p|]; [right | left; split; reflexivity].
  destruct (load_existing_value p w) as [ev|e].
  2:{ exists p, (clock_reads w). split; [reflexivity|]. cbv zeta.
      rewrite set_clock_reads_same. left. eauto. }
  destruct (within_cooldown_world ev w) as [n Hn].
  pose proof (within_cooldown_object ev w) as Hobj.
  destruct (within_cooldown ev w) as [[[|]|e] w1]; cbn [fst snd] in *; subst w1;
    exists p, n; (split; [reflexivity|]); cbv zeta.
  - right; left. reflexivity.
  - destruct (Hobj false eq_refl) as [d ->].
    destruct (Py.eq (pl_filters p) (JDict DEFAULT_RECORDING_FILTERS)) eqn:Hdef.
    + right; right; left. split; reflexivity.
    + right; right; right. exists d. split; reflexivity.
  - left. eauto.
Qed.

(** The translator keeps the identity of the playlist object. *)
Lemma playlist_after_identity (p : Playlist) (w : world) :
  pl_id (playlist_after p w) = pl_id p /\
  pl_short_id (playlist_after p w) = pl_short_id p /\
  pl_team (playlist_after p w) = pl_team p /\
  pl_last_counted_at (playlist_after p w) = pl_last_counted_at p.
Proof.
  destruct (playlist_after_cases p w)
    as [[-> _] | [(d & _ & -> & _) | (d & doc & _ & _ & _ & _ & ->)]];
    repeat split; reflexivity.
Qed.

End TaskEffects.

Section TaskPaths.

Context `{Env}.

(** The handlers, after the body of the [with] block. *)
Lemma task_after_body (playlist_id : Z) (w : world) (r : result unit) (fr : frame) :
  count_body playlist_id w = (r, fr) ->
  count_recordings_that_match_playlist_filters playlist_id w =
    let w1 :=
      set_timer_observations (fr_world fr) (S (timer_observations (fr_world fr))) in
    let short_id := option_map pl_short_id (fr_playlist fr) in
    match r with
    | Ok _ => w1
    | Raise e =>
        if is_does_not_exist e then
          counter_inc REPLAY_TEAM_PLAYLIST_COUNT_UNKNOWN ""
            (set_log w1 (log w1 ++ [LogPlaylistDoesNotExist playlist_id short_id]))
        else
          let filters := option_map pl_filters (fr_playlist fr) in
          let q := query_json (fr_query fr) in
          counter_inc REPLAY_TEAM_PLAYLIST_COUNT_FAILED (exn_class_name e)
            (set_log
               (set_captured w1
                  (captured w1 ++
                     [{| cap_error := e; cap_playlist_id := playlist_id;
                         cap_playlist_short_id := short_id;
                         cap_filters := filters; cap_query := q |}]))
               (log w1 ++ [LogCountFailed playlist_id short_id filters q e]))
    end.
Proof.
  intros Hbody. unfold count_recordings_that_match_playlist_filters. rewrite Hbody.
  destruct r as [|[]]; reflexivity.
Qed.

Lemma outcome_counts_kept_refl (w : world) : outcome_counts_kept w w.
Proof. intros name label _. reflexivity. Qed.

Lemma outcome_counts_kept_counters (w w1 w2 : world) :
  outcome_counts_kept w w1 -> counters w2 = counters w1 -> outcome_counts_kept w w2.
Proof.
  intros Hkept Hc name label Hin. unfold counter_value. rewrite Hc. apply Hkept, Hin.
Qed.

(** The translator counts no outcome, whether the clock was read before
    or not. *)
Lemma world_after_counts (p : Playlist) (w : world) (n : nat) :
  outcome_counts_kept w (world_after p (set_clock_reads w n)).
Proof.
  destruct (convert_world p (set_clock_reads w n))
    as (w1 & extra & -> & [-> | (row & f & Hrow & ->)]).
  - intros name label _. reflexivity.
  - intros name label Hin. unfold counter_value. cbn.
    rewrite lookup_insert_ne; [reflexivity|].
    intros [= <- <-]. cbn in Hin. intuition discriminate.
Qed.

Lemma counter_value_inc_eq (w : world) (name label : string) :
  counter_value (counter_inc name label w) name label = S (counter_value w name label).
Proof. unfold counter_value at 1, counter_inc. cbn. rewrite lookup_insert_eq. reflexivity. Qed.

Lemma counter_value_inc_ne (w : world) (name label name' label' : string) :
  (name', label') <> (name, label) ->
  counter_value (counter_inc name label w) name' label' = counter_value w name' label'.
Proof.
  intros Hne. unfold counter_value, counter_inc. cbn.
  rewrite lookup_insert_ne by congruence. reflexivity.
Qed.

Lemma counted_once_inc (w w1 : world) (name label : string) :
  outcome_counts_kept w w1 ->
  In name outcome_metrics ->
  counted_once w (counter_inc name label w1) name label.
Proof.
  intros Hkept Hin. split.
  - rewrite counter_value_inc_eq, (Hkept _ _ Hin). reflexivity.
  - intros name' label' Hin' Hne. rewrite counter_value_inc_ne by exact Hne.
    apply Hkept, Hin'.
Qed.

Lemma counted_once_counters (w w1 w2 : world) (name label : string) :
  counted_once w w1 name label -> counters w2 = counters w1 ->
  counted_once w w2 name label.
Proof.
  intros [Hone Hothers] Hc. unfold counted_once, counter_value in *. rewrite Hc.
  split; assumption.
Qed.

End TaskPaths.

(** Every path through the task, with the result and the frame of the body
    of the [with] block in the context as [Hbody]. *)
Ltac task_paths playlist_id w :=
  destruct (count_body_cases playlist_id w)
    as [[Hrow Hbody]
       | (pl & n & Hrow
          & [[e Hbody] | [Hbody | [[Hdef Hbody] | (existing & Hdef & Hbody)]]])];
  [ | | | |
    destruct (run_count_cases pl existing (set_clock_reads w n))
      as [(e & Hout & Hrun)
         | (q & Hout
            & [(e & Hlist & Hrun)
              | (recordings & more & value & Hlist
                 & [[Hsaved Hrun] | (row & Hsaved & Hrun)])])];
    rewrite Hrun in Hbody; clear Hrun ];
  rewrite (task_after_body _ _ _ _ Hbody); cbv zeta;
  cbn [fr_world fr_playlist fr_query option_map is_does_not_exist].

(** The world the translator leaves, written out. *)
Ltac translator_shape :=
  match goal with
  | |- context [world_after ?p ?w0] =>
      let w1 := fresh "w1" in
      let extra := fresh "extra" in
      let Hwa := fresh "Hwa" in
      destruct (convert_world p w0) as (w1 & extra & Hwa & [-> | (? & ? & ? & ->)]);
      rewrite ?Hwa in *
  end.

Ltac world_simpl :=
  cbn [playlists redis engine_calls counters timer_observations log captured clock_reads
       set_playlists set_redis set_engine_calls set_counters set_timer_observations
       set_log set_captured set_clock_reads counter_inc fr_world
       cap_error cap_playlist_id cap_playlist_short_id cap_filters cap_query].

Ltac world_simpl_everywhere :=
  cbn [playlists redis engine_calls counters timer_observations log captured clock_reads
       set_playlists set_redis set_engine_calls set_counters set_timer_observations
       set_log set_captured set_clock_reads counter_inc fr_world] in *.

Ltac other_counter :=
  let Heq := fresh in intros Heq; cbv in Heq; congruence.

Ltac counters_simpl :=
  repeat progress
    (unfold counter_value; world_simpl; rewrite ?lookup_insert_eq;
     repeat (rewrite lookup_insert_ne by other_counter)).

Section TaskTheorems.

Context `{Env}.

(** X15.  Every run of the task, whatever the playlist, the cache and the
    outcome of the calls it makes, is observed once by the timer and
    counted once: exactly one of the counters succeeded, failed, unknown
    and skipped goes up, under one label and by one. *)
Theorem task_counts_every_run_once (playlist_id : Z) (w : world) :
  let w' := count_recordings_that_match_playlist_filters playlist_id w in
  timer_observations w' = S (timer_observations w) /\
  exists name label, In name outcome_metrics /\ counted_once w w' name label.
Proof.
  cbv zeta. task_paths playlist_id w.
  all: try destruct (is_does_not_exist e).
  all: split; [try translator_shape; reflexivity | eexists _, _].
  all: split;
    [| first
         [ apply counted_once_inc
         | eapply counted_once_counters; [apply counted_once_inc | reflexivity] ];
       [ first
           [ solve [ eapply outcome_counts_kept_counters;
                       [apply outcome_counts_kept_refl | reflexivity] ]
           | solve [ eapply outcome_counts_kept_counters;
                       [apply world_after_counts | reflexivity] ] ]
       | cbn; auto ] ].
  all: cbn; auto.
Qed.

(** X16.  A run either reports no failure (the exception tracker and the
    counts of failures are as before) or reports exactly one, and then the
    tracker, the log and the counter agree: the error is not
    [DoesNotExist], the last log record carries the playlist id, short id,
    filters, query and error of the tracked exception, and the failure is
    counted under the class name of that error.  The report carries a
    query exactly when the engine was called: then it is the dump of the
    query the engine was given. *)
Theorem failures_are_reported_where_counted (playlist_id : Z) (w : world) :
  let w' := count_recordings_that_match_playlist_filters playlist_id w in
  (captured w' = captured w /\
   forall label,
     counter_value w' REPLAY_TEAM_PLAYLIST_COUNT_FAILED label
     = counter_value w REPLAY_TEAM_PLAYLIST_COUNT_FAILED label)
  \/ exists c,
       captured w' = captured w ++ [c] /\
       cap_playlist_id c = playlist_id /\
       is_does_not_exist (cap_error c) = false /\
       (exists extra,
          log w' = log w ++ extra
                   ++ [LogCountFailed playlist_id (cap_playlist_short_id c)
                         (cap_filters c) (cap_query c) (cap_error c)]) /\
       counter_value w' REPLAY_TEAM_PLAYLIST_COUNT_FAILED (exn_class_name (cap_error c))
       = S (counter_value w REPLAY_TEAM_PLAYLIST_COUNT_FAILED
              (exn_class_name (cap_error c))) /\
       ((cap_query c = None /\ engine_calls w' = engine_calls w)
        \/ exists q team,
             cap_query c = query_json (Some q) /\
             engine_calls w' = engine_calls w ++ [(q, team)]).
Proof.
  cbv zeta. task_paths playlist_id w.
  all: try destruct (is_does_not_exist e) eqn:Hdne.
  all: try translator_shape.
  all: first
    [ left; split; [reflexivity|]; intros label; counters_simpl; reflexivity
    | right; eexists; world_simpl;
      split; [reflexivity|]; split; [reflexivity|];
      split; [first [exact Hdne | reflexivity]|];
      split; [first [ exists []; reflexivity
                    | eexists; rewrite <- app_assoc; reflexivity ]|];
      split; [counters_simpl; reflexivity|];
      first [ left; split; reflexivity | right; eexists _, _; split; reflexivity ] ].
Qed.

(** X17.  A run for a playlist that exists touches nothing of others:
    every other key of the cache and every other row of the playlist table
    are as before; and it either leaves the executions of the engine and
    the whole cache untouched, or has called the engine exactly once, for
    the team of this playlist. *)
Theorem task_touches_only_its_playlist (playlist_id : Z) (w : world) (p : Playlist) :
  playlists w !! playlist_id = Some p ->
  let w' := count_recordings_that_match_playlist_filters playlist_id w in
  (forall k, k <> cache_key p -> redis w' !! k = redis w !! k) /\
  (forall i, i <> pl_id p -> playlists w' !! i = playlists w !! i) /\
  ((engine_calls w' = engine_calls w /\ redis w' = redis w)
   \/ exists q, engine_calls w' = engine_calls w ++ [(q, pl_team p)]).
Proof.
  intros Hp. cbv zeta. unfold cache_key. task_paths playlist_id w.
  all: rewrite Hp in Hrow; first [discriminate | injection Hrow as <-].
  all: try destruct (is_does_not_exist e).
  all: try (destruct (playlist_after_identity p (set_clock_reads w n))
              as (Hid & Hshort & Hteam & _); translator_shape).
  all: split;
    [ intros k Hk; world_simpl; rewrite ?Hshort;
      rewrite ?lookup_insert_ne by congruence; reflexivity
    | split;
      [ intros i Hi; world_simpl; rewrite ?Hid;
        rewrite ?lookup_insert_ne by congruence; reflexivity
      | first [ left; split; reflexivity
              | right; eexists; world_simpl; rewrite ?Hteam; reflexivity ] ] ].
Qed.

(** X18.  For an id no playlist has, the task logs that the playlist does
    not exist (with no short id), counts one unknown outcome, and the timer
    observes the run; the exception tracker, the cache, the engine and the
    playlist table are not touched. *)
Theorem missing_playlist_is_counted_unknown (playlist_id : Z) (w : world) :
  playlists w !! playlist_id = None ->
  count_recordings_that_match_playlist_filters playlist_id w =
    counter_inc REPLAY_TEAM_PLAYLIST_COUNT_UNKNOWN ""
      (set_log (set_timer_observations w (S (timer_observations w)))
         (log w ++ [LogPlaylistDoesNotExist playlist_id None])).
Proof.
  intros Hnone.
  unfold count_recordings_that_match_playlist_filters, count_body.
  rewrite Hnone. reflexivity.
Qed.

(** X19.  A playlist whose filters equal the default ones (as Python
    compares dictionaries: whatever the order of the keys) is never
    counted: in every state of the cache the run calls no engine, writes
    neither the cache nor the playlist table and counts no success; with
    no cached record it is counted as skipped for the reason
    default_filters. *)
Theorem default_filters_are_never_counted (playlist_id : Z) (w : world) (p : Playlist) :
  playlists w !! playlist_id = Some p ->
  Py.eq (pl_filters p) (JDict DEFAULT_RECORDING_FILTERS) = true ->
  let w' := count_recordings_that_match_playlist_filters playlist_id w in
  engine_calls w' = engine_calls w /\
  redis w' = redis w /\
  playlists w' = playlists w /\
  counter_value w' REPLAY_TEAM_PLAYLIST_COUNT_SUCCEEDED ""
  = counter_value w REPLAY_TEAM_PLAYLIST_COUNT_SUCCEEDED "" /\
  (redis w !! cache_key p = None ->
   counter_value w' REPLAY_TEAM_PLAYLIST_COUNT_SKIPPED "default_filters"
   = S (counter_value w REPLAY_TEAM_PLAYLIST_COUNT_SKIPPED "default_filters")).
Proof.
  intros Hp Hdefault. cbv zeta.
  assert (Hquiet :
    let w' := count_recordings_that_match_playlist_filters playlist_id w in
    engine_calls w' = engine_calls w /\ redis w' = redis w /\
    playlists w' = playlists w /\
    counter_value w' REPLAY_TEAM_PLAYLIST_COUNT_SUCCEEDED ""
    = counter_value w REPLAY_TEAM_PLAYLIST_COUNT_SUCCEEDED "").
  { cbv zeta. task_paths playlist_id w.
    all: rewrite Hp in Hrow; first [discriminate | injection Hrow as <-].
    all: try congruence.
    all: try destruct (is_does_not_exist e).
    all: repeat split; try reflexivity; counters_simpl; reflexivity. }
  destruct Hquiet as (He & Hr & Hpl & Hs). repeat split; try assumption.
  intros Hcold. unfold count_recordings_that_match_playlist_filters, count_body.
  rewrite Hp. unfold load_existing_value. unfold cache_key in Hcold. rewrite Hcold.
  change (within_cooldown (JDict []) w) with (@Ok bool false, w). rewrite Hdefault.
  cbv zeta. cbn [fr_world]. counters_simpl. reflexivity.
Qed.

(** *** The float of [total_seconds] *)

Lemma digits2_pos_bounds (p : positive) :
  2 ^ (Zpos (digits2_pos p) - 1) <= Zpos p < 2 ^ Zpos (digits2_pos p).
Proof.
  induction p as [p IH|p IH|]; cbn [digits2_pos].
  - rewrite Pos2Z.inj_succ, Z.pow_succ_r by lia.
    replace (Z.succ (Zpos (digits2_pos p)) - 1) with (Z.succ (Zpos (digits2_pos p) - 1)) by lia.
    rewrite Z.pow_succ_r by lia. lia.
  - rewrite Pos2Z.inj_succ, Z.pow_succ_r by lia.
    replace (Z.succ (Zpos (digits2_pos p)) - 1) with (Z.succ (Zpos (digits2_pos p) - 1)) by lia.
    rewrite Z.pow_succ_r by lia. lia.
  - cbn. lia.
Qed.

Lemma Zdigits2_unique (q d : Z) :
  0 < d -> 2 ^ (d - 1) <= q < 2 ^ d -> Zdigits2 q = d.
Proof.
  intros Hd [Hlo Hhi].
  assert (Hq : 0 < q) by (pose proof (Z.pow_pos_nonneg 2 (d - 1)); lia).
  destruct q as [|p|p]; try lia. cbn [Zdigits2].
  pose proof (digits2_pos_bounds p) as [Hlo' Hhi'].
  set (d' := Zpos (digits2_pos p)) in *.
  destruct (Z.lt_trichotomy d' d) as [Hlt | [Heq | Hgt]]; [|exact Heq|].
  - pose proof (Z.pow_le_mono_r 2 d' (d - 1) ltac:(lia) ltac:(lia)). lia.
  - pose proof (Z.pow_le_mono_r 2 d (d' - 1) ltac:(lia) ltac:(lia)). lia.
Qed.

Lemma shr_1_spec (q : Z) (r s : bool) :
  0 <= q ->
  exists m' b,
    shr_1 {| shr_m := q; shr_r := r; shr_s := s |}
    = {| shr_m := m'; shr_r := b; shr_s := r || s |} /\
    q = 2 * m' + Z.b2z b.
Proof.
  intros Hq. destruct q as [|[p|p|]|p]; try lia; cbn [shr_1].
  - exists 0, false. split; reflexivity.
  - exists (Zpos p), true. split; [reflexivity | cbn; lia].
  - exists (Zpos p), false. split; [reflexivity | cbn; lia].
  - exists 0, true. split; reflexivity.
Qed.

Lemma shr_fexp_53 (q e : Z) (l : location) :
  2 ^ 52 <= q < 2 ^ 53 -> -1074 <= e ->
  shr_fexp 53 1024 q e l = (shr_record_of_loc q l, e).
Proof.
  intros Hq He. unfold shr_fexp. rewrite (Zdigits2_unique q 53) by (cbn in *; lia).
  unfold fexp, emin. replace (Z.max (53 + e - 53) (3 - 1024 - 53) - e) with 0 by lia.
  reflexivity.
Qed.

Lemma shr_fexp_54 (q e : Z) (l : location) :
  2 ^ 53 <= q < 2 ^ 54 -> -1074 <= e ->
  shr_fexp 53 1024 q e l = (shr_1 (shr_record_of_loc q l), e + 1).
Proof.
  intros Hq He. unfold shr_fexp. rewrite (Zdigits2_unique q 54) by (cbn in *; lia).
  unfold fexp, emin. replace (Z.max (54 + e - 53) (3 - 1024 - 53) - e) with 1 by lia.
  reflexivity.
Qed.

(** The second shift of [binary_round_aux], on a rounded mantissa between
    2^52 and 2^53 (included). *)
Lemma second_shift (sx : bool) (m e : Z) :
  2 ^ 52 <= m <= 2 ^ 53 -> -1074 <= e <= 900 ->
  exists m_f n,
    (let '(mrs, e') := shr_fexp 53 1024 m e loc_Exact in
     match shr_m mrs with
     | Z0 => S754_zero sx
     | Zpos m' => if e' <=? 1024 - 53 then S754_finite sx m' e' else S754_infinity sx
     | Zneg _ => S754_nan
     end) = S754_finite sx m_f (e + n) /\
    0 <= n <= 1 /\ Zpos m_f * 2 ^ n = m.
Proof.
  intros Hm He.
  destruct (Z.lt_ge_cases m (2 ^ 53)) as [Hlt | Hge].
  - rewrite shr_fexp_53 by lia. cbn [shr_record_of_loc shr_m].
    destruct m as [|p|p]; try (cbn in *; lia).
    exists p, 0. replace (e <=? 1024 - 53) with true by (symmetry; apply Z.leb_le; lia).
    rewrite Z.add_0_r. split; [reflexivity|]. split; [lia|]. cbn; lia.
  - assert (m = 2 ^ 53) as -> by lia.
    rewrite shr_fexp_54 by (cbn; lia). cbn [shr_record_of_loc].
    change (shr_1 {| shr_m := 2 ^ 53; shr_r := false; shr_s := false |})
      with {| shr_m := 2 ^ 52; shr_r := false; shr_s := false |}.
    cbn [shr_m]. change (2 ^ 52) with (Zpos (Z.to_pos (2 ^ 52))).
    exists (Z.to_pos (2 ^ 52)), 1.
    replace (e + 1 <=? 1024 - 53) with true by (symmetry; apply Z.leb_le; lia).
    split; [reflexivity|]. split; [lia | reflexivity].
Qed.

Lemma round_nearest_even_cases (m : Z) (l : location) :
  round_nearest_even m l = m
  \/ (round_nearest_even m l = m + 1 /\ loc_ge_half l = true).
Proof.
  destruct l as [|[]]; cbn; auto. destruct (Z.even m); auto.
Qed.

Lemma loc_of_shr_record_of_loc (m : Z) (l : location) :
  loc_of_shr_record (shr_record_of_loc m l) = l /\ shr_m (shr_record_of_loc m l) = m.
Proof. destruct l as [|[]]; split; reflexivity. Qed.

Lemma binary_round_aux_value (sx : bool) (q e : Z) (l : location) :
  2 ^ 52 <= q < 2 ^ 54 -> -1074 <= e <= 800 ->
  exists m_f n V,
    binary_round_aux 53 1024 sx q e l = S754_finite sx m_f (e + n) /\
    0 <= n <= 2 /\
    V = Zpos m_f * 2 ^ n /\
    ((q < 2 ^ 53 /\ (V = q \/ (V = q + 1 /\ loc_ge_half l = true)))
     \/ (2 ^ 53 <= q /\ 1 <= n /\ q - 1 <= V <= q + 1 /\ exists V', V = 2 * V')).
Proof.
  intros Hq He. unfold binary_round_aux.
  destruct (Z.lt_ge_cases q (2 ^ 53)) as [Hlt | Hge].
  - rewrite shr_fexp_53 by lia.
    destruct (loc_of_shr_record_of_loc q l) as [-> ->].
    destruct (round_nearest_even_cases q l) as [-> | [-> Hhalf]].
    + destruct (second_shift sx q e ltac:(lia) ltac:(lia)) as (m_f & n & Hres & Hn & HV).
      exists m_f, n, q. split; [exact Hres|]. split; [lia|]. split; [lia|]. left. auto.
    + destruct (second_shift sx (q + 1) e ltac:(lia) ltac:(lia)) as (m_f & n & Hres & Hn & HV).
      exists m_f, n, (q + 1). split; [exact Hres|]. split; [lia|]. split; [lia|]. left. auto.
  - rewrite shr_fexp_54 by lia.
    assert (Hrec : exists rb sb, shr_record_of_loc q l = {| shr_m := q; shr_r := rb; shr_s := sb |})
      by (destruct l as [|[]]; eexists _, _; reflexivity).
    destruct Hrec as (rb & sb & ->).
    destruct (shr_1_spec q rb sb ltac:(lia)) as (m' & b & -> & Hqm).
    cbn [shr_m].
    assert (Hround :
      round_nearest_even m' (loc_of_shr_record {| shr_m := m'; shr_r := b; shr_s := rb || sb |}) = m'
      \/ (round_nearest_even m' (loc_of_shr_record {| shr_m := m'; shr_r := b; shr_s := rb || sb |}) = m' + 1
          /\ b = true)).
    { destruct b, (rb || sb); cbn; auto. destruct (Z.even m'); auto. }
    assert (Hm' : 2 ^ 52 <= m' < 2 ^ 53) by (destruct b; cbn [Z.b2z] in Hqm; lia).
    destruct Hround as [-> | [-> Hb]].
    + destruct (second_shift sx m' (e + 1) ltac:(lia) ltac:(lia)) as (m_f & n & Hres & Hn & HV).
      exists m_f, (1 + n), (2 * m').
      split; [rewrite Hres; f_equal; lia|]. split; [lia|].
      split; [rewrite Z.pow_add_r by lia; change (2 ^ 1) with 2; lia|].
      right. split; [lia|]. split; [lia|]. split; [destruct b; cbn [Z.b2z] in Hqm; lia | eauto].
    + subst b. cbn [Z.b2z] in Hqm.
      destruct (second_shift sx (m' + 1) (e + 1) ltac:(lia) ltac:(lia)) as (m_f & n & Hres & Hn & HV).
      exists m_f, (1 + n), (2 * (m' + 1)).
      split; [rewrite Hres; f_equal; lia|]. split; [lia|].
      split; [rewrite Z.pow_add_r by lia; change (2 ^ 1) with 2; lia|].
      right. split; [lia|]. split; [lia|]. split; [lia | eauto].
Qed.

Lemma new_location_half (r : Z) :
  loc_ge_half (new_location 1000000 r) = true -> 1000000 <= 2 * r.
Proof.
  unfold new_location. change (Z.even 1000000) with true. cbv iota.
  unfold new_location_even. destruct (r =? 0); [discriminate|].
  destruct (Z.compare_spec (2 * r) 1000000); cbn [loc_ge_half]; intros; try discriminate; lia.
Qed.

(** The quotient of the microseconds by 10^6, rounded to a double, has the
    whole seconds as its integer part when they are fewer than 2^34. *)
Lemma SFdiv_whole_seconds (sx : bool) (m : positive) :
  Zpos m < 2 ^ 34 * 1000000 ->
  exists m_f e_f,
    SFdiv 53 1024 (S754_finite sx m 0) (S754_finite false 1000000 0)
    = S754_finite sx m_f e_f /\
    e_f < 0 /\
    Zpos m_f / 2 ^ (- e_f) = Zpos m / 1000000.
Proof.
  intros Hm.
  pose proof (digits2_pos_bounds m) as [Hlo Hhi].
  set (D := Zpos (digits2_pos m)) in *. set (M := Zpos m) in *.
  assert (HD1 : 1 <= D) by (unfold D; lia).
  assert (HD : D <= 54).
  { assert (Hlt : 2 ^ (D - 1) < 2 ^ 54) by (change (2 ^ 54) with 18014398509481984; lia).
    apply Z.pow_lt_mono_r_iff in Hlt; lia. }
  set (s := 73 - D).
  assert (Hs : 19 <= s <= 72) by (unfold s; lia).
  set (P := 2 ^ s).
  assert (HP19 : 2 ^ 19 <= P) by (apply Z.pow_le_mono_r; lia).
  assert (HMP : 2 ^ 72 <= M * P < 2 ^ 73).
  { assert (E1 : 2 ^ (D - 1) * P = 2 ^ 72).
    { unfold P. rewrite <- Z.pow_add_r by lia. f_equal. unfold s. lia. }
    assert (E2 : 2 ^ D * P = 2 ^ 73).
    { unfold P. rewrite <- Z.pow_add_r by lia. f_equal. unfold s. lia. }
    assert (HPpos : 0 < P) by (change (2 ^ 19) with 524288 in HP19; lia).
    split.
    - rewrite <- E1. apply Z.mul_le_mono_nonneg_r; lia.
    - rewrite <- E2. apply Z.mul_lt_mono_pos_r; lia. }
  unfold SFdiv, SFdiv_core_binary. rewrite xorb_false_r.
  cbn [Zdigits2]. fold D.
  change (Zpos (digits2_pos 1000000)) with 20.
  unfold fexp, emin.
  replace (Z.min (Z.max (D + 0 - (20 + 0) - 53) (3 - 1024 - 53)) (0 - 0)) with (- s)
    by (unfold s; lia).
  replace (0 - 0 - - s) with s by lia.
  assert (Hshift :
    match s with
    | 0 => Zpos m
    | Zpos _ => Z.shiftl (Zpos m) s
    | Zneg _ => 0
    end = M * P).
  { destruct s eqn:Es; try lia. rewrite Z.shiftl_mul_pow2 by lia. reflexivity. }
  rewrite Hshift.
  pose proof (Z_div_mod (M * P) 1000000 ltac:(lia)) as Hdiv.
  destruct (Z.div_eucl (M * P) 1000000) as [q r]. destruct Hdiv as [Hqr Hr].
  assert (Hq : 2 ^ 52 <= q < 2 ^ 54).
  { change (2 ^ 72) with 4722366482869645213696 in HMP.
    change (2 ^ 73) with 9444732965739290427392 in HMP.
    change (2 ^ 52) with 4503599627370496. change (2 ^ 54) with 18014398509481984. lia. }
  destruct (binary_round_aux_value sx q (- s) (new_location 1000000 r) Hq ltac:(lia))
    as (m_f & n & V & Hres & Hn & HV & Hcases).
  exists m_f, (- s + n). split; [exact Hres|]. split; [lia|].
  replace (- (- s + n)) with (s - n) by lia.
  set (B := 2 ^ (s - n)).
  assert (HB : 0 < B) by (apply Z.pow_pos_nonneg; lia).
  assert (HPB : P = B * 2 ^ n).
  { unfold P, B. rewrite <- Z.pow_add_r by lia. f_equal. lia. }
  pose proof (Z_div_mod M 1000000 ltac:(lia)) as Hkf.
  unfold Z.div. destruct (Z.div_eucl M 1000000) as [k f]. cbn [fst].
  destruct Hkf as [Hkf Hf].
  assert (HP20 : 2 ^ 53 <= q -> 2 ^ 20 <= P).
  { intros Hbig.
    assert (HMP' : M * P <= (2 ^ 34 * 1000000 - 1) * P)
      by (apply Z.mul_le_mono_nonneg_r; lia).
    assert (Hs20 : 20 <= s).
    { destruct (Z.eq_dec s 19) as [E | E]; [|lia]. exfalso.
      assert (HP : P = 524288) by (unfold P; rewrite E; reflexivity).
      change (2 ^ 53) with 9007199254740992 in Hbig.
      change (2 ^ 34) with 17179869184 in HMP'. lia. }
    apply Z.pow_le_mono_r; lia. }
  assert (Hgoal : B * k <= Zpos m_f < B * k + B).
  { assert (Hexp : M * P = 1000000 * (B * k) * 2 ^ n + (B * f) * 2 ^ n)
      by (rewrite Hkf, HPB; ring).
    assert (HBf : 0 <= B * f <= B * 999999)
      by (split; [apply Z.mul_nonneg_nonneg | apply Z.mul_le_mono_nonneg_l]; lia).
    set (KB := B * k) in *. set (FB := B * f) in *.
    change (2 ^ 19) with 524288 in HP19. change (2 ^ 20) with 1048576 in HP20.
    change (2 ^ 53) with 9007199254740992 in *.
    assert (Hn3 : n = 0 \/ n = 1 \/ n = 2) by lia.
    destruct Hn3 as [-> | [-> | ->]];
      [change (2 ^ 0) with 1 in * | change (2 ^ 1) with 2 in * | change (2 ^ 2) with 4 in *];
      destruct Hcases as [[Hsmall [-> | [-> Hhalf]]] | (Hbig & Hn1 & HVq & V' & HV')];
      try apply new_location_half in Hhalf;
      try specialize (HP20 Hbig); lia. }
  symmetry. apply (Z.div_unique (Zpos m_f) B k (Zpos m_f - B * k)); lia.
Qed.

(** Below 2^34 seconds the float of [total_seconds] truncates to the
    integer quotient of the microseconds by 10^6. *)
Lemma truncated_total_seconds (us : Z) :
  Z.abs us < 2 ^ 34 * 1000000 ->
  int_of_float (total_seconds us) = Ok (Z.quot us 1000000).
Proof.
  intros Hus. destruct us as [|m|m]; [reflexivity| |]; cbn [total_seconds].
  - destruct (SFdiv_whole_seconds false m Hus) as (m_f & e_f & -> & He & Hdiv).
    cbn [int_of_float cond_Zopp].
    replace (0 <=? e_f) with false by (symmetry; apply Z.leb_gt; lia).
    rewrite Hdiv, Z.quot_div_nonneg by lia. reflexivity.
  - destruct (SFdiv_whole_seconds true m Hus) as (m_f & e_f & -> & He & Hdiv).
    cbn [int_of_float cond_Zopp].
    replace (0 <=? e_f) with false by (symmetry; apply Z.leb_gt; lia).
    rewrite Hdiv. change (Zneg m) with (- Zpos m).
    rewrite Z.quot_opp_l, Z.quot_div_nonneg by lia. reflexivity.
Qed.

(** Beyond 2^34 seconds the float can round up: one microsecond short of
    63850161600 seconds the code finds 63850161600 whole seconds, the
    integer quotient one less. *)
Lemma total_seconds_rounds_up :
  int_of_float (total_seconds (63850161600 * 1000000 - 1)) = Ok 63850161600 /\
  Z.quot (63850161600 * 1000000 - 1) 1000000 = 63850161599.
Proof. split; vm_compute; reflexivity. Qed.

(** The whole seconds of a span of microseconds are at most a cooldown
    that is not negative exactly when the span is below the cooldown plus
    one second. *)
Lemma truncated_seconds_boundary (elapsed_us cooldown : Z) :
  0 <= cooldown ->
  (Z.quot elapsed_us 1000000 <=? cooldown) = (elapsed_us <? (cooldown + 1) * 1000000).
Proof.
  intros Hc.
  destruct (Z.ltb_spec elapsed_us ((cooldown + 1) * 1000000)) as [Hlt | Hge].
  - apply Z.leb_le.
    destruct (Z.le_gt_cases 0 elapsed_us) as [Hpos | Hneg].
    + rewrite Z.quot_div_nonneg by lia.
      apply Z.lt_succ_r. apply Z.div_lt_upper_bound; lia.
    + pose proof (Z.quot_opp_l elapsed_us 1000000 ltac:(lia)) as Hopp.
      pose proof (Z.quot_pos (- elapsed_us) 1000000 ltac:(lia) ltac:(lia)) as Hq.
      lia.
  - apply Z.leb_gt. rewrite Z.quot_div_nonneg by lia.
    apply Z.lt_le_trans with (m := (cooldown + 1)); [lia|].
    apply Z.div_le_lower_bound; lia.
Qed.

(** X20.  The cooldown counts whole seconds.  For a cached record whose
    [refreshed_at] is a naive timestamp less than 2^34 seconds (some 544
    years) away from the clock, the number the code gets by truncating the
    float of [total_seconds()] is the integer quotient of the elapsed
    microseconds by 10^6; so, with a cooldown that is not negative, the
    record holds the task off exactly as long as the clock is less than
    the cooldown plus one second past it: up to a second longer than the
    setting says. *)
Theorem cooldown_counts_whole_seconds
    (w : world) (existing : pydict) (stamp : string) (refreshed : Z) :
  Py.lookup existing "refreshed_at" = Some (JStr stamp) ->
  stamp <> "" ->
  fromisoformat stamp = Ok {| wall_clock_us := refreshed; utcoffset := None |} ->
  0 <= PLAYLIST_COUNTER_PROCESSING_COOLDOWN_SECONDS ->
  Z.abs (now (clock_reads w) - refreshed) < 2 ^ 34 * 1000000 ->
  let last_refreshed_at := {| wall_clock_us := refreshed; utcoffset := None |} in
  seconds_between_float (fst (datetime_now w)) last_refreshed_at
  = seconds_between (fst (datetime_now w)) last_refreshed_at /\
  fst (within_cooldown (JDict existing) w)
  = Ok (now (clock_reads w) - refreshed
          <? (PLAYLIST_COUNTER_PROCESSING_COOLDOWN_SECONDS + 1) * 1000000).
Proof.
  intros Hl Hne Hiso Hc Hspan. cbv zeta. split.
  - unfold seconds_between_float, seconds_between, datetime_now.
    cbn [fst utcoffset wall_clock_us]. apply truncated_total_seconds, Hspan.
  - unfold within_cooldown.
    cbn [Py.get_attr Py.subscript_str]. rewrite (get_lookup _ _ _ Hl).
    cbn [Py.truthy]. apply String.eqb_neq in Hne. rewrite Hne. cbn [negb].
    rewrite (getitem_lookup _ _ _ Hl). cbn [rbind datetime_fromisoformat].
    rewrite Hiso. unfold datetime_now, seconds_between. cbn [utcoffset wall_clock_us fst].
    rewrite (truncated_seconds_boundary _ _ Hc). reflexivity.
Qed.

(** X21.  A count that succeeds (the cached record, if any, is an object
    past its cooldown, the filters are not the default ones, the
    translation and the engine succeed) calls the engine once with the
    translated query for the team of the playlist; caches, for 36 hours
    and under the key of the playlist, the session ids found and whether
    there are more, with the session ids of the record it replaces as
    [previous_ids] (null if there was none) and the time of the count as
    [refreshed_at]; stamps the row of the playlist with that time; counts
    one success and reports no failure. *)
Theorem successful_count_is_cached_and_stamped
    (playlist_id : Z) (w w0 : world) (p : Playlist) (existing : pydict)
    (q : RecordingsQuery) (found : list Recording) (has_more : bool) :
  playlists w !! playlist_id = Some p ->
  pl_id p = playlist_id ->
  load_existing_value p w = Ok (JDict existing) ->
  within_cooldown (JDict existing) w = (Ok false, w0) ->
  Py.eq (pl_filters p) (JDict DEFAULT_RECORDING_FILTERS) = false ->
  outcome p w0 = Ok q ->
  list_recordings_from_query q (pl_team p) = Ok (found, has_more) ->
  let w' := count_recordings_that_match_playlist_filters playlist_id w in
  let counted_at := {| wall_clock_us := now (clock_reads w0); utcoffset := None |} in
  engine_calls w' = engine_calls w ++ [(q, pl_team p)] /\
  redis w' =
    <[cache_key p :=
        (36 * 60 * 60,
         json_dumps
           (JDict [ ("session_ids", JList (map (fun r => JStr (session_id r)) found));
                    ("has_more", JBool has_more);
                    ("previous_ids", Py.get_or existing "session_ids" JNull);
                    ("refreshed_at", JStr (isoformat counted_at)) ]))]> (redis w) /\
  (exists row,
     playlists w' !! playlist_id = Some row /\
     pl_last_counted_at row = Some counted_at) /\
  counter_value w' REPLAY_TEAM_PLAYLIST_COUNT_SUCCEEDED ""
  = S (counter_value w REPLAY_TEAM_PLAYLIST_COUNT_SUCCEEDED "") /\
  captured w' = captured w.
Proof.
  intros Hp Hid Hload Hcool Hdef Hout Hlist. cbv zeta. subst playlist_id.
  destruct (within_cooldown_world (JDict existing) w) as [n Hn].
  rewrite Hcool in Hn. cbn [snd] in Hn. subst w0.
  unfold count_recordings_that_match_playlist_filters, count_body.
  rewrite Hp, Hload, Hcool, Hdef. unfold run_count.
  destruct (playlist_after_identity p (set_clock_reads w n)) as (Hpid & Hshort & Hteam & _).
  destruct (convert_world p (set_clock_reads w n)) as (w1 & extra & Hwa & Hw1).
  unfold outcome, playlist_after, world_after in *.
  destruct (convert_filters_to_recordings_query p (set_clock_reads w n)) as [[r pa] wa].
  cbn [fst snd] in *. subst r wa. rewrite Hteam, Hlist.
  unfold datetime_now. cbv zeta. cbn [Py.get_or_attr]. unfold save_last_counted_at.
  cbn [playlists redis clock_reads set_redis set_clock_reads set_engine_calls set_log
       pl_id set_pl_last_counted_at pl_last_counted_at].
  rewrite Hpid, Hshort. unfold cache_key.
  destruct Hw1 as [-> | (row & f & Hrow & ->)].
  - cbn [playlists set_clock_reads]. rewrite Hp. cbv zeta.
    repeat split; try reflexivity.
    + eexists. world_simpl. rewrite lookup_insert_eq. split; reflexivity.
    + counters_simpl. reflexivity.
  - world_simpl. rewrite lookup_insert_eq. cbv zeta.
    repeat split; try reflexivity.
    + eexists. world_simpl. rewrite lookup_insert_eq. split; reflexivity.
    + counters_simpl. reflexivity.
Qed.

(** X22.  A run never removes the row of its playlist nor changes its
    short id or team, and it changes [last_counted_at] only when it counts
    a success. *)
Theorem stamp_only_on_success (playlist_id : Z) (w : world) (p : Playlist) :
  playlists w !! playlist_id = Some p ->
  let w' := count_recordings_that_match_playlist_filters playlist_id w in
  exists row',
    playlists w' !! playlist_id = Some row' /\
    pl_id row' = pl_id p /\
    pl_short_id row' = pl_short_id p /\
    pl_team row' = pl_team p /\
    (pl_last_counted_at row' = pl_last_counted_at p
     \/ counter_value w' REPLAY_TEAM_PLAYLIST_COUNT_SUCCEEDED ""
        = S (counter_value w REPLAY_TEAM_PLAYLIST_COUNT_SUCCEEDED "")).
Proof.
  intros Hp. cbv zeta. task_paths playlist_id w.
  all: rewrite Hp in Hrow; first [discriminate | injection Hrow as <-].
  all: try destruct (is_does_not_exist e).
  all: try (destruct (playlist_after_identity p (set_clock_reads w n))
              as (Hid & _ & _ & _); translator_shape).
  all: world_simpl.
  all: try (exists p; split; [exact Hp | repeat split; left; reflexivity]).
  all: world_simpl_everywhere; try rewrite Hid in *.
  all: destruct (decide (pl_id p = playlist_id)) as [<- | Hother];
    [ rewrite ?lookup_insert_eq in *
    | rewrite ?lookup_insert_ne in * by exact Hother;
      exists p; split; [exact Hp | repeat split; left; reflexivity] ].
  all: repeat match goal with
       | Hsome : Some _ = Some _ |- _ => injection Hsome as <-
       | Hone : ?l = Some ?a, Htwo : ?l = Some ?b |- _ =>
           rewrite Hone in Htwo; injection Htwo as <-
       end.
  all: eexists; (split; [reflexivity|]); cbn; repeat split.
  all: first [ left; reflexivity | right; counters_simpl; reflexivity ].
Qed.

(** X23.  A cached record whose [refreshed_at] carries a UTC offset fails
    the run: the naive [datetime.now()] cannot be subtracted from it, so
    the task reports a [TypeError] (with the filters of the playlist and no
    query) and counts one failure under that name, having read the clock
    once; it calls no engine and leaves the cache and the playlist table
    as they were. *)
Theorem aware_refresh_time_fails_the_count
    (playlist_id : Z) (w : world) (p : Playlist) (ttl : Z) (raw : string)
    (existing : pydict) (stamp : string) (refreshed offset : Z) :
  playlists w !! playlist_id = Some p ->
  redis w !! cache_key p = Some (ttl, raw) ->
  raw <> "" ->
  json_loads raw = Ok (JDict existing) ->
  Py.lookup existing "refreshed_at" = Some (JStr stamp) ->
  stamp <> "" ->
  fromisoformat stamp = Ok {| wall_clock_us := refreshed; utcoffset := Some offset |} ->
  let w' := count_recordings_that_match_playlist_filters playlist_id w in
  captured w' =
    captured w ++
      [{| cap_error := TypeError; cap_playlist_id := playlist_id;
          cap_playlist_short_id := Some (pl_short_id p);
          cap_filters := Some (pl_filters p); cap_query := None |}] /\
  counter_value w' REPLAY_TEAM_PLAYLIST_COUNT_FAILED "TypeError"
  = S (counter_value w REPLAY_TEAM_PLAYLIST_COUNT_FAILED "TypeError") /\
  clock_reads w' = S (clock_reads w) /\
  engine_calls w' = engine_calls w /\
  redis w' = redis w /\
  playlists w' = playlists w.
Proof.
  intros Hp Hr Hraw Hloads Hl Hstamp Hiso. cbv zeta.
  unfold count_recordings_that_match_playlist_filters, count_body.
  rewrite Hp. unfold load_existing_value. unfold cache_key in Hr. rewrite Hr.
  apply String.eqb_neq in Hraw. rewrite Hraw. cbn [negb]. rewrite Hloads.
  unfold within_cooldown. cbn [Py.get_attr Py.subscript_str].
  rewrite (get_lookup _ _ _ Hl). cbn [Py.truthy].
  apply String.eqb_neq in Hstamp. rewrite Hstamp. cbn [negb].
  rewrite (getitem_lookup _ _ _ Hl). cbn [rbind datetime_fromisoformat].
  rewrite Hiso. unfold datetime_now, seconds_between. cbn [utcoffset].
  cbv zeta. cbn [fr_world fr_playlist fr_query option_map query_json exn_class_name].
  repeat split. counters_simpl. reflexivity.
Qed.

End TaskTheorems.

Lemma task_touches_only_its_playlist_witness :
  let w := example_world universal_document in
  let w' := count_recordings_that_match_playlist_filters (H := impatient_env) 7 w in
  length (engine_calls w') = 1%nat /\
  (forall k, k <> "playlist_count:abc123" -> redis w' !! k = redis w !! k) /\
  (forall i, i <> 7 -> playlists w' !! i = playlists w !! i).
Proof.
  intros w w'.
  destruct (task_touches_only_its_playlist (H := impatient_env) 7 w
              (example_playlist universal_document) eq_refl)
    as (Hcache & Hrows & _).
  split; [reflexivity|]. split; [exact Hcache | exact Hrows].
Defined.

Lemma missing_playlist_is_counted_unknown_witness :
  let w' :=
    count_recordings_that_match_playlist_filters (H := example_env) 8
      (example_world universal_document) in
  log w' = [LogPlaylistDoesNotExist 8 None] /\
  counter_value w' REPLAY_TEAM_PLAYLIST_COUNT_UNKNOWN "" = 1%nat /\
  captured w' = [].
Proof.
  cbv zeta.
  rewrite (missing_playlist_is_counted_unknown (H := example_env) 8
             (example_world universal_document) eq_refl).
  repeat split; reflexivity.
Defined.

Lemma default_filters_are_never_counted_witness :
  let w := cold_world reordered_default_filters in
  let w' := count_recordings_that_match_playlist_filters (H := example_env) 7 w in
  reordered_default_filters <> DEFAULT_RECORDING_FILTERS /\
  engine_calls w' = [] /\
  redis w' = ∅ /\
  counter_value w' REPLAY_TEAM_PLAYLIST_COUNT_SKIPPED "default_filters" = 1%nat.
Proof.
  intros w w'.
  destruct (default_filters_are_never_counted (H := example_env) 7 w
              (example_playlist reordered_default_filters) eq_refl eq_refl)
    as (Hengine & Hcache & _ & _ & Hskipped).
  split; [discriminate|]. split; [exact Hengine|]. split; [exact Hcache|].
  exact (Hskipped eq_refl).
Defined.

Lemma cooldown_counts_whole_seconds_witness :
  let w := example_world universal_document in
  PLAYLIST_COUNTER_PROCESSING_COOLDOWN_SECONDS (Env := example_env) = 300 /\
  fst (within_cooldown (H := example_env) cached_record w) = Ok true /\
  fst (within_cooldown (H := example_env) cached_record (set_clock_reads w 290))
  = Ok true /\
  fst (within_cooldown (H := example_env) cached_record (set_clock_reads w 291))
  = Ok false /\
  seconds_between_float
    (fst (datetime_now (H := example_env) (set_clock_reads w 290)))
    {| wall_clock_us := refreshed_us; utcoffset := None |} = Ok 300.
Proof.
  intros w. split; [reflexivity|].
  pose proof (fun n Hspan =>
    cooldown_counts_whole_seconds (H := example_env) (set_clock_reads w n)
      cached_record_fields "2024-05-01T12:00:00" refreshed_us
      eq_refl ltac:(discriminate) eq_refl ltac:(discriminate) Hspan) as Hb.
  split; [exact (proj2 (Hb 0%nat eq_refl))|].
  split; [exact (proj2 (Hb 290%nat eq_refl))|].
  split; [exact (proj2 (Hb 291%nat eq_refl))|].
  rewrite (proj1 (Hb 290%nat eq_refl)). reflexivity.
Defined.

Lemma successful_count_is_cached_and_stamped_witness :
  let w := example_world universal_document in
  let w' := count_recordings_that_match_playlist_filters (H := impatient_env) 7 w in
  let counted_at := {| wall_clock_us := refreshed_us + 11 * 1000000; utcoffset := None |} in
  redis w' =
    <["playlist_count:abc123" :=
        (129600,
         json_dumps (Env := impatient_env)
           (JDict [ ("session_ids", JList [JStr "s2"]);
                    ("has_more", JBool false);
                    ("previous_ids", JList [JStr "s1"]);
                    ("refreshed_at", JStr (isoformat (Env := impatient_env) counted_at)) ]))]>
      (redis w) /\
  (exists row, playlists w' !! 7 = Some row /\ pl_last_counted_at row = Some counted_at) /\
  counter_value w' REPLAY_TEAM_PLAYLIST_COUNT_SUCCEEDED "" = 1%nat.
Proof.
  intros w w' counted_at.
  destruct (successful_count_is_cached_and_stamped (H := impatient_env) 7 w
              (set_clock_reads w 1) (example_playlist universal_document)
              cached_record_fields
              _ [{| session_id := "s2" |}] false
              eq_refl eq_refl eq_refl eq_refl eq_refl eq_refl eq_refl)
    as (_ & Hcache & Hrow & Hcount & _).
  split; [exact Hcache|]. split; [exact Hrow | exact Hcount].
Defined.

Lemma stamp_only_on_success_witness :
  let w := example_world universal_document in
  let w' := count_recordings_that_match_playlist_filters (H := impatient_env) 7 w in
  exists row',
    playlists w' !! 7 = Some row' /\
    pl_short_id row' = "abc123" /\
    pl_last_counted_at row' <> None /\
    counter_value w' REPLAY_TEAM_PLAYLIST_COUNT_SUCCEEDED "" = 1%nat.
Proof.
  intros w w'.
  destruct (stamp_only_on_success (H := impatient_env) 7 w
              (example_playlist universal_document) eq_refl)
    as (row' & Hrow & _ & Hshort & _ & _).
  exists row'. split; [exact Hrow|]. split; [exact Hshort|].
  split; [|reflexivity].
  vm_compute in Hrow. injection Hrow as <-. discriminate.
Defined.

Lemma aware_refresh_time_fails_the_count_witness :
  let w := example_world universal_document in
  let w' := count_recordings_that_match_playlist_filters (H := aware_env) 7 w in
  counter_value w' REPLAY_TEAM_PLAYLIST_COUNT_FAILED "TypeError" = 1%nat /\
  engine_calls w' = [] /\
  redis w' = redis w.
Proof.
  intros w w'.
  destruct (aware_refresh_time_fails_the_count (H := aware_env) 7 w
              (example_playlist universal_document) THIRTY_SIX_HOURS_IN_SECONDS
              cached_text cached_record_fields "2024-05-01T12:00:00" refreshed_us 7200
              eq_refl eq_refl ltac:(discriminate) eq_refl eq_refl ltac:(discriminate)
              eq_refl)
    as (_ & Hfailed & _ & Hengine & Hcache & _).
  split; [exact Hfailed|]. split; [exact Hengine | exact Hcache].
Defined.

(** ** Enqueueing the counts *)

Section EnqueueTheorems.

Variable all_playlists : Z -> list Playlist.

(** The loop of lines 403-405, with what was delayed and counted before. *)
Lemma delay_all_effects (rows : list Playlist) (delayed : list Z) (w : world) :
  fst (delay_all rows delayed w) = delayed ++ map pl_id rows /\
  counter_value (snd (delay_all rows delayed w)) REPLAY_TEAM_PLAYLISTS_IN_TEAM_COUNT ""
  = (counter_value w REPLAY_TEAM_PLAYLISTS_IN_TEAM_COUNT "" + length rows)%nat /\
  (forall name label,
     (name, label) <> (REPLAY_TEAM_PLAYLISTS_IN_TEAM_COUNT, "") ->
     counter_value (snd (delay_all rows delayed w)) name label
     = counter_value w name label) /\
  set_counters (snd (delay_all rows delayed w)) (counters w) = w.
Proof.
  revert delayed w. induction rows as [|playlist rows IH]; intros delayed w.
  - cbn. rewrite app_nil_r, Nat.add_0_r. repeat split. destruct w; reflexivity.
  - cbn [delay_all map length].
    destruct (IH (delayed ++ [pl_id playlist])
                 (counter_inc REPLAY_TEAM_PLAYLISTS_IN_TEAM_COUNT "" w))
      as (Hdelayed & Hcount & Hothers & Hrest).
    rewrite Hdelayed, Hcount. repeat split.
    + rewrite <- app_assoc. reflexivity.
    + unfold counter_value at 1, counter_inc. cbn. rewrite lookup_insert_eq. cbn. lia.
    + intros name label Hne. rewrite (Hothers _ _ Hne).
      unfold counter_value, counter_inc. cbn.
      rewrite lookup_insert_ne by congruence. reflexivity.
    + match type of Hrest with
      | set_counters ?x ?c = _ =>
          transitivity (set_counters (set_counters x c) (counters w));
          [destruct x; reflexivity | rewrite Hrest; destruct w; reflexivity]
      end.
Qed.

(** X24.  Whatever [PLAYLIST_COUNTER_PROCESSING_MAX_ALLOWED_TEAM_ID] is,
    the enqueueing does one of two things.  If the setting is neither a
    non-zero integer nor [True], it raises [Exception] with the message
    that the setting is not set, before anything is delayed or counted: so
    also for 0.  Otherwise it goes through the rows of the queryset for
    the integer value of the setting, which is not 0 ([True] counts as 1).
    The early return for a setting equal to 0 is therefore never taken. *)
Theorem enqueue_raises_unless_nonzero_integer (setting : json) (w : world) :
  ((forall z, setting = JInt z -> z = 0) /\ setting <> JBool true /\
   enqueue_recordings_that_match_playlist_filters all_playlists setting w
   = (Raise (Exception [JStr "PLAYLIST_COUNTER_PROCESSING_MAX_ALLOWED_TEAM_ID is not set"]),
      w))
  \/ exists z,
       z <> 0 /\
       (setting = JInt z \/ (setting = JBool true /\ z = 1)) /\
       enqueue_recordings_that_match_playlist_filters all_playlists setting w
       = (Ok (fst (delay_all (all_playlists z) [] w)),
          snd (delay_all (all_playlists z) [] w)).
Proof.
  unfold enqueue_recordings_that_match_playlist_filters.
  destruct setting as [|[|]|z|f|s|l|d].
  - left. repeat split; discriminate.
  - right. exists 1. split; [discriminate|]. split; [right; auto|].
    cbn. destruct (delay_all _ _ _). reflexivity.
  - left. repeat split; discriminate.
  - destruct (Z.eq_dec z 0) as [-> | Hz].
    + left. repeat split; [intros z [= <-]; reflexivity | discriminate].
    + right. exists z. split; [exact Hz|]. split; [left; reflexivity|].
      apply Z.eqb_neq in Hz. cbn. rewrite Hz. cbn.
      destruct (delay_all _ _ _). reflexivity.
  - left. repeat split; try discriminate. destruct f; reflexivity.
  - left. repeat split; try discriminate. cbn. rewrite orb_true_r. reflexivity.
  - left. repeat split; try discriminate. cbn. rewrite orb_true_r. reflexivity.
  - left. repeat split; try discriminate. cbn. rewrite orb_true_r. reflexivity.
Qed.

(** X25.  With a setting that is a non-zero integer, the enqueueing
    delays one task per row of the queryset for that team id, in the order
    of the rows, counts each of them once in
    [replay_playlist_with_filters_in_team_count], and changes nothing else
    of the world. *)
Theorem enqueue_delays_every_row_once (z : Z) (w : world) :
  z <> 0 ->
  let r := enqueue_recordings_that_match_playlist_filters all_playlists (JInt z) w in
  fst r = Ok (map pl_id (all_playlists z)) /\
  counter_value (snd r) REPLAY_TEAM_PLAYLISTS_IN_TEAM_COUNT ""
  = (counter_value w REPLAY_TEAM_PLAYLISTS_IN_TEAM_COUNT "" + length (all_playlists z))%nat /\
  (forall name label,
     (name, label) <> (REPLAY_TEAM_PLAYLISTS_IN_TEAM_COUNT, "") ->
     counter_value (snd r) name label = counter_value w name label) /\
  set_counters (snd r) (counters w) = w.
Proof.
  intros Hz. cbv zeta. unfold enqueue_recordings_that_match_playlist_filters.
  apply Z.eqb_neq in Hz. cbn [Py.truthy is_int Py.eq int_value negb orb]. rewrite Hz.
  cbn [negb orb].
  pose proof (delay_all_effects (all_playlists z) [] w) as Heffects.
  destruct (delay_all (all_playlists z) [] w) as [delayed w'].
  cbn [fst snd app] in *. destruct Heffects as (-> & Hcount & Hothers & Hrest).
  repeat split; assumption.
Qed.

End EnqueueTheorems.

Lemma enqueue_raises_unless_nonzero_integer_witness :
  let w := example_world universal_document in
  enqueue_recordings_that_match_playlist_filters due_playlists (JInt 0) w
  = (Raise (Exception [JStr "PLAYLIST_COUNTER_PROCESSING_MAX_ALLOWED_TEAM_ID is not set"]),
     w) /\
  fst (enqueue_recordings_that_match_playlist_filters due_playlists (JBool true) w)
  = Ok [7; 9].
Proof.
  intros w. split.
  - destruct (enqueue_raises_unless_nonzero_integer due_playlists (JInt 0) w)
      as [(_ & _ & Hraise) | (z & Hz & [[= <-] | [[=] _]] & _)].
    + exact Hraise.
    + exfalso. apply Hz. reflexivity.
  - destruct (enqueue_raises_unless_nonzero_integer due_playlists (JBool true) w)
      as [(_ & Hno & _) | (z & _ & [[=] | [_ ->]] & ->)].
    + exfalso. apply Hno. reflexivity.
    + reflexivity.
Defined.

Lemma enqueue_delays_every_row_once_witness :
  let w := example_world universal_document in
  let r := enqueue_recordings_that_match_playlist_filters due_playlists (JInt 2) w in
  fst r = Ok [7; 9] /\
  counter_value (snd r) REPLAY_TEAM_PLAYLISTS_IN_TEAM_COUNT "" = 2%nat.
Proof.
  intros w r.
  destruct (enqueue_delays_every_row_once due_playlists 2 w ltac:(discriminate))
    as (Hdelayed & Hcount & _).
  split; [exact Hdelayed | exact Hcount].
Defined.

(** * The fallback of the dispatch and the duration array *)

Section DispatchFallback.

Context `{Env}.

Lemma process_filters_properties (fs : list json) (b b' : buckets) :
  process_filters b fs = Ok b' ->
  b_properties b' = b_properties b ++ List.filter is_property_leaf fs.
Proof.
  revert b. induction fs as [|f fs IH]; intros b.
  - intros [= <-]. cbn. rewrite app_nil_r. reflexivity.
  - cbn [process_filters].
    destruct (process_filter b f) as [b1|e] eqn:Hstep; cbn [rbind]; [|discriminate].
    intros Hrest. destruct (process_filter_sorts _ _ _ Hstep) as (_ & _ & _ & _ & Hp & _).
    rewrite (IH _ Hrest), Hp, <- app_assoc, <- List.filter_app. reflexivity.
Qed.

(** A turn of the loop that ends in [properties.append(f)]: [properties]
    has the leaf as its new last entry, the other four lists are as they
    were, and the leaf is one that goes to [properties]. *)
Lemma appended_to_properties (b : buckets) (f : pydict) :
  process_filter b (JDict f) = Ok (append_property b (JDict f)) ->
  is_property_leaf (JDict f) = true /\
  exists b',
    process_filter b (JDict f) = Ok b' /\
    b_properties b' = b_properties b ++ [JDict f] /\
    b_events b' = b_events b /\
    b_actions b' = b_actions b /\
    b_console_log_filters b' = b_console_log_filters b /\
    b_having_predicates b' = b_having_predicates b.
Proof.
  intros Hstep. split.
  - destruct (process_filter_sorts _ _ _ Hstep) as (_ & _ & _ & _ & Hp & _).
    cbn [append_property b_properties] in Hp. apply app_inv_head in Hp.
    cbn [List.filter] in Hp. destruct (is_property_leaf (JDict f)); [reflexivity | discriminate].
  - eexists. split; [exact Hstep|]. repeat split.
Qed.

(** C10.  The dispatch of the translator is total over the kinds of
    leaf.  A leaf whose type is none of events, actions, log_entry, hogql
    and recording is appended to [properties]: after the turn of the loop
    [properties] is what it was followed by the leaf, and [events],
    [actions], [console_log_filters] and [having_predicates] are what
    they were.  The same holds of a leaf of type recording whose key is
    neither visited_page nor snapshot_source with a truthy value (so a
    snapshot_source leaf with an empty value goes to [properties]).  The
    loop body returns on every leaf that is an object, whatever its type,
    and puts it in exactly one list; the loop returns on every list of
    objects, with [properties] extended by the leaves that go there, in
    order; and on a document whose leaves are objects the translator
    reaches the construction of the query whenever the duration step
    returns, the [properties] of the query being those leaves. *)
Theorem leaf_dispatch_total :
  (forall (b : buckets) (f : pydict),
     (forall t, In t dispatched_types -> Py.get f "type" <> JStr t) ->
     is_property_leaf (JDict f) = true /\
     exists b',
       process_filter b (JDict f) = Ok b' /\
       b_properties b' = b_properties b ++ [JDict f] /\
       b_events b' = b_events b /\
       b_actions b' = b_actions b /\
       b_console_log_filters b' = b_console_log_filters b /\
       b_having_predicates b' = b_having_predicates b) /\
  (forall (b : buckets) (f : pydict),
     Py.get f "type" = JStr "recording" ->
     Py.get f "key" <> JStr "visited_page" ->
     ~ (Py.get f "key" = JStr "snapshot_source"
        /\ Py.truthy (Py.get f "value") = true) ->
     is_property_leaf (JDict f) = true /\
     exists b',
       process_filter b (JDict f) = Ok b' /\
       b_properties b' = b_properties b ++ [JDict f] /\
       b_events b' = b_events b /\
       b_actions b' = b_actions b /\
       b_console_log_filters b' = b_console_log_filters b /\
       b_having_predicates b' = b_having_predicates b) /\
  (forall (b : buckets) (f : pydict),
     exists b',
       process_filter b (JDict f) = Ok b' /\
       bucket_size b' = S (bucket_size b)) /\
  (forall (b : buckets) (fs : list pydict),
     exists b',
       process_filters b (map JDict fs) = Ok b' /\
       b_properties b' = b_properties b ++ List.filter is_property_leaf (map JDict fs)) /\
  (forall (p : Playlist) (w : world) (d : pydict) (fs : list pydict)
          (from_duration : list having_predicate),
     pl_filters p = JDict d ->
     inner_group_children d (map JDict fs) ->
     duration_having_predicates d = Ok from_duration ->
     exists q,
       outcome p w = RecordingsQuery_new q /\
       properties q = List.filter is_property_leaf (map JDict fs)).
Proof.
  split; [|split; [|split; [|split]]].
  - intros b f Hother.
    exact (appended_to_properties b f (process_filter_other_type b f Hother)).
  - intros b f Ht Hk Hs.
    exact (appended_to_properties b f (process_filter_recording_other b f Ht Hk Hs)).
  - intros b f. destruct (process_filter_dict b f) as (b' & Hb' & _).
    exists b'. split; [exact Hb' | exact (process_filter_grows_by_one _ _ _ Hb')].
  - intros b fs. destruct (process_filters_dicts fs b) as (b' & Hb' & _).
    exists b'. split; [exact Hb' | exact (process_filters_properties _ _ _ Hb')].
  - intros p w d fs hp Hp Hin Hdur.
    rewrite (outcome_universal_leaves p w d _ Hp Hin), Hdur. cbn [rbind].
    destruct (process_filters_dicts fs (initial_buckets hp)) as (b' & Hb' & _).
    rewrite Hb'. cbn [rbind]. exists (query_from d b'). split; [reflexivity|].
    cbn [properties query_from]. rewrite (process_filters_properties _ _ _ Hb').
    reflexivity.
Qed.

End DispatchFallback.

Lemma leaf_dispatch_total_witness :
  let d := document_with (JList [duration_gt_60])
             [JDict person_filter; JDict empty_snapshot_source_filter] in
  (exists b',
     process_filter (initial_buckets []) (JDict person_filter) = Ok b' /\
     b_properties b' = [JDict person_filter] /\
     b_events b' = [] /\ b_actions b' = [] /\
     b_console_log_filters b' = [] /\ b_having_predicates b' = []) /\
  (exists b',
     process_filter (initial_buckets []) (JDict empty_snapshot_source_filter) = Ok b' /\
     b_properties b' = [JDict empty_snapshot_source_filter] /\
     b_events b' = [] /\ b_actions b' = [] /\
     b_console_log_filters b' = [] /\ b_having_predicates b' = []) /\
  exists q,
    outcome (H := example_env) (example_playlist d) (example_world d)
      = RecordingsQuery_new (H := example_env) q /\
    properties q = [JDict person_filter; JDict empty_snapshot_source_filter].
Proof.
  intros d.
  destruct (leaf_dispatch_total (H := example_env)) as (Hother & Hrec & _ & _ & Hquery).
  split; [|split].
  - refine (proj2 (Hother (initial_buckets []) person_filter _)).
    intros t Ht. simpl in Ht.
    repeat (destruct Ht as [<- | Ht]; [discriminate|]). destruct Ht.
  - refine (proj2 (Hrec (initial_buckets []) empty_snapshot_source_filter
                     eq_refl _ _)); [discriminate|].
    intros [_ Hv]. discriminate Hv.
  - apply (Hquery (example_playlist d) (example_world d) d
             [person_filter; empty_snapshot_source_filter]
             [HavingFilter {| rpf_key := JStr "duration"; rpf_operator := JStr "gt";
                              rpf_value := JInt 60 |}]).
    + reflexivity.
    + apply document_with_children.
    + reflexivity.
Defined.

Section DurationArray.

Context `{Env}.







End DurationArray.


